(** * sync_github_to_sheets: a shallow embedding and its verified properties

    The script [sync_github_to_sheets.py] reads its configuration from the
    environment, fetches pull requests (and, per pull request, issue events
    and commits) from the GitHub REST API through [paginate], and writes
    either one row per pull request or a per-account counter table to a
    Google spreadsheet.

    Pure code is embedded as Rocq functions.  Effectful code runs in the
    monad [M] over a [world] that holds the environment variables, the
    files, the clock, what the GitHub API answers, the spreadsheets and the
    chronological [trace] of external effects. *)

From Stdlib Require Import ZArith Lia Ascii Sorting.Sorted Permutation.
From stdpp Require Import base option list strings pretty gmap.

Local Open Scope Z_scope.

(** ** Python strings *)

Module Py.

(** The double quote character, code 34. *)
Definition dquote : ascii := ascii_of_nat 34.

(** Truth value of a [str]: non-empty. *)
Definition truthy (s : string) : bool :=
  match s with EmptyString => false | String _ _ => true end.

(** Truth value of an [Optional[str]]: neither [None] nor empty. *)
Definition truthy_opt (o : option string) : bool :=
  match o with Some s => truthy s | None => false end.

(** [a or b] on optional strings. *)
Definition or_else (o : option string) (d : option string) : option string :=
  if truthy_opt o then o else d.

(** ASCII white space as [str.isspace] has it: TAB..CR, FS..US, space. *)
Definition is_space (c : ascii) : bool :=
  let n := nat_of_ascii c in
  ((9 <=? n)%nat && (n <=? 13)%nat) || ((28 <=? n)%nat && (n <=? 32)%nat).

Fixpoint lstrip (s : string) : string :=
  match s with
  | String c s' => if is_space c then lstrip s' else s
  | EmptyString => EmptyString
  end.

(** [rstrip]: a character stays when it is not white space or when
    something stays after it. *)
Fixpoint rstrip (s : string) : string :=
  match s with
  | String c s' =>
      match rstrip s' with
      | EmptyString => if is_space c then EmptyString else String c EmptyString
      | r => String c r
      end
  | EmptyString => EmptyString
  end.

Definition strip (s : string) : string := rstrip (lstrip s).

Definition lower_char (c : ascii) : ascii :=
  let n := nat_of_ascii c in
  if ((65 <=? n)%nat && (n <=? 90)%nat) then ascii_of_nat (n + 32) else c.

Fixpoint lower (s : string) : string :=
  match s with
  | String c s' => String (lower_char c) (lower s')
  | EmptyString => EmptyString
  end.

(** [s.split(c)] for a one-character separator: never the empty list. *)
Fixpoint split (c : ascii) (s : string) : list string :=
  match s with
  | EmptyString => [EmptyString]
  | String a s' =>
      if Ascii.eqb a c then EmptyString :: split c s'
      else match split c s' with
           | p :: ps => String a p :: ps
           | [] => [String a EmptyString]
           end
  end.

(** [sub in s]. *)
Fixpoint contains (sub s : string) : bool :=
  String.prefix sub s ||
  match s with
  | String _ s' => contains sub s'
  | EmptyString => false
  end.

Fixpoint index_of (c : ascii) (s : string) : option nat :=
  match s with
  | EmptyString => None
  | String a s' => if Ascii.eqb a c then Some O else S <$> index_of c s'
  end.

Fixpoint drop_chars (n : nat) (s : string) : string :=
  match n, s with
  | S n', String _ s' => drop_chars n' s'
  | _, _ => s
  end.

(** [s.find(c, start)] for a one-character [c] and [0 <= start]:
    the least index at or after [start], or [-1]. *)
Definition find (c : ascii) (s : string) (start : Z) : Z :=
  if Z.of_nat (String.length s) <? start then -1
  else match index_of c (drop_chars (Z.to_nat start) s) with
       | Some i => start + Z.of_nat i
       | None => -1
       end.

(** A slice bound as Python normalises it: negative bounds count from
    the end, then the bound is clamped to [0, len]. *)
Definition clamp (len i : Z) : Z :=
  if i <? 0 then Z.max 0 (i + len) else Z.min i len.

(** [s[a:b]]. *)
Definition slice (s : string) (a b : Z) : string :=
  let len := Z.of_nat (String.length s) in
  let a' := clamp len a in
  let b' := clamp len b in
  String.substring (Z.to_nat a') (Z.to_nat (b' - a')) s.

(** [sep.join(l)]. *)
Fixpoint join (sep : string) (l : list string) : string :=
  match l with
  | [] => EmptyString
  | [x] => x
  | x :: l' => x +:+ sep +:+ join sep l'
  end.

Definition digit_of (c : ascii) : option Z :=
  let n := nat_of_ascii c in
  if ((48 <=? n)%nat && (n <=? 57)%nat) then Some (Z.of_nat n - 48) else None.

(** Decimal digits with single underscores between them; [ok] tells
    whether the previous character was a digit. *)
Fixpoint int_digits (s : string) (acc : Z) (ok : bool) : option Z :=
  match s with
  | EmptyString => if ok then Some acc else None
  | String c s' =>
      match digit_of c with
      | Some d => int_digits s' (acc * 10 + d) true
      | None =>
          if Ascii.eqb c "_"%char && ok then int_digits s' acc false else None
      end
  end.

(** The limit of [sys.get_int_max_str_digits()] on conversions between
    [int] and [str]. *)
Definition max_str_digits : Z := 4300.

Fixpoint count_digits (s : string) : Z :=
  match s with
  | EmptyString => 0
  | String c s' =>
      match digit_of c with
      | Some _ => 1 + count_digits s'
      | None => count_digits s'
      end
  end.

(** [int(s)] on an ASCII string: [None] stands for [ValueError], which
    is raised for a malformed literal and for one of more than 4300
    digits. *)
Definition int (s : string) : option Z :=
  if max_str_digits <? count_digits s then None
  else
    match strip s with
    | String "-" s' => Z.opp <$> int_digits s' 0 false
    | String "+" s' => int_digits s' 0 false
    | s' => int_digits s' 0 false
    end.

(** [str(n)] for an [int]. *)
Definition str (n : Z) : string := pretty n.

(** [str(n)] and [f"{n}"] raise [ValueError] for an [int] of more than
    4300 digits. *)
Definition str_fits (n : Z) : bool := Z.abs n <? 10 ^ max_str_digits.

Arguments str_fits : simpl never.

End Py.

Example strip_example : Py.strip "  a b  " = "a b".
Proof. reflexivity. Qed.

Example split_example : Py.split ","%char "a,b,,c" = ["a"; "b"; ""; "c"].
Proof. reflexivity. Qed.

Example slice_example : Py.slice "hello" 1 (-1) = "ell".
Proof. reflexivity. Qed.

Example int_example : Py.int " -1_000 " = Some (-1000).
Proof. reflexivity. Qed.

Example str_example : Py.str 100 = "100".
Proof. vm_compute. reflexivity. Qed.

(** ** Data: GitHub records, responses, worksheets *)

(** JSON objects of the GitHub API are records whose fields are the keys
    the script reads.  [None] stands for an absent key or a JSON null,
    both of which [dict.get] turns into Python's [None]. *)

Record account := { login : option string }.

Record team := { slug : option string }.

Record pull_request := {
  pr_number : option Z;
  pr_title : option string;
  pr_user : option account;
  pr_created_at : option string;
  pr_html_url : option string;
  pr_merged_at : option string;
  pr_merged_by : option account;
  pr_closed_at : option string;
  pr_state : option string
}.

Record issue_event := {
  ev_event : option string;
  ev_created_at : option string;
  ev_requested_reviewer : option account;
  ev_requested_team : option team;
  ev_actor : option account
}.

Record git_author := { date : option string }.

Record git_commit := { author : option git_author }.

Record pr_commit := { commit : option git_commit }.

(** What [resp.json()] gives: a list; an object, with its ['items'] list
    or without the key ['items']; an object whose ['items'] cannot be
    iterated (null, a number, a boolean); some other JSON value; or no
    JSON at all. *)
Inductive json_body (A : Type) :=
| BodyList (items : list A)
| BodyObject (items : option (list A))
| BodyBadItems
| BodyScalar
| BodyInvalid.

Arguments BodyList {A} items.
Arguments BodyObject {A} items.
Arguments BodyBadItems {A}.
Arguments BodyScalar {A}.
Arguments BodyInvalid {A}.

Record response (A : Type) := {
  status_code : Z;
  headers : list (string * string);
  body : json_body A
}.

Arguments status_code {A} r.
Arguments headers {A} r.
Arguments body {A} r.

(** Query parameters of a request, in insertion order. *)
Definition query := list (string * string).

(** A cell of a spreadsheet row: Python's [None], an [int] or a [str]. *)
Inductive cell := CNone | CInt (n : Z) | CStr (s : string).

Definition row := list cell.

Definition worksheet := list row.

(** ** Exceptions, outcomes and the world *)

Inductive exception :=
| HTTPError (status : Z)
| ValueError (msg : string)
| TypeError (msg : string)
| AttributeError (msg : string)
| OSError (msg : string)
| OverflowError (msg : string)
| RequestException (msg : string)
| SheetsError (msg : string).

(** [SystemExit] derives from [BaseException] only, everything else the
    script can raise derives from [Exception]. *)
Inductive raised :=
| SystemExit (msg : string)
| Exception (e : exception).

(** How a computation ends.  [Blocked]: a blocking call never returned. *)
Inductive outcome (A : Type) :=
| Returned (a : A)
| Raised (r : raised)
| Blocked.

Arguments Returned {A} a.
Arguments Raised {A} r.
Arguments Blocked {A}.

(** [open(path).read()]. *)
Inductive file_read :=
| FileText (text : string)
| FileNotFound
| FileFails (msg : string).

(** [shutil.which("gh")] and [subprocess.run(["gh", "auth", "token"])]. *)
Inductive gh_cli :=
| GhAbsent
| GhRaises
| GhRan (returncode : Z) (stdout : string).

Inductive effect :=
| HttpGet (url : string) (params : option query)
| Sleep (seconds : Z)
| Stdout (line : string)
| Stderr (line : string)
| SheetsOpen (key : string)
| SheetsAddWorksheet (key title : string)
| SheetsRowValues (key title : string) (n : Z)
| SheetsAppend (key title : string) (rows : list row)
| SheetsClear (key title : string).

(** The world of a run.  [url_refused] and [sleep_refused] say which URLs
    the HTTP client and which waits (at which time) the platform's
    [time.sleep] refuse with an exception; see [session_get_error] and
    [sleep_error]. *)
Record world := {
  environ : gmap string string;
  files : string -> file_read;
  gh : gh_cli;
  clock : Z;
  pulls_api : list (response pull_request);
  events_api : Z -> list (response issue_event);
  commits_api : Z -> list (response pr_commit);
  sa_info_ok : string -> bool;
  sa_file_ok : string -> bool;
  url_refused : string -> option exception;
  sleep_refused : Z -> Z -> option exception;
  spreadsheets : gmap string (list (string * worksheet));
  trace : list effect
}.

Definition emit (e : effect) (w : world) : world :=
  {| environ := environ w; files := files w; gh := gh w; clock := clock w;
     pulls_api := pulls_api w; events_api := events_api w;
     commits_api := commits_api w; sa_info_ok := sa_info_ok w;
     sa_file_ok := sa_file_ok w;
     url_refused := url_refused w; sleep_refused := sleep_refused w;
     spreadsheets := spreadsheets w;
     trace := trace w ++ [e] |}.

(** A [time.sleep(s)] that returns: the clock has moved on by [s]
    seconds. *)
Definition sleep (s : Z) (w : world) : world :=
  {| environ := environ w; files := files w; gh := gh w; clock := clock w + s;
     pulls_api := pulls_api w; events_api := events_api w;
     commits_api := commits_api w; sa_info_ok := sa_info_ok w;
     sa_file_ok := sa_file_ok w;
     url_refused := url_refused w; sleep_refused := sleep_refused w;
     spreadsheets := spreadsheets w;
     trace := trace w ++ [Sleep s] |}.

Definition set_pulls_api (s : list (response pull_request)) (w : world) : world :=
  {| environ := environ w; files := files w; gh := gh w; clock := clock w;
     pulls_api := s; events_api := events_api w;
     commits_api := commits_api w; sa_info_ok := sa_info_ok w;
     sa_file_ok := sa_file_ok w;
     url_refused := url_refused w; sleep_refused := sleep_refused w;
     spreadsheets := spreadsheets w;
     trace := trace w |}.

Definition set_events_api (n : Z) (s : list (response issue_event)) (w : world) : world :=
  {| environ := environ w; files := files w; gh := gh w; clock := clock w;
     pulls_api := pulls_api w;
     events_api := fun m => if decide (m = n) then s else events_api w m;
     commits_api := commits_api w; sa_info_ok := sa_info_ok w;
     sa_file_ok := sa_file_ok w;
     url_refused := url_refused w; sleep_refused := sleep_refused w;
     spreadsheets := spreadsheets w;
     trace := trace w |}.

Definition set_commits_api (n : Z) (s : list (response pr_commit)) (w : world) : world :=
  {| environ := environ w; files := files w; gh := gh w; clock := clock w;
     pulls_api := pulls_api w; events_api := events_api w;
     commits_api := fun m => if decide (m = n) then s else commits_api w m;
     sa_info_ok := sa_info_ok w;
     sa_file_ok := sa_file_ok w;
     url_refused := url_refused w; sleep_refused := sleep_refused w;
     spreadsheets := spreadsheets w;
     trace := trace w |}.

Definition set_spreadsheets (s : gmap string (list (string * worksheet))) (w : world) : world :=
  {| environ := environ w; files := files w; gh := gh w; clock := clock w;
     pulls_api := pulls_api w; events_api := events_api w;
     commits_api := commits_api w; sa_info_ok := sa_info_ok w;
     sa_file_ok := sa_file_ok w;
     url_refused := url_refused w; sleep_refused := sleep_refused w;
     spreadsheets := s;
     trace := trace w |}.

(** The state and exception monad of the script. *)
Definition M (A : Type) : Type := world -> outcome A * world.

Definition ret {A} (a : A) : M A := fun w => (Returned a, w).

Definition bind {A B} (m : M A) (k : A -> M B) : M B :=
  fun w =>
    match m w with
    | (Returned a, w') => k a w'
    | (Raised r, w') => (Raised r, w')
    | (Blocked, w') => (Blocked, w')
    end.

Definition raise {A} (r : raised) : M A := fun w => (Raised r, w).

Definition perform (e : effect) : M unit := fun w => (Returned tt, emit e w).

Definition print (line : string) : M unit := perform (Stdout line).

Definition getenv (k d : string) : M string :=
  fun w => (Returned (default d (environ w !! k)), w).

Notation "'let*' x ':=' m 'in' k" := (bind m (fun x => k))
  (at level 10, x name, m at level 100, k at level 200).

(** ** paginate *)

Definition GITHUB_API_URL : string := "https://api.github.com".

(** [headers.get(name)]: header names compare without case. *)
Definition header_get (name : string) (hs : list (string * string)) : option string :=
  snd <$> List.find (fun kv => String.eqb (Py.lower (fst kv)) (Py.lower name)) hs.

(** [params.setdefault(k, v)]. *)
Definition setdefault (k v : string) (q : query) : query :=
  if existsb (fun kv => String.eqb (fst kv) k) q then q else q ++ [(k, v)].

(** The text [rel="next"]. *)
Definition rel_next : string :=
  "rel=" +:+ String Py.dquote ("next" +:+ String Py.dquote EmptyString).

(** Lines 112-122: the URL of the first part of the Link header that
    contains [rel="next"], cut out between its first [<] and the next [>]. *)
Definition next_link (link : string) : option string :=
  if Py.truthy link then
    match List.find (Py.contains rel_next) (map Py.strip (Py.split ","%char link)) with
    | Some part =>
        let start := Py.find "<"%char part 0 + 1 in
        let end_ := Py.find ">"%char part start in
        Some (Py.slice part start end_)
    | None => None
    end
  else None.

(** [resp.raise_for_status()] of the requests library: statuses 400..599
    raise [HTTPError]. *)
Definition raise_for_status {A} (resp : response A) : option exception :=
  if (400 <=? status_code resp) && (status_code resp <? 600)
  then Some (HTTPError (status_code resp)) else None.

(** Line 97: the rate-limit test. *)
Definition rate_limited {A} (resp : response A) : bool :=
  (status_code resp =? 403) &&
  bool_decide (header_get "X-RateLimit-Remaining" (headers resp) = Some "0").

(** What the generator did: the items it yielded, how it ended, and the
    responses the API still holds. *)
Record paginated (A : Type) := {
  yielded : list A;
  ended : outcome unit;
  unread : list (response A)
}.

Arguments yielded {A} p.
Arguments ended {A} p.
Arguments unread {A} p.

Definition yield_first {A} (items : list A) (p : paginated A) : paginated A :=
  {| yielded := items ++ yielded p; ended := ended p; unread := unread p |}.

Definition rate_limit_message (wait_seconds : Z) : string :=
  "GitHub rate limit reached. Sleeping " +:+ Py.str wait_seconds +:+ "s...".

(** The [ValueError] of an f-string that formats an [int] of more than
    4300 digits. *)
Definition str_limit_error : exception :=
  ValueError "Exceeds the limit (4300 digits) for integer string conversion".

(** A URL in which [http://] or [https://] occurs, in any case of the
    letters. *)
Definition has_http_scheme (url : string) : bool :=
  Py.contains "http://" (Py.lower url) || Py.contains "https://" (Py.lower url).

(** What [session.get(url)] raises before anything is sent.  The
    requests library refuses a URL that it cannot use (MissingSchema,
    InvalidSchema, InvalidURL, all of them [RequestException]): always
    when neither [http://] nor [https://] occurs in it, and otherwise as
    [url_refused] has it (no host, a malformed host or port). *)
Definition session_get_error (w : world) (url : string) : option exception :=
  if has_http_scheme url then url_refused w url
  else Some (RequestException "Invalid URL: no http or https scheme").

(** The longest wait in seconds that fits the nanosecond clock of
    [time.sleep]. *)
Definition max_sleep : Z := 9223372036.

(** What [time.sleep(s)] raises instead of sleeping: [OverflowError] for
    a wait beyond [max_sleep], and below that what the platform refuses
    at the time [now] of the call ([OSError]), as [sleep_refused] has it. *)
Definition sleep_error (platform : Z -> Z -> option exception) (now s : Z)
    : option exception :=
  if max_sleep <? s
  then Some (OverflowError "timestamp too large to convert to C _PyTime_t")
  else platform now s.

(** The [while url:] loop of [paginate], one response of [script] per
    iteration.  [url] is [None] or a string, [params] is [None] after the
    first page.  An exhausted [script] means that [session.get] never
    returns. *)
Fixpoint paginate_loop {A} (script : list (response A)) (url : option string)
    (params : option query) (w : world) : paginated A * world :=
  match url with
  | Some u =>
      if Py.truthy u then
        match session_get_error w u with
        | Some e =>
            ({| yielded := []; ended := Raised (Exception e); unread := script |}, w)
        | None =>
            match script with
            | [] =>
                ({| yielded := []; ended := Blocked; unread := [] |},
                 emit (HttpGet u params) w)
            | resp :: rest =>
                let w := emit (HttpGet u params) w in
                if rate_limited resp then
                  match Py.int (default "0" (header_get "X-RateLimit-Reset" (headers resp))) with
                  | Some retry_at =>
                      let wait_seconds := Z.max 1 (retry_at - clock w) in
                      if Py.str_fits wait_seconds then
                        let w := emit (Stderr (rate_limit_message wait_seconds)) w in
                        match sleep_error (sleep_refused w) (clock w) wait_seconds with
                        | Some e =>
                            ({| yielded := []; ended := Raised (Exception e);
                                unread := rest |}, w)
                        | None => paginate_loop rest url params (sleep wait_seconds w)
                        end
                      else
                        ({| yielded := []; ended := Raised (Exception str_limit_error);
                            unread := rest |}, w)
                  | None =>
                      ({| yielded := [];
                          ended := Raised (Exception (ValueError "invalid literal for int()"));
                          unread := rest |}, w)
                  end
                else
                  match raise_for_status resp with
                  | Some e =>
                      ({| yielded := []; ended := Raised (Exception e); unread := rest |}, w)
                  | None =>
                      let next := next_link (default "" (header_get "Link" (headers resp))) in
                      match body resp with
                      | BodyList items =>
                          let (p, w) := paginate_loop rest next None w in
                          (yield_first items p, w)
                      | BodyObject items =>
                          let (p, w) := paginate_loop rest next None w in
                          (yield_first (default [] items) p, w)
                      | BodyBadItems =>
                          ({| yielded := [];
                              ended := Raised (Exception (TypeError "object is not iterable"));
                              unread := rest |}, w)
                      | BodyScalar =>
                          ({| yielded := [];
                              ended := Raised (Exception (AttributeError "no attribute 'get'"));
                              unread := rest |}, w)
                      | BodyInvalid =>
                          ({| yielded := [];
                              ended := Raised (Exception (ValueError "response is not JSON"));
                              unread := rest |}, w)
                      end
                  end
            end
        end
      else ({| yielded := []; ended := Returned tt; unread := script |}, w)
  | None => ({| yielded := []; ended := Returned tt; unread := script |}, w)
  end.

(** [paginate(session, url, params)], lines 91-125. *)
Definition paginate {A} (script : list (response A)) (url : string)
    (params : option query) (w : world) : paginated A * world :=
  let params := setdefault "per_page" "100" (default [] params) in
  paginate_loop script (Some url) (Some params) w.

(** [list(paginate(...))]: the items when the generator returns; what
    was yielded before an exception is lost. *)
Definition list_of {A} (p : paginated A) : outcome (list A) :=
  match ended p with
  | Returned _ => Returned (yielded p)
  | Raised r => Raised r
  | Blocked => Blocked
  end.

(** ** Fetching from the GitHub API *)

(** [int(number)]: [None] is a [TypeError]. *)
Definition int_of (number : option Z) : M Z :=
  match number with
  | Some n => ret n
  | None => raise (Exception (TypeError "int() argument must not be 'NoneType'"))
  end.

Definition repo_url (owner repo : string) : string :=
  GITHUB_API_URL +:+ "/repos/" +:+ owner +:+ "/" +:+ repo.

(** Lines 127-130.  The session only adds fixed request headers and is
    left out of the trace. *)
Definition get_pull_requests (owner repo state : string) : M (list pull_request) :=
  fun w =>
    let url := repo_url owner repo +:+ "/pulls" in
    let params := [("state", state); ("sort", "created"); ("direction", "desc")] in
    let (p, w) := paginate (pulls_api w) url (Some params) w in
    (list_of p, set_pulls_api (unread p) w).

(** Lines 133-135. *)
Definition get_issue_events (owner repo : string) (issue_number : Z) : M (list issue_event) :=
  fun w =>
    let url := repo_url owner repo +:+ "/issues/" +:+ Py.str issue_number +:+ "/events" in
    let (p, w) := paginate (events_api w issue_number) url None w in
    (list_of p, set_events_api issue_number (unread p) w).

(** Lines 138-140. *)
Definition get_pr_commits (owner repo : string) (pr_number : Z) : M (list pr_commit) :=
  fun w =>
    let url := repo_url owner repo +:+ "/pulls/" +:+ Py.str pr_number +:+ "/commits" in
    let (p, w) := paginate (commits_api w pr_number) url None w in
    (list_of p, set_commits_api pr_number (unread p) w).

(** ** Pure parts of summarize_pr and compute_tracker_counts *)

(** [(d.get(k) or {}).get("login")]. *)
Definition login_of (a : option account) : option string :=
  match a with Some a => login a | None => None end.

Definition slug_of (t : option team) : option string :=
  match t with Some t => slug t | None => None end.

(** [e.get("event") == "review_requested"]. *)
Definition is_review_requested (e : issue_event) : bool :=
  bool_decide (ev_event e = Some "review_requested").

Definition review_events_of (events : list issue_event) : list issue_event :=
  List.filter is_review_requested events.

(** Lines 160: [created_at] of the first review-requested event. *)
Definition marked_done_at_of (review_events : list issue_event) : option string :=
  match review_events with
  | e :: _ => ev_created_at e
  | [] => None
  end.

(** Lines 162-171: the [for e in review_events] loop; [reviewers] is the
    list built so far. *)
Fixpoint collect_reviewers (review_events : list issue_event) (reviewers : list string)
    : list string :=
  match review_events with
  | [] => reviewers
  | e :: rest =>
      match ev_requested_reviewer e with
      | Some r =>
          match login r with
          | Some rev =>
              if Py.truthy rev then collect_reviewers rest (reviewers ++ [rev])
              else collect_reviewers rest reviewers
          | None => collect_reviewers rest reviewers
          end
      | None =>
          match ev_requested_team e with
          | Some t =>
              match slug t with
              | Some team_slug =>
                  if Py.truthy team_slug
                  then collect_reviewers rest (reviewers ++ ["team:" +:+ team_slug])
                  else collect_reviewers rest reviewers
              | None => collect_reviewers rest reviewers
              end
          | None => collect_reviewers rest reviewers
          end
      end
  end.

(** Lines 173-174: [[r for r in reviewers if not (r in seen or seen.add(r))]]. *)
Fixpoint unique_from (seen : gset string) (reviewers : list string) : list string :=
  match reviewers with
  | [] => []
  | r :: rest =>
      if decide (r ∈ seen) then unique_from seen rest
      else r :: unique_from ({[r]} ∪ seen) rest
  end.

Definition reviewers_unique_of (review_events : list issue_event) : list string :=
  unique_from ∅ (collect_reviewers review_events []).

(** Line 201. *)
Definition reviewers_cell (reviewers_unique : list string) : cell :=
  match reviewers_unique with
  | [] => CNone
  | _ => CStr (Py.join ", " reviewers_unique)
  end.

Definition opt_str (o : option string) : cell :=
  match o with Some s => CStr s | None => CNone end.

Definition opt_int (o : option Z) : cell :=
  match o with Some n => CInt n | None => CNone end.

(** Lines 188-193. *)
Definition finalized_by_of (pr : pull_request) : option string :=
  let merged_at := pr_merged_at pr in
  let finalized_by :=
    if Py.truthy_opt merged_at then login_of (pr_merged_by pr) else None in
  if negb (Py.truthy_opt finalized_by) && Py.truthy_opt merged_at
  then None else finalized_by.

Definition finalized_at_of (pr : pull_request) : option string :=
  Py.or_else (pr_merged_at pr)
    (if bool_decide (pr_state pr = Some "closed") then pr_closed_at pr else None).

(** A [datetime]: a point on the time line and whether it carries a time
    zone.  Comparing an aware with a naive one is a [TypeError]. *)
Record datetime := { instant : Z; aware : bool }.

Definition datetime_gt (a b : datetime) : M bool :=
  if Bool.eqb (aware a) (aware b) then ret (instant b <? instant a)
  else raise (Exception (TypeError "can't compare offset-naive and offset-aware datetimes")).

(** Python dicts keep insertion order: [counts] is an association list. *)
Definition dict := list (string * Z).

(** [counts.get(k, d)]. *)
Fixpoint dict_get (k : string) (d : Z) (counts : dict) : Z :=
  match counts with
  | [] => d
  | (k', v) :: rest => if String.eqb k' k then v else dict_get k d rest
  end.

(** [counts[k] = v]: in place for a known key, at the end for a new one. *)
Fixpoint dict_set (k : string) (v : Z) (counts : dict) : dict :=
  match counts with
  | [] => [(k, v)]
  | (k', v') :: rest =>
      if String.eqb k' k then (k', v) :: rest else (k', v') :: dict_set k v rest
  end.

(** Lines 279-282. *)
Definition tracked_account (track_by : string) (pr : pull_request)
    (first_event : issue_event) : option string :=
  if String.eqb track_by "creator" then login_of (pr_user pr)
  else login_of (ev_actor first_event).

(** The key of line 318 and Python's [<] on such tuples. *)
Definition sort_key (kv : string * Z) : Z * string := (- snd kv, Py.lower (fst kv)).

Definition key_lt (a b : Z * string) : bool :=
  (fst a <? fst b) || ((fst a =? fst b) && String.ltb (snd a) (snd b)).

(** [sorted(items, key=sort_key)]: a stable sort that compares with [<]. *)
Fixpoint insert_sorted (x : string * Z) (l : list (string * Z)) : list (string * Z) :=
  match l with
  | [] => [x]
  | y :: l' =>
      if key_lt (sort_key y) (sort_key x) then y :: insert_sorted x l'
      else x :: y :: l'
  end.

Fixpoint sorted (items : list (string * Z)) : list (string * Z) :=
  match items with
  | [] => []
  | x :: rest => insert_sorted x (sorted rest)
  end.

(** Line 318. *)
Definition tracker_rows (counts : dict) : list row :=
  map (fun kv => [CStr (fst kv); CInt (snd kv)]) (sorted counts).

Example sorted_example :
  sorted [("bob", 1); ("Al", 2); ("al", 2); ("Cy", 1)]
  = [("Al", 2); ("al", 2); ("bob", 1); ("Cy", 1)].
Proof. reflexivity. Qed.

(** ** The spreadsheet *)

(** A worksheet handle as gspread keeps it: spreadsheet key and title. *)
Definition handle : Type := string * string.

Fixpoint sheet_get (title : string) (sh : list (string * worksheet)) : option worksheet :=
  match sh with
  | [] => None
  | (t, ws) :: rest => if String.eqb t title then Some ws else sheet_get title rest
  end.

Fixpoint sheet_set (title : string) (ws : worksheet) (sh : list (string * worksheet))
    : list (string * worksheet) :=
  match sh with
  | [] => [(title, ws)]
  | (t, ws') :: rest =>
      if String.eqb t title then (t, ws) :: rest else (t, ws') :: sheet_set title ws rest
  end.

Definition read_ws (h : handle) (w : world) : option worksheet :=
  match spreadsheets w !! fst h with
  | Some sh => sheet_get (snd h) sh
  | None => None
  end.

Definition write_ws (h : handle) (ws : worksheet) (w : world) : world :=
  match spreadsheets w !! fst h with
  | Some sh => set_spreadsheets (<[fst h := sheet_set (snd h) ws sh]> (spreadsheets w)) w
  | None => w
  end.

Definition is_blank (c : cell) : bool :=
  match c with
  | CNone => true
  | CStr s => negb (Py.truthy s)
  | CInt _ => false
  end.

(** A row as the Sheets API returns it: without its trailing blank cells. *)
Fixpoint trim_row (r : row) : row :=
  match r with
  | [] => []
  | c :: r' =>
      match trim_row r' with
      | [] => if is_blank c then [] else [c]
      | t => c :: t
      end
  end.

Definition gone {A} : M A :=
  raise (Exception (SheetsError "worksheet not found")).

(** [ws.row_values(n)], rows counted from 1. *)
Definition row_values (h : handle) (n : Z) : M row :=
  fun w =>
    match read_ws h w with
    | Some ws =>
        (Returned (trim_row (nth (Z.to_nat (n - 1)) ws [])),
         emit (SheetsRowValues (fst h) (snd h) n) w)
    | None => gone w
    end.

(** [ws.append_rows(rows)]: the rows go below the rows the sheet has. *)
Definition ws_append_rows (h : handle) (rows : list row) : M unit :=
  fun w =>
    match read_ws h w with
    | Some ws =>
        (Returned tt, emit (SheetsAppend (fst h) (snd h) rows) (write_ws h (ws ++ rows) w))
    | None => gone w
    end.

Definition ws_append_row (h : handle) (r : row) : M unit := ws_append_rows h [r].

(** [ws.clear()]. *)
Definition ws_clear (h : handle) : M unit :=
  fun w =>
    match read_ws h w with
    | Some ws => (Returned tt, emit (SheetsClear (fst h) (snd h)) (write_ws h [] w))
    | None => gone w
    end.

(** Lines 215-232. *)
Definition connect_sheet (google_sheets_id service_account_file sheet_name : string)
    : M handle :=
  let* raw := getenv "GOOGLE_SERVICE_ACCOUNT_JSON" "" in
  let json_str := Py.strip raw in
  let* _ :=
    (fun w =>
       if Py.truthy json_str then
         if sa_info_ok w json_str then (Returned tt, w)
         else (Raised (SystemExit "Invalid GOOGLE_SERVICE_ACCOUNT_JSON: bad credentials"), w)
       else
         if sa_file_ok w service_account_file then (Returned tt, w)
         else (Raised (Exception (OSError "service account file cannot be loaded")), w)) in
  let* _ := perform (SheetsOpen google_sheets_id) in
  fun w =>
    match spreadsheets w !! google_sheets_id with
    | None => (Raised (Exception (SheetsError "spreadsheet not found")), w)
    | Some sh =>
        match sheet_get sheet_name sh with
        | Some _ => (Returned (google_sheets_id, sheet_name), w)
        | None =>
            (Returned (google_sheets_id, sheet_name),
             emit (SheetsAddWorksheet google_sheets_id sheet_name)
               (set_spreadsheets
                  (<[google_sheets_id := sh ++ [(sheet_name, [])]]> (spreadsheets w)) w))
        end
    end.

Definition row_headers : row :=
  [CStr "PR #"; CStr "Task Title"; CStr "Creator"; CStr "Created At";
   CStr "Marked Done (Review Requested)"; CStr "Reviewers";
   CStr "Updates After Done"; CStr "Finalized By"; CStr "Finalized At";
   CStr "PR URL"].

(** Lines 235-253. *)
Definition ensure_headers (ws : handle) : M unit :=
  let headers := row_headers in
  let* first_row := row_values ws 1 in
  match first_row with
  | [] => ws_append_row ws headers
  | _ => ret tt
  end.

(** Lines 256-260. *)
Definition ensure_tracker_headers (ws : handle) : M unit :=
  let headers := [CStr "Account"; CStr "Count"] in
  let* first_row := row_values ws 1 in
  match first_row with
  | [] => ws_append_row ws headers
  | _ => ret tt
  end.

(** Lines 263-266. *)
Definition append_rows (ws : handle) (rows : list row) : M unit :=
  match rows with
  | [] => ret tt
  | _ => ws_append_rows ws rows
  end.

(** ** load_configuration *)

Record config := {
  GH_TOKEN : string;
  GH_OWNER : string;
  GH_REPO : string;
  GOOGLE_SHEETS_ID : string;
  GOOGLE_SERVICE_ACCOUNT_FILE : string;
  SHEET_NAME : string;
  MODE : string;
  TRACK_BY : string;
  TRACKER_SHEET_NAME : string
}.

(** [config[k]] for the keys of [required_keys]. *)
Definition config_item (c : config) (k : string) : string :=
  if String.eqb k "GH_OWNER" then GH_OWNER c
  else if String.eqb k "GH_REPO" then GH_REPO c
  else if String.eqb k "GOOGLE_SHEETS_ID" then GOOGLE_SHEETS_ID c
  else if String.eqb k "GOOGLE_SERVICE_ACCOUNT_FILE" then GOOGLE_SERVICE_ACCOUNT_FILE c
  else EmptyString.

Definition required_keys : list string :=
  ["GH_OWNER"; "GH_REPO"; "GOOGLE_SHEETS_ID"; "GOOGLE_SERVICE_ACCOUNT_FILE"].

(** Lines 25-33: the token from [GH_TOKEN], else from the file that
    [GH_TOKEN_FILE] names. *)
Definition token_from_env_or_file : M string :=
  let* raw := getenv "GH_TOKEN" "" in
  let token := Py.strip raw in
  if Py.truthy token then ret token
  else
    let* raw_file := getenv "GH_TOKEN_FILE" "" in
    let token_file := Py.strip raw_file in
    if Py.truthy token_file then
      fun w =>
        match files w token_file with
        | FileText text => (Returned (Py.strip text), w)
        | FileNotFound =>
            (Raised (SystemExit ("GH_TOKEN_FILE not found: " +:+ token_file)), w)
        | FileFails msg => (Raised (Exception (OSError msg)), w)
        end
    else ret token.

(** Lines 34-45: the token from the gh command line tool. *)
Definition token_from_gh (token : string) : M string :=
  fun w =>
    if Py.truthy token then (Returned token, w)
    else
      match gh w with
      | GhRan returncode stdout =>
          if (returncode =? 0) && Py.truthy (Py.strip stdout)
          then (Returned (Py.strip stdout), w) else (Returned token, w)
      | GhRaises => (Returned token, w)
      | GhAbsent => (Returned token, w)
      end.

(** [(os.getenv(k, d) or d).strip().lower()]. *)
Definition getenv_choice (k d : string) : M string :=
  let* v := getenv k d in
  ret (Py.lower (Py.strip (if Py.truthy v then v else d))).

Definition missing_of (c : config) : list string :=
  List.filter (fun k => negb (Py.truthy (config_item c k))) required_keys
  ++ (if Py.truthy (GH_TOKEN c) then []
      else ["GH_TOKEN (or GH_TOKEN_FILE or gh auth login)"]).

(** Lines 22-76.  [environ] is the environment after [load_dotenv()]. *)
Definition load_configuration : M config :=
  let* token := token_from_env_or_file in
  let* token := token_from_gh token in
  let* mode := getenv_choice "MODE" "rows" in
  let* track_by := getenv_choice "TRACK_BY" "creator" in
  let* gh_owner := getenv "GH_OWNER" "" in
  let* gh_repo := getenv "GH_REPO" "" in
  let* sheets_id := getenv "GOOGLE_SHEETS_ID" "" in
  let* sa_file := getenv "GOOGLE_SERVICE_ACCOUNT_FILE" "service_account.json" in
  let* sheet_name := getenv "SHEET_NAME" "Sheet1" in
  let* tracker_sheet_name := getenv "TRACKER_SHEET_NAME" "Tracker" in
  let config :=
    {| GH_TOKEN := token; GH_OWNER := gh_owner; GH_REPO := gh_repo;
       GOOGLE_SHEETS_ID := sheets_id; GOOGLE_SERVICE_ACCOUNT_FILE := sa_file;
       SHEET_NAME := sheet_name; MODE := mode; TRACK_BY := track_by;
       TRACKER_SHEET_NAME := tracker_sheet_name |} in
  let missing := missing_of config in
  match missing with
  | _ :: _ => raise (SystemExit ("Missing configuration: " +:+ Py.join ", " missing))
  | [] =>
      if negb (String.eqb (MODE config) "rows" || String.eqb (MODE config) "tracker")
      then raise (SystemExit "MODE must be either 'rows' or 'tracker'")
      else if negb (String.eqb (TRACK_BY config) "creator"
                    || String.eqb (TRACK_BY config) "requester")
      then raise (SystemExit "TRACK_BY must be either 'creator' or 'requester'")
      else ret config
  end.

(** ** summarize_pr, compute_tracker_counts and main *)

Definition exception_str (e : exception) : string :=
  match e with
  | HTTPError status => Py.str status +:+ " Error"
  | ValueError msg => msg
  | TypeError msg => msg
  | AttributeError msg => msg
  | OSError msg => msg
  | OverflowError msg => msg
  | RequestException msg => msg
  | SheetsError msg => msg
  end.

(** Lines 269-286: the [for pr in prs] loop over the counts so far. *)
Fixpoint tracker_loop (owner repo : string) (prs : list pull_request)
    (track_by : string) (counts : dict) : M dict :=
  match prs with
  | [] => ret counts
  | pr :: rest =>
      let number := pr_number pr in
      let* n := int_of number in
      let* events := get_issue_events owner repo n in
      let review_events := review_events_of events in
      match review_events with
      | [] => tracker_loop owner repo rest track_by counts
      | first_event :: _ =>
          let account := tracked_account track_by pr first_event in
          match account with
          | Some a =>
              if Py.truthy a
              then tracker_loop owner repo rest track_by
                     (dict_set a (dict_get a 0 counts + 1) counts)
              else tracker_loop owner repo rest track_by counts
          | None => tracker_loop owner repo rest track_by counts
          end
      end
  end.

Definition compute_tracker_counts (owner repo : string) (prs : list pull_request)
    (track_by : string) : M dict :=
  tracker_loop owner repo prs track_by [].

Section Script.

(** [dateutil.parser.isoparse]: [None] stands for its [ValueError]. *)
Variable isoparse : string -> option datetime.

(** Lines 143-146. *)
Definition parse_iso8601 (value : option string) : M (option datetime) :=
  match value with
  | Some v =>
      if Py.truthy v then
        match isoparse v with
        | Some dt => ret (Some dt)
        | None => raise (Exception (ValueError "invalid ISO 8601 string"))
        end
      else ret None
  | None => ret None
  end.

Definition commit_date (c : pr_commit) : option string :=
  match commit c with
  | Some gc => match author gc with Some a => date a | None => None end
  | None => None
  end.

(** Lines 181-185: the [for c in commits] loop. *)
Fixpoint count_updates (md_dt : option datetime) (commits : list pr_commit)
    (updates_after_done : Z) : M Z :=
  match commits with
  | [] => ret updates_after_done
  | c :: rest =>
      let commit_dt_str := commit_date c in
      let* commit_dt := parse_iso8601 commit_dt_str in
      match commit_dt, md_dt with
      | Some cd, Some md =>
          let* later := datetime_gt cd md in
          if later then count_updates md_dt rest (updates_after_done + 1)
          else count_updates md_dt rest updates_after_done
      | _, _ => count_updates md_dt rest updates_after_done
      end
  end.

(** Lines 149-212. *)
Definition summarize_pr (owner repo : string) (pr : pull_request)
    : M (row * (string * string)) :=
  let number := pr_number pr in
  let title := pr_title pr in
  let creator := login_of (pr_user pr) in
  let created_at := pr_created_at pr in
  let pr_url := pr_html_url pr in
  let* n := int_of number in
  let* events := get_issue_events owner repo n in
  let review_events := review_events_of events in
  let marked_done_at := marked_done_at_of review_events in
  let reviewers_unique := reviewers_unique_of review_events in
  let* updates_after_done :=
    (if Py.truthy_opt marked_done_at then
       let* md_dt := parse_iso8601 marked_done_at in
       let* n := int_of number in
       let* commits := get_pr_commits owner repo n in
       count_updates md_dt commits 0
     else ret 0) in
  let finalized_by := finalized_by_of pr in
  let finalized_at := finalized_at_of pr in
  let row :=
    [opt_int number; opt_str title; opt_str creator; opt_str created_at;
     opt_str marked_done_at; reviewers_cell reviewers_unique;
     CInt updates_after_done; opt_str finalized_by; opt_str finalized_at;
     opt_str pr_url] in
  let meta := (Py.str n, default EmptyString (Py.or_else pr_url None)) in
  ret (row, meta).

(** Lines 331-334: the [for pr in prs] loop of the rows mode. *)
Fixpoint rows_loop (owner repo : string) (prs : list pull_request) (rows : list row)
    : M (list row) :=
  match prs with
  | [] => ret rows
  | pr :: rest =>
      let* rm := summarize_pr owner repo pr in
      rows_loop owner repo rest (rows ++ [fst rm])
  end.

(** Lines 301-310: [try: ... except Exception as e: print(...); raise]. *)
Definition logging_failure {A} (m : M A) : M A :=
  fun w =>
    match m w with
    | (Raised (Exception e), w') =>
        (Raised (Exception e),
         emit (Stdout ("Failed to connect to Google Sheets: " +:+ exception_str e)) w')
    | r => r
    end.

Definition len {A} (l : list A) : string := Py.str (Z.of_nat (length l)).

(** Lines 289-337. *)
Definition main : M unit :=
  let* config := load_configuration in
  let owner := GH_OWNER config in
  let repo := GH_REPO config in
  let* prs := get_pull_requests owner repo "all" in
  let* _ := print ("Fetched " +:+ len prs +:+ " PRs from " +:+ owner +:+ "/" +:+ repo) in
  let* _ := print ("Mode: " +:+ MODE config +:+ ", Track by: " +:+ TRACK_BY config) in
  if String.eqb (MODE config) "tracker" then
    let* _ := print ("Connecting to Google Sheets ID: "
                     +:+ Py.slice (GOOGLE_SHEETS_ID config) 0 10 +:+ "...") in
    let* tracker_ws :=
      logging_failure
        (let* ws := connect_sheet (GOOGLE_SHEETS_ID config)
                      (GOOGLE_SERVICE_ACCOUNT_FILE config) (TRACKER_SHEET_NAME config) in
         let* _ := print "Connected successfully" in
         ret ws) in
    let* _ := ensure_tracker_headers tracker_ws in
    let* _ := print "Computing tracker counts..." in
    let* counts := compute_tracker_counts owner repo prs (TRACK_BY config) in
    let* _ := print ("Found " +:+ len counts +:+ " accounts with review requests") in
    let* _ := ws_clear tracker_ws in
    let* _ := ensure_tracker_headers tracker_ws in
    let rows := tracker_rows counts in
    let* _ := append_rows tracker_ws rows in
    print ("Updated tracker sheet '" +:+ TRACKER_SHEET_NAME config +:+ "' with "
           +:+ len rows +:+ " accounts")
  else
    let* ws := connect_sheet (GOOGLE_SHEETS_ID config)
                 (GOOGLE_SERVICE_ACCOUNT_FILE config) (SHEET_NAME config) in
    let* _ := ensure_headers ws in
    let* rows := rows_loop owner repo prs [] in
    let* _ := append_rows ws rows in
    print ("Appended " +:+ len rows +:+ " rows to Google Sheet '"
           +:+ SHEET_NAME config +:+ "'").

(** Lines 340-345 and the interpreter's handling of [SystemExit]: the
    exit code of the process, [None] when it never exits. *)
Definition script (w : world) : option Z * world :=
  match main w with
  | (Returned _, w') => (Some 0, w')
  | (Raised (Exception exc), w') =>
      (Some 1, emit (Stderr ("Error: " +:+ exception_str exc)) w')
  | (Raised (SystemExit msg), w') => (Some 1, emit (Stderr msg) w')
  | (Blocked, w') => (None, w')
  end.

End Script.

(** * Properties *)

(** ** The monad *)

Lemma bind_returned {A B} (m : M A) (k : A -> M B) w b w' :
  bind m k w = (Returned b, w') ->
  exists a w1, m w = (Returned a, w1) /\ k a w1 = (Returned b, w').
Proof.
  unfold bind. destruct (m w) as [[a | r |] w1]; intros H; try discriminate.
  exists a, w1. split; [reflexivity | exact H].
Qed.

Lemma bind_raised {A B} (m : M A) (k : A -> M B) w r w' :
  m w = (Raised r, w') -> bind m k w = (Raised r, w').
Proof. unfold bind. intros ->. reflexivity. Qed.

Lemma bind_step {A B} (m : M A) (k : A -> M B) w a w1 :
  m w = (Returned a, w1) -> bind m k w = k a w1.
Proof. unfold bind. intros ->. reflexivity. Qed.

Ltac bind_inv H :=
  let a := fresh "a" in
  let w1 := fresh "w" in
  let Hm := fresh "Hm" in
  apply bind_returned in H; destruct H as (a & w1 & Hm & H).

(** ** The reviewers of a row *)

(** The name an event contributes to [reviewers]: the login of its
    requested reviewer, else the slug of its requested team with the
    prefix [team:]. *)
Definition requested_name (e : issue_event) : option string :=
  match ev_requested_reviewer e with
  | Some r =>
      match login r with
      | Some rev => if Py.truthy rev then Some rev else None
      | None => None
      end
  | None =>
      match ev_requested_team e with
      | Some t =>
          match slug t with
          | Some s => if Py.truthy s then Some ("team:" +:+ s) else None
          | None => None
          end
      | None => None
      end
  end.

Lemma collect_reviewers_names review_events reviewers :
  collect_reviewers review_events reviewers
  = reviewers ++ omap requested_name review_events.
Proof.
  revert reviewers.
  induction review_events as [| e rest IH]; intros reviewers; simpl.
  - by rewrite app_nil_r.
  - unfold requested_name.
    destruct (ev_requested_reviewer e) as [[[rev |]] |]; simpl.
    + destruct (Py.truthy rev); rewrite IH; [by rewrite <- app_assoc | done].
    + apply IH.
    + destruct (ev_requested_team e) as [[[s |]] |]; simpl; try apply IH.
      destruct (Py.truthy s); rewrite IH; [by rewrite <- app_assoc | done].
Qed.

Lemma unique_from_elem seen l x :
  x ∈ unique_from seen l <-> (x ∈ l) /\ (x ∉ seen).
Proof.
  revert seen. induction l as [| r rest IH]; intros seen; simpl.
  - split; [intros H | intros [H _]]; by apply elem_of_nil in H.
  - destruct (decide (r ∈ seen)) as [Hin | Hnin].
    + rewrite IH, elem_of_cons. split.
      * intros [H1 H2]. auto.
      * intros [[-> | H1] H2]; [contradiction | auto].
    + rewrite !elem_of_cons, IH, elem_of_union, elem_of_singleton. split.
      * intros [-> | [H1 H2]]; auto.
      * intros [[-> | H1] H2]; [auto |].
        destruct (decide (x = r)) as [-> | Hne]; [auto |].
        right. split; [done |]. intros [? | ?]; contradiction.
Qed.



(** ** Worlds to run the script in *)

Definition demo_environ : gmap string string :=
  list_to_map
    [("GH_TOKEN", "secret"); ("GH_OWNER", "octo"); ("GH_REPO", "demo");
     ("GOOGLE_SHEETS_ID", "sheet-key")].

(** A world with a complete configuration, one spreadsheet holding
    [sheets], and a GitHub API that answers with the given pages. *)
Definition demo_world (env : gmap string string)
    (pulls : list (response pull_request))
    (events : Z -> list (response issue_event))
    (commits : Z -> list (response pr_commit))
    (sheets : list (string * worksheet)) : world :=
  {| environ := env; files := fun _ => FileNotFound; gh := GhAbsent;
     clock := 1000; pulls_api := pulls; events_api := events;
     commits_api := commits; sa_info_ok := fun _ => true;
     sa_file_ok := fun _ => true;
     url_refused := fun _ => None; sleep_refused := fun _ _ => None;
     spreadsheets := {[ "sheet-key" := sheets ]}; trace := [] |}.

(** A page: status 200, a list body, and a Link header when there is a
    next page. *)
Definition page {A} (items : list A) (next : option string) : response A :=
  {| status_code := 200;
     headers :=
       match next with
       | Some url => [("Link", "<" +:+ url +:+ ">; " +:+ rel_next)]
       | None => []
       end;
     body := BodyList items |}.

(** ** ensure_headers *)

Lemma sheet_get_set title ws sh :
  sheet_get title (sheet_set title ws sh) = Some ws.
Proof.
  induction sh as [| [t ws'] rest IH]; simpl.
  - by rewrite String.eqb_refl.
  - destruct (String.eqb t title) eqn:E; simpl; rewrite E; [done | apply IH].
Qed.

Lemma read_write_ws h ws w old :
  read_ws h w = Some old -> read_ws h (write_ws h ws w) = Some ws.
Proof.
  unfold read_ws, write_ws.
  destruct (spreadsheets w !! h.1) as [sh |] eqn:E; [| done].
  intros _. simpl. rewrite lookup_insert_eq. apply sheet_get_set.
Qed.

(** C10.  [ensure_headers] on a worksheet whose first row has a value
    changes nothing: the world afterwards is the world before with one
    more read in its trace, whatever that first row is.  On a worksheet
    whose first row is empty it appends the canonical header row. *)
Theorem ensure_headers_frame (ws : handle) (w : world) (sheet : worksheet) :
  read_ws ws w = Some sheet ->
  exists w',
    ensure_headers ws w = (Returned tt, w') /\
    (trim_row (nth 0 sheet []) <> [] ->
       w' = emit (SheetsRowValues ws.1 ws.2 1) w /\
       spreadsheets w' = spreadsheets w) /\
    (trim_row (nth 0 sheet []) = [] ->
       read_ws ws w' = Some (sheet ++ [row_headers])).
Proof.
  intros Hread. unfold ensure_headers, bind, row_values. rewrite Hread.
  change (Z.to_nat (1 - 1)) with O.
  destruct (trim_row (nth 0 sheet [])) as [| c first] eqn:Hfirst.
  - unfold ws_append_row, ws_append_rows.
    change (read_ws ws (emit (SheetsRowValues ws.1 ws.2 1) w)) with (read_ws ws w).
    rewrite Hread. eexists. split; [reflexivity |]. split; [done |].
    intros _.
    change (read_ws ws (emit ?e ?w0)) with (read_ws ws w0).
    eapply (read_write_ws ws _ (emit _ w)). exact Hread.
  - eexists. split; [reflexivity |]. split; [| done].
    intros _. split; reflexivity.
Qed.

Definition custom_sheet : worksheet := [[CStr "Ticket"; CStr "Owner"]; [CInt 7; CStr "ann"]].

Lemma ensure_headers_frame_witness :
  exists w',
    ensure_headers ("sheet-key", "Sheet1")
      (demo_world demo_environ [] (fun _ => []) (fun _ => []) [("Sheet1", custom_sheet)])
    = (Returned tt, w') /\
    (trim_row (nth 0 custom_sheet []) <> [] ->
       w' = emit (SheetsRowValues "sheet-key" "Sheet1" 1)
              (demo_world demo_environ [] (fun _ => []) (fun _ => [])
                 [("Sheet1", custom_sheet)]) /\
       spreadsheets w'
       = spreadsheets (demo_world demo_environ [] (fun _ => []) (fun _ => [])
                         [("Sheet1", custom_sheet)])) /\
    (trim_row (nth 0 custom_sheet []) = [] ->
       read_ws ("sheet-key", "Sheet1") w' = Some (custom_sheet ++ [row_headers])).
Proof.
  apply (ensure_headers_frame ("sheet-key", "Sheet1")
           (demo_world demo_environ [] (fun _ => []) (fun _ => [])
              [("Sheet1", custom_sheet)]) custom_sheet).
  vm_compute. reflexivity.
Defined.

(** ** Counting per account *)

(** The pull requests of a tracker run together with the events fetched
    for each of them, in the order of the run. *)
Fixpoint fetch_events (owner repo : string) (prs : list pull_request)
    : M (list (pull_request * list issue_event)) :=
  match prs with
  | [] => ret []
  | pr :: rest =>
      let* n := int_of (pr_number pr) in
      let* events := get_issue_events owner repo n in
      let* fetched := fetch_events owner repo rest in
      ret ((pr, events) :: fetched)
  end.

(** One iteration of the loop of [compute_tracker_counts] on a pull
    request and its events. *)
Definition count_step (track_by : string) (counts : dict)
    (pe : pull_request * list issue_event) : dict :=
  match review_events_of pe.2 with
  | [] => counts
  | first_event :: _ =>
      match tracked_account track_by pe.1 first_event with
      | Some a =>
          if Py.truthy a then dict_set a (dict_get a 0 counts + 1) counts else counts
      | None => counts
      end
  end.

(** The account a fetched pull request counts for: none without a
    review-requested event, else its creator or the actor of its first
    review-requested event, when that login is not empty. *)
Definition counted_for (track_by : string) (pe : pull_request * list issue_event)
    : option string :=
  match review_events_of pe.2 with
  | [] => None
  | first_event :: _ =>
      match tracked_account track_by pe.1 first_event with
      | Some a => if Py.truthy a then Some a else None
      | None => None
      end
  end.



Lemma bind_assoc {A B C} (m : M A) (f : A -> M B) (g : B -> M C) w :
  bind (bind m f) g w = bind m (fun a => bind (f a) g) w.
Proof. unfold bind. by destruct (m w) as [[a | r |] w1]. Qed.

Lemma bind_ext {A B} (m : M A) (f g : A -> M B) w :
  (forall a w1, f a w1 = g a w1) -> bind m f w = bind m g w.
Proof. intros H. unfold bind. destruct (m w) as [[a | r |] w1]; [apply H | done | done]. Qed.

Lemma tracker_loop_fetch owner repo prs track_by counts w :
  tracker_loop owner repo prs track_by counts w
  = bind (fetch_events owner repo prs)
      (fun fetched => ret (fold_left (count_step track_by) fetched counts)) w.
Proof.
  revert counts w. induction prs as [| pr rest IH]; intros counts w; simpl.
  - reflexivity.
  - rewrite bind_assoc. apply bind_ext. intros n w1.
    rewrite bind_assoc. apply bind_ext. intros events w2.
    rewrite bind_assoc.
    transitivity (tracker_loop owner repo rest track_by
                    (count_step track_by counts (pr, events)) w2).
    + unfold count_step; simpl.
      destruct (review_events_of events) as [| first_event ?]; [done |].
      destruct (tracked_account track_by pr first_event) as [a |]; [| done].
      by destruct (Py.truthy a).
    + rewrite IH. apply bind_ext. intros fetched w3. reflexivity.
Qed.

Lemma fetch_events_prs owner repo prs w fetched w' :
  fetch_events owner repo prs w = (Returned fetched, w') -> map fst fetched = prs.
Proof.
  revert w fetched. induction prs as [| pr rest IH]; intros w fetched; simpl.
  - unfold ret. by intros [= <- _].
  - intros H. bind_inv H. bind_inv H. bind_inv H.
    unfold ret in H. injection H as <- <-. simpl. f_equal. eapply IH. eassumption.
Qed.











Lemma compute_tracker_counts_returned owner repo prs track_by w counts w' :
  compute_tracker_counts owner repo prs track_by w = (Returned counts, w') ->
  exists fetched,
    fetch_events owner repo prs w = (Returned fetched, w') /\
    counts = fold_left (count_step track_by) fetched [].
Proof.
  unfold compute_tracker_counts. rewrite tracker_loop_fetch. intros H.
  bind_inv H. unfold ret in H. injection H as <- <-. by exists a.
Qed.


Definition pr_by (number : Z) (creator : string) : pull_request :=
  {| pr_number := Some number; pr_title := Some "Add feature";
     pr_user := Some {| login := Some creator |};
     pr_created_at := Some "2024-01-01T00:00:00Z";
     pr_html_url := Some "https://github.com/octo/demo/pull/7";
     pr_merged_at := None; pr_merged_by := None; pr_closed_at := None;
     pr_state := Some "open" |}.

Definition review_request (actor reviewer at_ : string) : issue_event :=
  {| ev_event := Some "review_requested"; ev_created_at := Some at_;
     ev_requested_reviewer := Some {| login := Some reviewer |};
     ev_requested_team := None;
     ev_actor := Some {| login := Some actor |} |}.

Definition two_requests : list issue_event :=
  [review_request "ann" "bob" "2024-01-02T00:00:00Z";
   review_request "cy" "dan" "2024-01-03T00:00:00Z"].

Definition tracker_world : world :=
  demo_world demo_environ [page [pr_by 7 "ann"] None]
    (fun _ => [page two_requests None]) (fun _ => []) [].




(** ** The order of the tracker rows *)

(** Row [a] may stand before row [b]: a larger count, or the same count
    and a name that is not greater once both are lowercased. *)
Definition tracker_order (a b : string * Z) : Prop :=
  b.2 < a.2 \/ (a.2 = b.2 /\ String.leb (Py.lower a.1) (Py.lower b.1) = true).

Lemma ltb_false_leb s1 s2 : String.ltb s1 s2 = false -> String.leb s2 s1 = true.
Proof.
  unfold String.ltb, String.leb. rewrite (String.compare_antisym s1 s2).
  by destruct (String.compare s2 s1).
Qed.

Lemma ltb_true_leb s1 s2 : String.ltb s1 s2 = true -> String.leb s1 s2 = true.
Proof. unfold String.ltb, String.leb. by destruct (String.compare s1 s2). Qed.

Lemma leb_trans s1 s2 s3 :
  String.leb s1 s2 = true -> String.leb s2 s3 = true -> String.leb s1 s3 = true.
Proof.
  intros H1 H2. apply Is_true_true. apply Is_true_true in H1, H2.
  exact (transitivity (R := String.le) H1 H2).
Qed.

Lemma key_lt_order x y :
  key_lt (sort_key x) (sort_key y) = true -> tracker_order x y.
Proof.
  unfold key_lt, sort_key, tracker_order. simpl. intros H.
  apply orb_true_iff in H. destruct H as [H | H].
  - left. lia.
  - apply andb_true_iff in H. destruct H as [H1 H2].
    right. split; [lia | by apply ltb_true_leb].
Qed.

Lemma key_not_lt_order x y :
  key_lt (sort_key y) (sort_key x) = false -> tracker_order x y.
Proof.
  unfold key_lt, sort_key, tracker_order. simpl. intros H.
  apply orb_false_iff in H. destruct H as [H1 H2].
  destruct (Z.eq_dec x.2 y.2) as [Heq | Hne].
  - right. split; [done |]. rewrite Heq, Z.eqb_refl in H2. simpl in H2.
    by apply ltb_false_leb.
  - left. lia.
Qed.

Lemma tracker_order_trans x y z :
  tracker_order x y -> tracker_order y z -> tracker_order x z.
Proof.
  unfold tracker_order. intros [H1 | [H1 L1]] [H2 | [H2 L2]]; try (left; lia).
  right. split; [lia | by eapply leb_trans].
Qed.

Lemma insert_sorted_perm x l : Permutation (insert_sorted x l) (x :: l).
Proof.
  induction l as [| y l IH]; simpl; [done |].
  destruct (key_lt (sort_key y) (sort_key x)); [| done].
  rewrite IH. apply perm_swap.
Qed.

Lemma sorted_perm items : Permutation (sorted items) items.
Proof.
  induction items as [| x rest IH]; simpl; [done |].
  rewrite insert_sorted_perm. by constructor.
Qed.

Lemma insert_sorted_HdRel a x l :
  tracker_order a x -> HdRel tracker_order a l ->
  HdRel tracker_order a (insert_sorted x l).
Proof.
  intros Hax Hal. destruct l as [| y l]; simpl; [by constructor |].
  destruct (key_lt (sort_key y) (sort_key x)); constructor; [| done].
  by inversion Hal.
Qed.

Lemma insert_sorted_Sorted x l :
  Sorted tracker_order l -> Sorted tracker_order (insert_sorted x l).
Proof.
  induction l as [| y l IH]; simpl; intros Hs.
  - by repeat constructor.
  - inversion Hs as [| ? ? Hl Hy]; subst.
    destruct (key_lt (sort_key y) (sort_key x)) eqn:E.
    + constructor; [by apply IH |].
      apply insert_sorted_HdRel; [by apply key_lt_order | done].
    + constructor; [done |]. constructor. by apply key_not_lt_order.
Qed.

Lemma sorted_Sorted items : Sorted tracker_order (sorted items).
Proof.
  induction items as [| x rest IH]; simpl; [constructor |].
  by apply insert_sorted_Sorted.
Qed.

Lemma sorted_StronglySorted items : StronglySorted tracker_order (sorted items).
Proof.
  apply Sorted_StronglySorted; [| apply sorted_Sorted].
  intros x y z. apply tracker_order_trans.
Qed.

Lemma dict_get_nonneg k counts :
  Forall (fun kv => 1 <= kv.2) counts -> 0 <= dict_get k 0 counts.
Proof.
  induction 1 as [| [k0 v0] rest Hv _ IH]; simpl; [lia |].
  destruct (String.eqb k0 k); [simpl in Hv; lia | done].
Qed.

Lemma dict_set_positive k v counts :
  1 <= v -> Forall (fun kv => 1 <= kv.2) counts ->
  Forall (fun kv => 1 <= kv.2) (dict_set k v counts).
Proof.
  intros Hv. induction 1 as [| [k0 v0] rest H0 Hrest IH]; simpl.
  - by repeat constructor.
  - destruct (String.eqb k0 k); constructor; done.
Qed.

Lemma count_step_positive track_by counts pe :
  Forall (fun kv => 1 <= kv.2) counts ->
  Forall (fun kv => 1 <= kv.2) (count_step track_by counts pe).
Proof.
  intros H. unfold count_step.
  destruct (review_events_of pe.2) as [| first_event ?]; [done |].
  destruct (tracked_account track_by pe.1 first_event) as [a |]; [| done].
  destruct (Py.truthy a); [| done].
  apply dict_set_positive; [| done].
  pose proof (dict_get_nonneg a counts H). lia.
Qed.

Lemma fold_count_positive track_by fetched counts :
  Forall (fun kv => 1 <= kv.2) counts ->
  Forall (fun kv => 1 <= kv.2) (fold_left (count_step track_by) fetched counts).
Proof.
  revert counts. induction fetched as [| pe rest IH]; intros counts H; simpl;
    [done |].
  apply IH. by apply count_step_positive.
Qed.

(** C9.  The tracker rows are the entries of [counts], each once, as
    [account, count] rows; every row stands before all later rows in
    [tracker_order] (count descending, then lowercased name ascending);
    and every count that [compute_tracker_counts] returned is at least 1. *)
Theorem tracker_rows_sorted owner repo prs track_by w counts w' :
  compute_tracker_counts owner repo prs track_by w = (Returned counts, w') ->
  exists items,
    tracker_rows counts = map (fun kv => [CStr kv.1; CInt kv.2]) items /\
    Permutation items counts /\
    StronglySorted tracker_order items /\
    Forall (fun kv => 1 <= kv.2) items.
Proof.
  intros H. exists (sorted counts). split; [reflexivity |].
  split; [apply sorted_perm |]. split; [apply sorted_StronglySorted |].
  apply compute_tracker_counts_returned in H. destruct H as (fetched & _ & ->).
  eapply Permutation_Forall; [symmetry; apply sorted_perm |].
  apply fold_count_positive. constructor.
Qed.

Definition three_prs : list pull_request :=
  [pr_by 1 "bob"; pr_by 2 "Al"; pr_by 3 "al"; pr_by 4 "Al"; pr_by 5 "al"].

Lemma tracker_rows_sorted_witness :
  exists items,
    tracker_rows [("bob", 1); ("Al", 2); ("al", 2)]
    = map (fun kv => [CStr kv.1; CInt kv.2]) items /\
    Permutation items [("bob", 1); ("Al", 2); ("al", 2)] /\
    StronglySorted tracker_order items /\
    Forall (fun kv => 1 <= kv.2) items.
Proof.
  apply (tracker_rows_sorted "octo" "demo" three_prs "creator" tracker_world
           [("bob", 1); ("Al", 2); ("al", 2)]
           (compute_tracker_counts "octo" "demo" three_prs "creator" tracker_world).2).
  vm_compute. reflexivity.
Defined.

(** ** paginate: rate limits *)

(** The world after the effects [es] took [seconds] seconds. *)
Definition advance (es : list effect) (seconds : Z) (w : world) : world :=
  {| environ := environ w; files := files w; gh := gh w;
     clock := clock w + seconds;
     pulls_api := pulls_api w; events_api := events_api w;
     commits_api := commits_api w; sa_info_ok := sa_info_ok w;
     sa_file_ok := sa_file_ok w;
     url_refused := url_refused w; sleep_refused := sleep_refused w;
     spreadsheets := spreadsheets w;
     trace := trace w ++ es |}.

Lemma advance_nil w : advance [] 0 w = w.
Proof. destruct w. unfold advance. simpl. by rewrite Z.add_0_r, app_nil_r. Qed.

Lemma advance_advance es1 s1 es2 s2 w :
  advance es2 s2 (advance es1 s1 w) = advance (es1 ++ es2) (s1 + s2) w.
Proof. unfold advance. simpl. by rewrite Z.add_assoc, app_assoc. Qed.

Lemma emit_advance e w : emit e w = advance [e] 0 w.
Proof. unfold emit, advance. by rewrite Z.add_0_r. Qed.

Lemma sleep_advance s w : sleep s w = advance [Sleep s] s w.
Proof. reflexivity. Qed.

(** [int(resp.headers.get("X-RateLimit-Reset", "0"))]. *)
Definition reset_of {A} (resp : response A) : option Z :=
  Py.int (default "0" (header_get "X-RateLimit-Reset" (headers resp))).

(** The effects of one sleep-retry cycle on the request [url], [params]. *)
Definition retry_cycle (url : string) (params : option query) (wait_seconds : Z)
    : list effect :=
  [HttpGet url params; Stderr (rate_limit_message wait_seconds); Sleep wait_seconds].

(** The sleeps of successive cycles: each is [max(1, reset - now)] and
    moves [now] on. *)
Fixpoint waits (now : Z) (resets : list Z) : list Z :=
  match resets with
  | [] => []
  | retry_at :: rest =>
      let wait_seconds := Z.max 1 (retry_at - now) in
      wait_seconds :: waits (now + wait_seconds) rest
  end.

Definition total (l : list Z) : Z := fold_right Z.add 0 l.

(** The sleeps of successive cycles are all sleeps that [time.sleep]
    accepts at the time it is called. *)
Fixpoint waits_accepted (platform : Z -> Z -> option exception) (now : Z)
    (resets : list Z) : bool :=
  match resets with
  | [] => true
  | retry_at :: rest =>
      let wait_seconds := Z.max 1 (retry_at - now) in
      match sleep_error platform now wait_seconds with
      | None => waits_accepted platform (now + wait_seconds) rest
      | Some _ => false
      end
  end.

Lemma sleep_error_bound platform now s :
  sleep_error platform now s = None -> s <= max_sleep.
Proof. unfold sleep_error. destruct (max_sleep <? s) eqn:E; [done | lia]. Qed.

Lemma max_sleep_fits s : 1 <= s <= max_sleep -> Py.str_fits s = true.
Proof.
  intros Hs. unfold Py.str_fits. apply Z.ltb_lt.
  assert (Hmax : max_sleep < 10 ^ Py.max_str_digits) by (vm_compute; reflexivity).
  set (B := 10 ^ Py.max_str_digits) in *. lia.
Qed.

Lemma paginate_loop_retry {A} (resp : response A) rest u params w retry_at :
  Py.truthy u = true -> session_get_error w u = None ->
  rate_limited resp = true -> reset_of resp = Some retry_at ->
  sleep_error (sleep_refused w) (clock w) (Z.max 1 (retry_at - clock w)) = None ->
  paginate_loop (resp :: rest) (Some u) params w
  = paginate_loop rest (Some u) params
      (advance (retry_cycle u params (Z.max 1 (retry_at - clock w)))
         (Z.max 1 (retry_at - clock w)) w).
Proof.
  intros Hu Hget Hrl Hreset Hsleep. unfold reset_of in Hreset. simpl.
  rewrite Hu, Hget, Hrl, Hreset, Hsleep.
  rewrite max_sleep_fits by (split; [lia | by eapply sleep_error_bound]).
  f_equal. rewrite sleep_advance, !emit_advance, !advance_advance. simpl.
  by rewrite !Z.add_0_l.
Qed.

Lemma paginate_loop_retries {A} (limited : list (response A)) resets rest u params w :
  Py.truthy u = true -> session_get_error w u = None ->
  Forall (fun resp => rate_limited resp = true) limited ->
  map reset_of limited = map Some resets ->
  waits_accepted (sleep_refused w) (clock w) resets = true ->
  paginate_loop (limited ++ rest) (Some u) params w
  = paginate_loop rest (Some u) params
      (advance (flat_map (retry_cycle u params) (waits (clock w) resets))
         (total (waits (clock w) resets)) w).
Proof.
  intros Hu Hget Hall. revert resets w Hget.
  induction Hall as [| resp limited Hrl _ IH]; intros resets w Hget Hresets Hwaits.
  - destruct resets; [| done]. simpl. by rewrite advance_nil.
  - destruct resets as [| retry_at resets]; [done |].
    injection Hresets as Hreset Hresets. simpl in Hwaits.
    destruct (sleep_error _ _ _) eqn:Hsleep in Hwaits; [done |].
    rewrite <- app_comm_cons, (paginate_loop_retry _ _ _ _ _ retry_at) by done.
    rewrite (IH resets) by done. rewrite advance_advance. reflexivity.
Qed.

Definition is_sleep (e : effect) : bool :=
  match e with Sleep _ => true | _ => false end.

(** The number of sleeps in a trace. *)
Definition sleeps (es : list effect) : nat := length (List.filter is_sleep es).

Lemma sleeps_retry_cycles u params ws :
  sleeps (flat_map (retry_cycle u params) ws) = length ws.
Proof. unfold sleeps. induction ws as [| x ws IH]; simpl; [done | by rewrite IH]. Qed.

Lemma waits_length now resets : length (waits now resets) = length resets.
Proof. revert now. induction resets as [| r rs IH]; intros now; simpl; [done | by rewrite IH]. Qed.

Lemma waits_positive now resets : Forall (fun s => 1 <= s) (waits now resets).
Proof.
  revert now. induction resets as [| r rs IH]; intros now; simpl; constructor;
    [lia | apply IH].
Qed.

(** A 403 answer without remaining quota that asks to retry at second 0. *)
Definition limited_response : response pull_request :=
  {| status_code := 403;
     headers := [("X-RateLimit-Remaining", "0"); ("X-RateLimit-Reset", "0")];
     body := BodyInvalid |}.

Definition quiet_world : world := demo_world demo_environ [] (fun _ => []) (fun _ => []) [].

Lemma sleeps_app es1 es2 : sleeps (es1 ++ es2) = (sleeps es1 + sleeps es2)%nat.
Proof. unfold sleeps. by rewrite List.filter_app, length_app. Qed.

Lemma paginate_loop_waiting {A} u params w :
  Py.truthy u = true -> session_get_error w u = None ->
  paginate_loop (A := A) [] (Some u) params w
  = ({| yielded := []; ended := Blocked; unread := [] |}, emit (HttpGet u params) w).
Proof. intros Hu Hget. simpl. by rewrite Hu, Hget. Qed.

Lemma short_waits_accepted n now :
  0 <= now -> waits_accepted (fun _ _ => None) now (repeat 0 n) = true.
Proof.
  revert now. induction n as [| n IH]; intros now Hnow; [done |].
  cbn [repeat waits_accepted]. cbv zeta. unfold sleep_error.
  replace (Z.max 1 (0 - now)) with 1 by lia.
  change (max_sleep <? 1) with false. cbv iota. apply IH. lia.
Qed.

Lemma paginate_limited_trace n (w : world) :
  session_get_error w "https://api.github.com/x" = None ->
  waits_accepted (sleep_refused w) (clock w) (repeat 0 n) = true ->
  trace (paginate (repeat limited_response n) "https://api.github.com/x" None w).2
  = trace w
    ++ flat_map (retry_cycle "https://api.github.com/x" (Some [("per_page", "100")]))
         (waits (clock w) (repeat 0 n))
    ++ [HttpGet "https://api.github.com/x" (Some [("per_page", "100")])].
Proof.
  intros Hget Hwaits.
  unfold paginate. rewrite <- (app_nil_r (repeat limited_response n)).
  rewrite (paginate_loop_retries _ (repeat 0 n)).
  - rewrite paginate_loop_waiting by done. simpl. by rewrite <- app_assoc.
  - reflexivity.
  - exact Hget.
  - clear. induction n as [| n IH]; simpl; by constructor.
  - clear. induction n as [| n IH]; simpl; [done | by rewrite IH].
  - exact Hwaits.
Qed.

(** C2, the bound fails: whatever bound one names, an API that keeps
    answering 403 without quota makes [paginate] sleep more often than
    that, still waiting for the answer to the same request. *)
Lemma retries_not_bounded :
  ~ exists bound : nat,
      forall script : list (response pull_request),
        (sleeps (trace (paginate script "https://api.github.com/x" None quiet_world).2)
         <= bound)%nat.
Proof.
  intros [bound Hbound].
  specialize (Hbound (repeat limited_response (S bound))).
  rewrite paginate_limited_trace in Hbound;
    [| reflexivity | by apply short_waits_accepted].
  rewrite !sleeps_app, sleeps_retry_cycles in Hbound.
  rewrite waits_length, repeat_length in Hbound. lia.
Qed.

Lemma waits_bounded platform now resets :
  waits_accepted platform now resets = true ->
  Forall (fun s => 1 <= s <= max_sleep) (waits now resets).
Proof.
  revert now. induction resets as [| r rs IH]; intros now H; simpl; [constructor |].
  simpl in H. destruct (sleep_error _ _ _) eqn:Hsleep in H; [done |].
  constructor; [| by apply IH].
  split; [lia | by eapply sleep_error_bound].
Qed.

(** C2, amended.  On a run of 403 answers without remaining quota whose
    reset header is absent or an integer, and whose waits
    [max(1, reset - now)] are waits that [time.sleep] accepts (at most
    9223372036 seconds and not refused by the platform), [paginate] goes
    through one sleep-retry cycle per answer: it sends the request,
    sleeps [max(1, reset - now)] seconds, and sends the same URL with the
    same parameters again; it then carries on with the next answer.  The
    number of cycles is the number of such answers in a row. *)
Theorem rate_limit_retries {A} (limited : list (response A)) resets rest url params w :
  Py.truthy url = true ->
  session_get_error w url = None ->
  Forall (fun resp => rate_limited resp = true) limited ->
  map reset_of limited = map Some resets ->
  waits_accepted (sleep_refused w) (clock w) resets = true ->
  paginate_loop (limited ++ rest) (Some url) params w
  = paginate_loop rest (Some url) params
      (advance (flat_map (retry_cycle url params) (waits (clock w) resets))
         (total (waits (clock w) resets)) w)
  /\ sleeps (flat_map (retry_cycle url params) (waits (clock w) resets))
     = length limited
  /\ Forall (fun s => 1 <= s <= max_sleep) (waits (clock w) resets).
Proof.
  intros Hu Hget Hall Hresets Hwaits. split; [by apply paginate_loop_retries |].
  split; [| by eapply waits_bounded].
  rewrite sleeps_retry_cycles, waits_length.
  by rewrite <- (length_map Some resets), <- Hresets, length_map.
Qed.

Lemma rate_limit_retries_witness :
  paginate_loop ([limited_response; limited_response] ++ [page [pr_by 7 "ann"] None])
    (Some "https://api.github.com/x") (Some [("per_page", "100")]) quiet_world
  = paginate_loop [page [pr_by 7 "ann"] None]
      (Some "https://api.github.com/x") (Some [("per_page", "100")])
      (advance (flat_map (retry_cycle "https://api.github.com/x" (Some [("per_page", "100")]))
                  (waits (clock quiet_world) [0; 0]))
         (total (waits (clock quiet_world) [0; 0])) quiet_world)
  /\ sleeps (flat_map (retry_cycle "https://api.github.com/x" (Some [("per_page", "100")]))
               (waits (clock quiet_world) [0; 0]))
     = length [limited_response; limited_response]
  /\ Forall (fun s => 1 <= s <= max_sleep) (waits (clock quiet_world) [0; 0]).
Proof.
  apply (rate_limit_retries [limited_response; limited_response] [0; 0]
           [page [pr_by 7 "ann"] None] "https://api.github.com/x"
           (Some [("per_page", "100")]) quiet_world).
  - reflexivity.
  - reflexivity.
  - repeat constructor.
  - reflexivity.
  - reflexivity.
Defined.

(** ** paginate: pages *)

(** The items of a page: the list itself, or the ['items'] of an object. *)
Definition page_items {A} (resp : response A) : option (list A) :=
  match body resp with
  | BodyList items => Some items
  | BodyObject items => Some (default [] items)
  | BodyBadItems => None
  | BodyScalar => None
  | BodyInvalid => None
  end.

(** A page: neither a rate-limit answer nor an HTTP error, with a JSON
    list or object as body. *)
Definition is_page {A} (resp : response A) : bool :=
  negb (rate_limited resp) && bool_decide (raise_for_status resp = None)
  && bool_decide (is_Some (page_items resp)).

Definition items_of {A} (resp : response A) : list A :=
  default [] (page_items resp).

(** The URL that the Link header of a page gives for the next request. *)
Definition next_of {A} (resp : response A) : option string :=
  next_link (default "" (header_get "Link" (headers resp))).

(** The page carries a next URL that is not empty. *)
Definition has_next {A} (resp : response A) : bool := Py.truthy_opt (next_of resp).

(** The page carries a part with [rel="next"] in its Link header. *)
Definition carries_rel_next {A} (resp : response A) : bool :=
  Py.contains rel_next (default "" (header_get "Link" (headers resp))).

Lemma yield_first_nil {A} (p : paginated A) : yield_first [] p = p.
Proof. by destruct p. Qed.

Lemma yield_first_app {A} (l1 l2 : list A) p :
  yield_first l1 (yield_first l2 p) = yield_first (l1 ++ l2) p.
Proof. unfold yield_first. simpl. by rewrite app_assoc. Qed.

Lemma session_get_error_advance es seconds w u :
  session_get_error (advance es seconds w) u = session_get_error w u.
Proof. reflexivity. Qed.

Lemma session_get_error_emit e w u :
  session_get_error (emit e w) u = session_get_error w u.
Proof. reflexivity. Qed.

Lemma paginate_loop_page {A} (resp : response A) rest u params w :
  Py.truthy u = true -> session_get_error w u = None -> is_page resp = true ->
  paginate_loop (resp :: rest) (Some u) params w
  = let (p, w') := paginate_loop rest (next_of resp) None (emit (HttpGet u params) w) in
    (yield_first (items_of resp) p, w').
Proof.
  intros Hu Hget Hpage. unfold is_page in Hpage.
  apply andb_true_iff in Hpage. destruct Hpage as [Hpage Hitems].
  apply andb_true_iff in Hpage. destruct Hpage as [Hrl Hstatus].
  apply negb_true_iff in Hrl. apply bool_decide_eq_true in Hstatus, Hitems.
  simpl. rewrite Hu, Hget, Hrl, Hstatus. unfold items_of, next_of, page_items in *.
  destruct (body resp); try reflexivity; by destruct Hitems.
Qed.

Lemma paginate_loop_refused {A} (script : list (response A)) u params w e :
  Py.truthy u = true -> session_get_error w u = Some e ->
  paginate_loop script (Some u) params w
  = ({| yielded := []; ended := Raised (Exception e); unread := script |}, w).
Proof. intros Hu Hget. destruct script; simpl; by rewrite Hu, Hget. Qed.

Lemma paginate_loop_done {A} (script : list (response A)) url params w :
  Py.truthy_opt url = false ->
  paginate_loop script url params w
  = ({| yielded := []; ended := Returned tt; unread := script |}, w).
Proof.
  intros Hurl. destruct url as [u |]; simpl in Hurl.
  - destruct script; simpl; by rewrite Hurl.
  - by destruct script.
Qed.

(** The requests that fetch the pages after the first one. *)
Definition follow_ups {A} (pages : list (response A)) : list effect :=
  map (fun p => HttpGet (default "" (next_of p)) None) pages.

Lemma follow_pages_to_last {A} (pages : list (response A)) :
  forall last rest u params w,
    Py.truthy u = true -> session_get_error w u = None ->
    Forall (fun p => is_page p = true) pages ->
    Forall (fun p => has_next p = true) pages ->
    Forall (fun p => session_get_error w (default "" (next_of p)) = None) pages ->
    is_page last = true -> has_next last = false ->
    paginate_loop (pages ++ last :: rest) (Some u) params w
    = ({| yielded := flat_map items_of (pages ++ [last]);
          ended := Returned tt; unread := rest |},
       advance (HttpGet u params :: follow_ups pages) 0 w).
Proof.
  induction pages as [| resp pages IH];
    intros last rest u params w Hu Hget Hpages Hnext Hacc Hlast Hend.
  - simpl app. rewrite paginate_loop_page, paginate_loop_done by done.
    simpl. by rewrite emit_advance.
  - inversion Hpages as [| ? ? Hpage Hrest]; subst.
    inversion Hnext as [| ? ? Hn Hnrest]; subst.
    inversion Hacc as [| ? ? Ha Harest]; subst.
    rewrite <- app_comm_cons, paginate_loop_page by done.
    unfold has_next in Hn. destruct (next_of resp) as [u' |] eqn:Hu'; [| done].
    simpl in Hn, Ha.
    rewrite (IH last rest u' None (emit (HttpGet u params) w) Hn Ha Hrest Hnrest Harest
               Hlast Hend).
    rewrite emit_advance, advance_advance. unfold yield_first, follow_ups. simpl.
    by rewrite Hu'.
Qed.

Lemma follow_pages_blocked {A} (pages : list (response A)) :
  forall u params w,
    Py.truthy u = true -> session_get_error w u = None ->
    Forall (fun p => is_page p = true) pages ->
    Forall (fun p => has_next p = true) pages ->
    Forall (fun p => session_get_error w (default "" (next_of p)) = None) pages ->
    paginate_loop pages (Some u) params w
    = ({| yielded := flat_map items_of pages; ended := Blocked; unread := [] |},
       advance (HttpGet u params :: follow_ups pages) 0 w).
Proof.
  induction pages as [| resp pages IH]; intros u params w Hu Hget Hpages Hnext Hacc.
  - rewrite paginate_loop_waiting by done. by rewrite emit_advance.
  - inversion Hpages as [| ? ? Hpage Hrest]; subst.
    inversion Hnext as [| ? ? Hn Hnrest]; subst.
    inversion Hacc as [| ? ? Ha Harest]; subst.
    rewrite paginate_loop_page by done.
    unfold has_next in Hn. destruct (next_of resp) as [u' |] eqn:Hu'; [| done].
    simpl in Hn, Ha.
    rewrite (IH u' None (emit (HttpGet u params) w) Hn Ha Hrest Hnrest Harest).
    rewrite emit_advance, advance_advance. unfold yield_first, follow_ups. simpl.
    by rewrite Hu'.
Qed.

(** A page whose Link header has a [rel="next"] part with nothing
    between the angle brackets. *)
Definition empty_next_page : response pull_request :=
  {| status_code := 200;
     headers := [("Link", "<>; " +:+ rel_next)];
     body := BodyList [pr_by 7 "ann"] |}.

(** C5, the claim as stated fails: a page that carries a [rel="next"]
    link with an empty URL ends the pagination; the page after it is
    never requested. *)
Lemma empty_next_link_terminates :
  (carries_rel_next empty_next_page = true) /\
  (paginate [empty_next_page; page [pr_by 8 "bob"] None]
     "https://api.github.com/x" None quiet_world).1
  = {| yielded := [pr_by 7 "ann"]; ended := Returned tt;
       unread := [page [pr_by 8 "bob"] None] |}.
Proof. vm_compute. split; reflexivity. Qed.

(** C5, amended.  On pages that each give a non-empty next URL that the
    HTTP client accepts, followed by a page that gives none or an empty
    one, [paginate] returns after that page: it has yielded the items of
    all these pages in order, has left the later answers unread, and has
    sent the first request with the parameters (with [per_page]
    defaulting to 100) and then one request without parameters to the
    next URL of each page.  As long as every page gives such a next URL
    it does not return: it has requested the next URL of the last page
    and waits for the answer. *)
Theorem paginate_follows_next {A} (pages : list (response A)) last rest url params w :
  Py.truthy url = true ->
  session_get_error w url = None ->
  Forall (fun p => is_page p = true) pages ->
  Forall (fun p => has_next p = true) pages ->
  Forall (fun p => session_get_error w (default "" (next_of p)) = None) pages ->
  is_page last = true -> has_next last = false ->
  paginate (pages ++ last :: rest) url params w
  = ({| yielded := flat_map items_of (pages ++ [last]);
        ended := Returned tt; unread := rest |},
     advance (HttpGet url (Some (setdefault "per_page" "100" (default [] params)))
              :: follow_ups pages) 0 w)
  /\ paginate pages url params w
     = ({| yielded := flat_map items_of pages; ended := Blocked; unread := [] |},
        advance (HttpGet url (Some (setdefault "per_page" "100" (default [] params)))
                 :: follow_ups pages) 0 w).
Proof.
  intros Hu Hget Hpages Hnext Hacc Hlast Hend. unfold paginate. split.
  - by apply follow_pages_to_last.
  - by apply follow_pages_blocked.
Qed.

Definition two_pages : list (response pull_request) :=
  [page [pr_by 1 "ann"; pr_by 2 "bob"] (Some "https://api.github.com/x?page=2");
   {| status_code := 200;
      headers := [("link", "<https://api.github.com/x?page=1>; rel=prev, <https://api.github.com/x?page=3>; " +:+ rel_next)];
      body := BodyObject (Some [pr_by 3 "cy"]) |}].

Lemma paginate_follows_next_witness :
  paginate (two_pages ++ page [pr_by 4 "dan"] None :: [page [pr_by 5 "eve"] None])
    "https://api.github.com/x" (Some [("state", "all")]) quiet_world
  = ({| yielded := flat_map items_of (two_pages ++ [page [pr_by 4 "dan"] None]);
        ended := Returned tt; unread := [page [pr_by 5 "eve"] None] |},
     advance (HttpGet "https://api.github.com/x"
                (Some (setdefault "per_page" "100" (default [] (Some [("state", "all")]))))
              :: follow_ups two_pages) 0 quiet_world)
  /\ paginate two_pages "https://api.github.com/x" (Some [("state", "all")]) quiet_world
     = ({| yielded := flat_map items_of two_pages; ended := Blocked; unread := [] |},
        advance (HttpGet "https://api.github.com/x"
                   (Some (setdefault "per_page" "100" (default [] (Some [("state", "all")]))))
                 :: follow_ups two_pages) 0 quiet_world).
Proof.
  apply (paginate_follows_next two_pages (page [pr_by 4 "dan"] None)
           [page [pr_by 5 "eve"] None] "https://api.github.com/x"
           (Some [("state", "all")]) quiet_world).
  - reflexivity.
  - reflexivity.
  - repeat constructor.
  - repeat constructor.
  - repeat constructor.
  - reflexivity.
  - reflexivity.
Defined.

Example follow_ups_two_pages :
  follow_ups two_pages
  = [HttpGet "https://api.github.com/x?page=2" None;
     HttpGet "https://api.github.com/x?page=3" None].
Proof. reflexivity. Qed.

(** ** paginate: HTTP errors *)

(** A loop that is blocked after the answers [pre] has sent a request and
    waits; with more answers it carries on from there. *)
Lemma paginate_loop_blocked_app {A} (pre : list (response A)) :
  forall url params w p w',
    paginate_loop pre url params w = (p, w') -> ended p = Blocked ->
    exists u params' w0,
      Py.truthy u = true /\ session_get_error w0 u = None /\
      w' = emit (HttpGet u params') w0 /\
      forall more,
        paginate_loop (pre ++ more) url params w
        = let (q, w'') := paginate_loop more (Some u) params' w0 in
          (yield_first (yielded p) q, w'').
Proof.
  induction pre as [| resp pre IH]; intros url params w p w' Hrun Hblocked.
  - destruct url as [u |]; simpl in Hrun.
    + destruct (Py.truthy u) eqn:Hu; [| injection Hrun as <- <-; done].
      destruct (session_get_error w u) eqn:Hget; [injection Hrun as <- <-; done |].
      injection Hrun as <- <-. exists u, params, w. split; [done |].
      split; [done |]. split; [done |]. intros more. simpl app.
      destruct (paginate_loop more (Some u) params w) as [q w''].
      cbn [yielded]. by rewrite yield_first_nil.
    + injection Hrun as <- <-. done.
  - destruct url as [u |]; simpl in Hrun; [| injection Hrun as <- <-; done].
    destruct (Py.truthy u) eqn:Hu; [| injection Hrun as <- <-; done].
    destruct (session_get_error w u) eqn:Hget; [injection Hrun as <- <-; done |].
    destruct (rate_limited resp) eqn:Hrl.
    + destruct (Py.int _) as [retry_at |] eqn:Hreset;
        [| injection Hrun as <- <-; done].
      destruct (Py.str_fits _) eqn:Hfits; [| injection Hrun as <- <-; done].
      destruct (sleep_error _ _ _) eqn:Hsleep; [injection Hrun as <- <-; done |].
      destruct (IH _ _ _ _ _ Hrun Hblocked)
        as (u' & params' & w0 & Hu' & Hget' & -> & Hmore).
      exists u', params', w0. split; [done |]. split; [done |]. split; [done |].
      intros more. rewrite <- app_comm_cons. simpl.
      rewrite Hu, Hget, Hrl, Hreset, Hfits, Hsleep. apply Hmore.
    + destruct (raise_for_status resp) as [e |] eqn:Hstatus;
        [injection Hrun as <- <-; done |].
      destruct (body resp) as [items | items | | |] eqn:Hbody;
        try (injection Hrun as <- <-; done).
      * destruct (paginate_loop pre _ None _) as [p0 w1] eqn:Hrest.
        injection Hrun as <- <-. simpl in Hblocked.
        destruct (IH _ _ _ _ _ Hrest Hblocked)
          as (u' & params' & w0 & Hu' & Hget' & -> & Hmore).
        exists u', params', w0. split; [done |]. split; [done |]. split; [done |].
        intros more. rewrite <- app_comm_cons. simpl.
        rewrite Hu, Hget, Hrl, Hstatus, Hbody, Hmore.
        destruct (paginate_loop more (Some u') params' w0) as [q w''].
        by rewrite yield_first_app.
      * destruct (paginate_loop pre _ None _) as [p0 w1] eqn:Hrest.
        injection Hrun as <- <-. simpl in Hblocked.
        destruct (IH _ _ _ _ _ Hrest Hblocked)
          as (u' & params' & w0 & Hu' & Hget' & -> & Hmore).
        exists u', params', w0. split; [done |]. split; [done |]. split; [done |].
        intros more. rewrite <- app_comm_cons. simpl.
        rewrite Hu, Hget, Hrl, Hstatus, Hbody, Hmore.
        destruct (paginate_loop more (Some u') params' w0) as [q w''].
        by rewrite yield_first_app.
Qed.

Lemma paginate_loop_error {A} (resp : response A) rest u params w :
  Py.truthy u = true -> session_get_error w u = None ->
  rate_limited resp = false ->
  400 <= status_code resp < 600 ->
  paginate_loop (resp :: rest) (Some u) params w
  = ({| yielded := []; ended := Raised (Exception (HTTPError (status_code resp)));
        unread := rest |}, emit (HttpGet u params) w).
Proof.
  intros Hu Hget Hrl Hstatus. simpl. rewrite Hu, Hget, Hrl. unfold raise_for_status.
  destruct (400 <=? status_code resp) eqn:E1; [| lia].
  destruct (status_code resp <? 600) eqn:E2; [| lia].
  reflexivity.
Qed.

Lemma paginate_loop_error_after {A} (pre : list (response A)) resp rest url params w p w' :
  paginate_loop pre url params w = (p, w') -> ended p = Blocked ->
  rate_limited resp = false -> 400 <= status_code resp < 600 ->
  paginate_loop (pre ++ resp :: rest) url params w
  = ({| yielded := yielded p;
        ended := Raised (Exception (HTTPError (status_code resp)));
        unread := rest |}, w').
Proof.
  intros Hrun Hblocked Hrl Hstatus.
  destruct (paginate_loop_blocked_app pre _ _ _ _ _ Hrun Hblocked)
    as (u & params' & w0 & Hu & Hget & -> & Hmore).
  rewrite Hmore, paginate_loop_error by done.
  unfold yield_first. simpl. by rewrite app_nil_r.
Qed.

(** The parameters of the request for the pull requests, line 129. *)
Definition pulls_params : query :=
  [("state", "all"); ("sort", "created"); ("direction", "desc")].

Lemma main_fetch_raises isoparse w c w0 r w1 :
  load_configuration w = (Returned c, w0) ->
  get_pull_requests (GH_OWNER c) (GH_REPO c) "all" w0 = (Raised r, w1) ->
  main isoparse w = (Raised r, w1).
Proof.
  intros Hc Hf. unfold main. rewrite (bind_step _ _ _ _ _ Hc).
  by apply bind_raised.
Qed.

Lemma script_exception isoparse w exc w' :
  main isoparse w = (Raised (Exception exc), w') ->
  script isoparse w = (Some 1, emit (Stderr ("Error: " +:+ exception_str exc)) w').
Proof. unfold script. by intros ->. Qed.

(** A crude ISO 8601 reader for the example runs: the digits of the
    string read as one number, aware when the string ends in Z. *)
Fixpoint digits_of (s : string) : string :=
  match s with
  | EmptyString => EmptyString
  | String c s' =>
      match Py.digit_of c with
      | Some _ => String c (digits_of s')
      | None => digits_of s'
      end
  end.

Definition demo_isoparse (s : string) : option datetime :=
  match Py.int (digits_of s) with
  | Some n => Some {| instant := n; aware := Py.contains "Z" s |}
  | None => None
  end.

Definition server_error : response pull_request :=
  {| status_code := 500; headers := []; body := BodyInvalid |}.

(** C6.  Whenever [main] raises an [Exception], the process writes
    [Error: ...] with the text of the exception to stderr as its last
    effect and exits with code 1. *)
Theorem exception_exit_code isoparse w exc w' :
  main isoparse w = (Raised (Exception exc), w') ->
  script isoparse w = (Some 1, emit (Stderr ("Error: " +:+ exception_str exc)) w').
Proof. unfold script. by intros ->. Qed.

Definition failing_world : world :=
  demo_world demo_environ
    [page [pr_by 1 "ann"] (Some "https://api.github.com/x?page=2"); server_error]
    (fun _ => []) (fun _ => []) [].

Lemma exception_exit_code_witness :
  script demo_isoparse failing_world
  = (Some 1,
     emit (Stderr ("Error: " +:+ exception_str (HTTPError 500)))
       (main demo_isoparse failing_world).2).
Proof.
  apply (exception_exit_code demo_isoparse failing_world (HTTPError 500)).
  vm_compute. reflexivity.
Defined.

Example failing_world_trace :
  trace (script demo_isoparse failing_world).2
  = [HttpGet "https://api.github.com/repos/octo/demo/pulls"
       (Some [("state", "all"); ("sort", "created"); ("direction", "desc");
              ("per_page", "100")]);
     HttpGet "https://api.github.com/x?page=2" None;
     Stderr "Error: 500 Error"].
Proof. vm_compute. reflexivity. Qed.

(** ** load_configuration *)

(** The value an environment variable resolves to. *)
Definition resolved (w : world) (k d : string) : string := default d (environ w !! k).

Definition env_token (w : world) : string := Py.strip (resolved w "GH_TOKEN" "").

Definition token_file_of (w : world) : string := Py.strip (resolved w "GH_TOKEN_FILE" "").

(** The token file is consulted: [GH_TOKEN] gives nothing and
    [GH_TOKEN_FILE] names a file. *)
Definition consults_file (w : world) : bool :=
  negb (Py.truthy (env_token w)) && Py.truthy (token_file_of w).

Definition file_token (w : world) : option string :=
  if consults_file w then
    match files w (token_file_of w) with
    | FileText text => if Py.truthy (Py.strip text) then Some (Py.strip text) else None
    | FileNotFound => None
    | FileFails _ => None
    end
  else None.

Definition gh_token (w : world) : option string :=
  match gh w with
  | GhRan returncode stdout =>
      if (returncode =? 0) && Py.truthy (Py.strip stdout)
      then Some (Py.strip stdout) else None
  | GhRaises => None
  | GhAbsent => None
  end.

(** No GitHub token can be obtained: not from [GH_TOKEN], not from the
    token file, not from the gh tool. *)
Definition no_token (w : world) : bool :=
  negb (Py.truthy (env_token w)) && bool_decide (file_token w = None)
  && bool_decide (gh_token w = None).

(** Reading the token file fails with an error other than a missing file. *)
Definition token_file_fails (w : world) : bool :=
  consults_file w &&
  match files w (token_file_of w) with FileFails _ => true | _ => false end.

Definition token_file_missing (w : world) : bool :=
  consults_file w &&
  match files w (token_file_of w) with FileNotFound => true | _ => false end.

(** [(os.getenv(k, d) or d).strip().lower()], as a value. *)
Definition resolved_choice (w : world) (k d : string) : string :=
  Py.lower (Py.strip (if Py.truthy (resolved w k d) then resolved w k d else d)).

Definition bad_mode (w : world) : bool :=
  negb (String.eqb (resolved_choice w "MODE" "rows") "rows"
        || String.eqb (resolved_choice w "MODE" "rows") "tracker").

Definition bad_track_by (w : world) : bool :=
  negb (String.eqb (resolved_choice w "TRACK_BY" "creator") "creator"
        || String.eqb (resolved_choice w "TRACK_BY" "creator") "requester").

Definition name_if_empty (w : world) (k d : string) : list string :=
  if Py.truthy (resolved w k d) then [] else [k].

(** The names the message lists, in its order. *)
Definition missing_names (w : world) : list string :=
  name_if_empty w "GH_OWNER" ""
  ++ name_if_empty w "GH_REPO" ""
  ++ name_if_empty w "GOOGLE_SHEETS_ID" ""
  ++ name_if_empty w "GOOGLE_SERVICE_ACCOUNT_FILE" "service_account.json"
  ++ (if no_token w then ["GH_TOKEN (or GH_TOKEN_FILE or gh auth login)"] else []).

(** The environment has one of the problems of the claim. *)
Definition misconfigured (w : world) : Prop :=
  resolved w "GH_OWNER" "" = ""
  \/ resolved w "GH_REPO" "" = ""
  \/ resolved w "GOOGLE_SHEETS_ID" "" = ""
  \/ resolved w "GOOGLE_SERVICE_ACCOUNT_FILE" "service_account.json" = ""
  \/ no_token w = true
  \/ bad_mode w = true
  \/ bad_track_by w = true.

(** The message for the first problem that [load_configuration] meets. *)
Definition expected_message (w : world) : string :=
  if token_file_missing w then "GH_TOKEN_FILE not found: " +:+ token_file_of w
  else match missing_names w with
       | _ :: _ => "Missing configuration: " +:+ Py.join ", " (missing_names w)
       | [] =>
           if bad_mode w then "MODE must be either 'rows' or 'tracker'"
           else "TRACK_BY must be either 'creator' or 'requester'"
       end.

(** The token that the three sources give when the token file, if
    consulted, can be read. *)
Definition token_of (w : world) : string :=
  if Py.truthy (env_token w) then env_token w
  else match file_token w with
       | Some t => t
       | None => default "" (gh_token w)
       end.

Definition config_of (w : world) : config :=
  {| GH_TOKEN := token_of w;
     GH_OWNER := resolved w "GH_OWNER" "";
     GH_REPO := resolved w "GH_REPO" "";
     GOOGLE_SHEETS_ID := resolved w "GOOGLE_SHEETS_ID" "";
     GOOGLE_SERVICE_ACCOUNT_FILE :=
       resolved w "GOOGLE_SERVICE_ACCOUNT_FILE" "service_account.json";
     SHEET_NAME := resolved w "SHEET_NAME" "Sheet1";
     MODE := resolved_choice w "MODE" "rows";
     TRACK_BY := resolved_choice w "TRACK_BY" "creator";
     TRACKER_SHEET_NAME := resolved w "TRACKER_SHEET_NAME" "Tracker" |}.

Lemma truthy_false s : Py.truthy s = false <-> s = "".
Proof. by destruct s. Qed.

Lemma token_from_env_or_file_eq w :
  token_from_env_or_file w
  = if Py.truthy (env_token w) then (Returned (env_token w), w)
    else if Py.truthy (token_file_of w) then
      match files w (token_file_of w) with
      | FileText text => (Returned (Py.strip text), w)
      | FileNotFound =>
          (Raised (SystemExit ("GH_TOKEN_FILE not found: " +:+ token_file_of w)), w)
      | FileFails msg => (Raised (Exception (OSError msg)), w)
      end
    else (Returned (env_token w), w).
Proof.
  cbv beta iota zeta
    delta [token_from_env_or_file bind getenv ret env_token token_file_of resolved].
  destruct (Py.truthy (Py.strip (default "" (environ w !! "GH_TOKEN"))));
    [reflexivity |].
  destruct (Py.truthy (Py.strip (default "" (environ w !! "GH_TOKEN_FILE"))));
    reflexivity.
Qed.

Lemma token_from_gh_eq token w :
  token_from_gh token w
  = (Returned (if Py.truthy token then token else default token (gh_token w)), w).
Proof.
  unfold token_from_gh, gh_token. destruct (Py.truthy token); [done |].
  destruct (gh w) as [| | rc out]; try done.
  by destruct ((rc =? 0) && Py.truthy (Py.strip out)).
Qed.

Lemma token_phase_missing w :
  token_file_missing w = true ->
  bind token_from_env_or_file token_from_gh w
  = (Raised (SystemExit ("GH_TOKEN_FILE not found: " +:+ token_file_of w)), w).
Proof.
  unfold token_file_missing, consults_file. intros H.
  apply andb_true_iff in H. destruct H as [H Hnf].
  apply andb_true_iff in H. destruct H as [Henv Hfile].
  apply negb_true_iff in Henv.
  unfold bind. rewrite token_from_env_or_file_eq, Henv, Hfile.
  by destruct (files w (token_file_of w)).
Qed.

Lemma token_phase_fails w :
  token_file_fails w = true ->
  exists msg,
    bind token_from_env_or_file token_from_gh w = (Raised (Exception (OSError msg)), w).
Proof.
  unfold token_file_fails, consults_file. intros H.
  apply andb_true_iff in H. destruct H as [H Hff].
  apply andb_true_iff in H. destruct H as [Henv Hfile].
  apply negb_true_iff in Henv.
  unfold bind. rewrite token_from_env_or_file_eq, Henv, Hfile.
  destruct (files w (token_file_of w)) as [| | msg]; try done.
  by exists msg.
Qed.

Lemma token_phase_returns w :
  token_file_missing w = false -> token_file_fails w = false ->
  bind token_from_env_or_file token_from_gh w = (Returned (token_of w), w).
Proof.
  unfold token_file_missing, token_file_fails, token_of, file_token, consults_file.
  intros Hnm Hnf.
  unfold bind. rewrite token_from_env_or_file_eq.
  destruct (Py.truthy (env_token w)) eqn:Henv.
  - by rewrite token_from_gh_eq, Henv.
  - rewrite andb_true_l in *.
    destruct (Py.truthy (token_file_of w)) eqn:Hfile.
    + rewrite andb_true_l in *.
      destruct (files w (token_file_of w)) as [text | | msg]; try done.
      rewrite token_from_gh_eq.
      destruct (Py.truthy (Py.strip text)) eqn:Htext; [done |].
      apply truthy_false in Htext. by rewrite Htext.
    + rewrite token_from_gh_eq, Henv.
      apply truthy_false in Henv. by rewrite Henv.
Qed.

Lemma token_of_truthy w :
  token_file_missing w = false -> token_file_fails w = false ->
  Py.truthy (token_of w) = negb (no_token w).
Proof.
  unfold token_file_missing, token_file_fails, token_of, no_token, file_token,
    gh_token, consults_file.
  intros Hnm Hnf.
  destruct (Py.truthy (env_token w)) eqn:Henv; [done |].
  rewrite andb_true_l in *.
  destruct (Py.truthy (token_file_of w)) eqn:Hfile.
  - rewrite andb_true_l in *.
    destruct (files w (token_file_of w)) as [text | | msg]; try done.
    destruct (Py.truthy (Py.strip text)) eqn:Htext; [done |].
    destruct (gh w) as [| | rc out]; try done.
    destruct ((rc =? 0) && Py.truthy (Py.strip out)) eqn:E; [| done].
    simpl. apply andb_true_iff in E. by destruct E as [_ ->].
  - destruct (gh w) as [| | rc out]; try done.
    destruct ((rc =? 0) && Py.truthy (Py.strip out)) eqn:E; [| done].
    simpl. apply andb_true_iff in E. by destruct E as [_ ->].
Qed.

Lemma load_configuration_validates w :
  token_file_missing w = false -> token_file_fails w = false ->
  load_configuration w
  = match missing_of (config_of w) with
    | _ :: _ =>
        (Raised (SystemExit ("Missing configuration: "
                             +:+ Py.join ", " (missing_of (config_of w)))), w)
    | [] =>
        if bad_mode w
        then (Raised (SystemExit "MODE must be either 'rows' or 'tracker'"), w)
        else if bad_track_by w
        then (Raised (SystemExit "TRACK_BY must be either 'creator' or 'requester'"), w)
        else (Returned (config_of w), w)
    end.
Proof.
  intros Hnm Hnf. unfold load_configuration.
  rewrite <- bind_assoc.
  rewrite (bind_step _ _ _ _ _ (token_phase_returns w Hnm Hnf)).
  cbv beta iota zeta
    delta [bind getenv_choice getenv ret raise config_of resolved resolved_choice
           bad_mode bad_track_by MODE TRACK_BY].
  match goal with |- context [missing_of ?c] => destruct (missing_of c) end.
  - match goal with |- context [negb ?b] => destruct (negb b) end; [reflexivity |].
    match goal with |- context [negb ?b] => destruct (negb b) end; reflexivity.
  - reflexivity.
Qed.

Lemma missing_of_names w :
  token_file_missing w = false -> token_file_fails w = false ->
  missing_of (config_of w) = missing_names w.
Proof.
  intros Hnm Hnf. unfold missing_of, missing_names, name_if_empty.
  change (GH_TOKEN (config_of w)) with (token_of w).
  rewrite (token_of_truthy w Hnm Hnf).
  unfold required_keys, config_item, config_of. simpl.
  destruct (Py.truthy (resolved w "GH_OWNER" ""));
    destruct (Py.truthy (resolved w "GH_REPO" ""));
    destruct (Py.truthy (resolved w "GOOGLE_SHEETS_ID" ""));
    destruct (Py.truthy (resolved w "GOOGLE_SERVICE_ACCOUNT_FILE" "service_account.json"));
    destruct (no_token w); reflexivity.
Qed.

Lemma name_if_empty_empty w k d : resolved w k d = "" -> name_if_empty w k d = [k].
Proof. unfold name_if_empty. by intros ->. Qed.

Lemma misconfigured_found w :
  misconfigured w ->
  missing_names w <> [] \/ bad_mode w = true \/ bad_track_by w = true.
Proof.
  unfold misconfigured, missing_names.
  intros [H | [H | [H | [H | [H | [H | H]]]]]]; auto; left; intros E;
    try rewrite (name_if_empty_empty _ _ _ H) in E; try rewrite H in E;
    repeat (apply app_eq_nil in E; destruct E as [? E]); discriminate.
Qed.

Lemma load_configuration_aborts w :
  token_file_fails w = false -> misconfigured w ->
  load_configuration w = (Raised (SystemExit (expected_message w)), w).
Proof.
  intros Hnf Hbad. unfold expected_message.
  destruct (token_file_missing w) eqn:Hnm.
  - unfold load_configuration. rewrite <- bind_assoc.
    by rewrite (bind_raised _ _ _ _ _ (token_phase_missing w Hnm)).
  - rewrite (load_configuration_validates w Hnm Hnf), (missing_of_names w Hnm Hnf).
    destruct (misconfigured_found w Hbad) as [H | [H | H]].
    + by destruct (missing_names w).
    + destruct (missing_names w); [| done]. by rewrite H.
    + destruct (missing_names w); [| done]. rewrite H. by destruct (bad_mode w).
Qed.

Lemma main_config_raises isoparse w r w' :
  load_configuration w = (Raised r, w') -> main isoparse w = (Raised r, w').
Proof. intros H. unfold main. by apply bind_raised. Qed.

Definition broken_environ : gmap string string :=
  list_to_map [("GH_REPO", "demo"); ("GOOGLE_SHEETS_ID", "sheet-key");
               ("GH_TOKEN_FILE", "/run/secrets")].

(** A world without [GH_OWNER] whose token file is a directory. *)
Definition broken_world : world :=
  {| environ := broken_environ;
     files := fun _ => FileFails "[Errno 21] Is a directory: '/run/secrets'";
     gh := GhAbsent; clock := 1000; pulls_api := []; events_api := fun _ => [];
     commits_api := fun _ => []; sa_info_ok := fun _ => true;
     sa_file_ok := fun _ => true;
     url_refused := fun _ => None; sleep_refused := fun _ _ => None;
     spreadsheets := ∅; trace := [] |}.

(** C3, the claim as stated fails: with [GH_OWNER] unset and a token file
    that cannot be read, [load_configuration] raises the [OSError] of the
    read, not [SystemExit]. *)
Lemma unreadable_token_file_is_no_system_exit :
  misconfigured broken_world /\
  load_configuration broken_world
  = (Raised (Exception (OSError "[Errno 21] Is a directory: '/run/secrets'")),
     broken_world).
Proof. split; [left |]; vm_compute; reflexivity. Qed.

(** C3, amended.  In an environment with one of the problems (a required
    value that resolves to the empty string, no token from any source, a
    MODE or TRACK_BY outside its two values), and unless reading the token
    file fails with an error other than a missing file,
    [load_configuration] raises [SystemExit] with the message of the
    first problem it meets, in an unchanged world; [main] raises it on
    without any request, and the process writes the message to stderr and
    exits with code 1. *)
Theorem configuration_errors_abort w :
  token_file_fails w = false -> misconfigured w ->
  load_configuration w = (Raised (SystemExit (expected_message w)), w)
  /\ forall isoparse,
       main isoparse w = (Raised (SystemExit (expected_message w)), w)
       /\ script isoparse w = (Some 1, emit (Stderr (expected_message w)) w).
Proof.
  intros Hnf Hbad.
  pose proof (load_configuration_aborts w Hnf Hbad) as Hload.
  split; [exact Hload |]. intros isoparse.
  pose proof (main_config_raises isoparse w _ _ Hload) as Hmain.
  split; [exact Hmain |]. unfold script. by rewrite Hmain.
Qed.

Definition tokenless_environ : gmap string string :=
  list_to_map [("GH_OWNER", "octo"); ("GOOGLE_SHEETS_ID", "sheet-key");
               ("MODE", "Rows "); ("TRACK_BY", "nobody")].

Definition tokenless_world : world :=
  demo_world tokenless_environ [page [pr_by 1 "ann"] None]
    (fun _ => []) (fun _ => []) [].

Lemma configuration_errors_abort_witness :
  load_configuration tokenless_world
  = (Raised (SystemExit (expected_message tokenless_world)), tokenless_world)
  /\ forall isoparse,
       main isoparse tokenless_world
       = (Raised (SystemExit (expected_message tokenless_world)), tokenless_world)
       /\ script isoparse tokenless_world
          = (Some 1, emit (Stderr (expected_message tokenless_world)) tokenless_world).
Proof.
  apply (configuration_errors_abort tokenless_world).
  - vm_compute. reflexivity.
  - right. left. vm_compute. reflexivity.
Defined.

Example tokenless_message :
  expected_message tokenless_world
  = "Missing configuration: GH_REPO, GH_TOKEN (or GH_TOKEN_FILE or gh auth login)".
Proof. vm_compute. reflexivity. Qed.

(** ** The row of a pull request *)

Ltac bind_as H a w1 Hm :=
  apply bind_returned in H; destruct H as (a & w1 & Hm & H).

Section Rows.

Variable isoparse : string -> option datetime.

(** The commit is dated after [md]. *)
Definition later_than (md : datetime) (c : pr_commit) : bool :=
  match commit_date c with
  | Some s =>
      if Py.truthy s then
        match isoparse s with
        | Some cd => instant md <? instant cd
        | None => false
        end
      else false
  | None => false
  end.

(** The number of commits dated after the first review request. *)
Definition updates_after (marked_done_at : option string) (commits : list pr_commit)
    : Z :=
  match marked_done_at with
  | Some s =>
      if Py.truthy s then
        match isoparse s with
        | Some md => Z.of_nat (length (List.filter (later_than md) commits))
        | None => 0
        end
      else 0
  | None => 0
  end.

(** The row of a pull request, from its record, its events and its
    commits, field by field in the order of the sheet. *)
Definition row_of (pr : pull_request) (events : list issue_event)
    (commits : list pr_commit) : row :=
  [opt_int (pr_number pr);
   opt_str (pr_title pr);
   opt_str (login_of (pr_user pr));
   opt_str (pr_created_at pr);
   opt_str (marked_done_at_of (review_events_of events));
   reviewers_cell (reviewers_unique_of (review_events_of events));
   CInt (updates_after (marked_done_at_of (review_events_of events)) commits);
   opt_str (finalized_by_of pr);
   opt_str (finalized_at_of pr);
   opt_str (pr_html_url pr)].

Lemma count_updates_returns md commits :
  forall acc w k w',
    count_updates isoparse (Some md) commits acc w = (Returned k, w') ->
    w' = w /\ k = acc + Z.of_nat (length (List.filter (later_than md) commits)).
Proof.
  induction commits as [| c rest IH]; intros acc w k w' H; simpl in H.
  - unfold ret in H. injection H as <- <-. simpl. split; [done | lia].
  - cbn [List.filter]. remember (later_than md c) as b eqn:Hb.
    unfold later_than in Hb. unfold bind, parse_iso8601 in H.
    destruct (commit_date c) as [s |]; simpl in H.
    + destruct (Py.truthy s); simpl in H.
      * destruct (isoparse s) as [cd |]; simpl in H; [| done].
        unfold datetime_gt in H.
        destruct (Bool.eqb (aware cd) (aware md)); simpl in H; [| done].
        rewrite <- Hb in H. destruct b.
        -- apply IH in H. destruct H as [-> ->]. split; [done |].
           simpl length. lia.
        -- by apply IH in H.
      * subst b. by apply IH in H.
    + subst b. by apply IH in H.
Qed.

Lemma int_of_returned number w n w' :
  int_of number w = (Returned n, w') -> number = Some n /\ w' = w.
Proof. unfold int_of. destruct number; [| done]. unfold ret. by intros [= -> ->]. Qed.

(** What a returning [summarize_pr] has done: fetched the events, and
    the commits when the first review request has a timestamp, and
    built the row from them. *)
Definition summarized (owner repo : string) (pr : pull_request) (w : world)
    (row : row) (w' : world) : Prop :=
  exists n events w1 commits,
    pr_number pr = Some n /\
    get_issue_events owner repo n w = (Returned events, w1) /\
    (if Py.truthy_opt (marked_done_at_of (review_events_of events))
     then get_pr_commits owner repo n w1 = (Returned commits, w')
     else commits = [] /\ w' = w1) /\
    row = row_of pr events commits.

Lemma summarize_pr_returns owner repo pr w row meta w' :
  summarize_pr isoparse owner repo pr w = (Returned (row, meta), w') ->
  summarized owner repo pr w row w'.
Proof.
  unfold summarize_pr, summarized. intros H.
  bind_as H n w0 Hn. apply int_of_returned in Hn. destruct Hn as [Hn ->].
  bind_as H events w1 Hevents.
  bind_as H k w2 Hupdates. unfold ret in H.
  injection H as <- _ <-.
  exists n, events, w1.
  destruct (Py.truthy_opt (marked_done_at_of (review_events_of events))) eqn:Hmarked.
  - bind_as Hupdates md_dt w3 Hparse.
    bind_as Hupdates n' w4 Hn'. apply int_of_returned in Hn'.
    destruct Hn' as [Hn' ->].
    bind_as Hupdates commits w5 Hcommits.
    unfold parse_iso8601 in Hparse.
    destruct (marked_done_at_of (review_events_of events)) as [s |] eqn:Hs;
      [| done].
    simpl in Hmarked. rewrite Hmarked in Hparse.
    destruct (isoparse s) as [md |] eqn:Hmd; [| done].
    unfold ret in Hparse. injection Hparse as <- <-.
    apply count_updates_returns in Hupdates. destruct Hupdates as [-> ->].
    rewrite Hn in Hn'. injection Hn' as <-.
    exists commits. split; [done |]. split; [done |]. split; [done |].
    unfold row_of. rewrite Hs. unfold updates_after. by rewrite Hmarked, Hmd.
  - unfold ret in Hupdates. injection Hupdates as <- <-.
    exists []. split; [done |]. split; [done |]. split; [done |].
    unfold row_of, updates_after.
    destruct (marked_done_at_of (review_events_of events)) as [s |]; [| done].
    simpl in Hmarked. by rewrite Hmarked.
Qed.

End Rows.

(** The names that the review-requested events of a pull request ask
    for, one per event that names a reviewer or a team, in event order. *)
Definition requested_names (events : list issue_event) : list string :=
  omap requested_name (review_events_of events).

Lemma reviewers_unique_names events :
  reviewers_unique_of (review_events_of events)
  = unique_from ∅ (requested_names events).
Proof. unfold reviewers_unique_of. by rewrite collect_reviewers_names. Qed.


Definition team_request (actor team_slug at_ : string) : issue_event :=
  {| ev_event := Some "review_requested"; ev_created_at := Some at_;
     ev_requested_reviewer := None;
     ev_requested_team := Some {| slug := Some team_slug |};
     ev_actor := Some {| login := Some actor |} |}.

Definition labeled : issue_event :=
  {| ev_event := Some "labeled"; ev_created_at := Some "2024-01-01T12:00:00Z";
     ev_requested_reviewer := None; ev_requested_team := None;
     ev_actor := Some {| login := Some "ann" |} |}.

Definition review_history : list issue_event :=
  [labeled;
   review_request "ann" "bob" "2024-01-02T00:00:00Z";
   team_request "ann" "core" "2024-01-03T00:00:00Z";
   review_request "cy" "bob" "2024-01-04T00:00:00Z";
   review_request "cy" "dan" "2024-01-05T00:00:00Z"].

Definition commit_at (d : string) : pr_commit :=
  {| commit := Some {| author := Some {| date := Some d |} |} |}.

Definition rows_world : world :=
  demo_world demo_environ [page [pr_by 7 "ann"] None]
    (fun _ => [page review_history None])
    (fun _ => [page [commit_at "2024-01-01T08:00:00Z"; commit_at "2024-01-02T09:00:00Z";
                     commit_at "2024-01-06T10:00:00Z"] None])
    [("Sheet1", [])].

Definition row_of_pr_7 : row :=
  [CInt 7; CStr "Add feature"; CStr "ann"; CStr "2024-01-01T00:00:00Z";
   CStr "2024-01-02T00:00:00Z"; CStr "bob, team:core, dan"; CInt 2; CNone; CNone;
   CStr "https://github.com/octo/demo/pull/7"].

Example summarize_pr_7 :
  (summarize_pr demo_isoparse "octo" "demo" (pr_by 7 "ann") rows_world).1
  = Returned (row_of_pr_7, ("7", "https://github.com/octo/demo/pull/7")).
Proof. vm_compute. reflexivity. Qed.


(** ** The rows mode *)

Lemma paginate_loop_spreadsheets {A} (script : list (response A)) :
  forall url params w,
    spreadsheets (paginate_loop script url params w).2 = spreadsheets w.
Proof.
  induction script as [| resp rest IH]; intros url params w; simpl.
  - destruct url as [u |]; [destruct (Py.truthy u) |]; try reflexivity.
    by destruct (session_get_error w u).
  - destruct url as [u |]; [destruct (Py.truthy u) |]; try reflexivity.
    destruct (session_get_error w u); [reflexivity |].
    destruct (rate_limited resp).
    + destruct (Py.int _); [| reflexivity].
      destruct (Py.str_fits _); [| reflexivity].
      destruct (sleep_error _ _ _); [reflexivity | by rewrite IH].
    + destruct (raise_for_status resp); [reflexivity |].
      destruct (body resp); try reflexivity.
      * specialize (IH (next_link (default "" (header_get "Link" (headers resp))))
                      None (emit (HttpGet u params) w)).
        by destruct (paginate_loop rest _ None _).
      * specialize (IH (next_link (default "" (header_get "Link" (headers resp))))
                      None (emit (HttpGet u params) w)).
        by destruct (paginate_loop rest _ None _).
Qed.

Lemma get_issue_events_spreadsheets owner repo n w :
  spreadsheets (get_issue_events owner repo n w).2 = spreadsheets w.
Proof.
  unfold get_issue_events, paginate. cbv zeta.
  match goal with |- context [paginate_loop ?s ?u ?p w] =>
    pose proof (paginate_loop_spreadsheets s u p w) as H;
    destruct (paginate_loop s u p w) end.
  exact H.
Qed.

Lemma get_pr_commits_spreadsheets owner repo n w :
  spreadsheets (get_pr_commits owner repo n w).2 = spreadsheets w.
Proof.
  unfold get_pr_commits, paginate. cbv zeta.
  match goal with |- context [paginate_loop ?s ?u ?p w] =>
    pose proof (paginate_loop_spreadsheets s u p w) as H;
    destruct (paginate_loop s u p w) end.
  exact H.
Qed.

Lemma read_ws_spreadsheets h w w' :
  spreadsheets w' = spreadsheets w -> read_ws h w' = read_ws h w.
Proof. unfold read_ws. by intros ->. Qed.

Section RowsMode.

Variable isoparse : string -> option datetime.

Lemma summarized_spreadsheets owner repo pr w row w' :
  summarized isoparse owner repo pr w row w' -> spreadsheets w' = spreadsheets w.
Proof.
  intros (n & events & w1 & commits & _ & Hevents & Hcommits & _).
  pose proof (get_issue_events_spreadsheets owner repo n w) as H1.
  rewrite Hevents in H1. simpl in H1.
  destruct (Py.truthy_opt _).
  - pose proof (get_pr_commits_spreadsheets owner repo n w1) as H2.
    rewrite Hcommits in H2. simpl in H2. congruence.
  - destruct Hcommits as [_ ->]. exact H1.
Qed.

(** The rows that a returning rows loop has added: one per pull
    request, in order, each built by [summarize_pr] in the world that
    the previous one left. *)
Inductive rows_run (owner repo : string)
    : list pull_request -> world -> list row -> world -> Prop :=
| rows_run_nil w : rows_run owner repo [] w [] w
| rows_run_cons pr prs w row w1 rows w' :
    summarized isoparse owner repo pr w row w1 ->
    rows_run owner repo prs w1 rows w' ->
    rows_run owner repo (pr :: prs) w (row :: rows) w'.

Lemma rows_loop_returns owner repo prs :
  forall rows0 w rows w',
    rows_loop isoparse owner repo prs rows0 w = (Returned rows, w') ->
    exists new, rows = rows0 ++ new /\ rows_run owner repo prs w new w'.
Proof.
  induction prs as [| pr prs IH]; intros rows0 w rows w' H; simpl in H.
  - unfold ret in H. injection H as <- <-. exists [].
    split; [by rewrite app_nil_r | constructor].
  - bind_as H rm w1 Hsum. destruct rm as [row meta].
    apply summarize_pr_returns in Hsum.
    apply IH in H. destruct H as (new & -> & Hrun).
    exists (row :: new). split; [by rewrite <- app_assoc |].
    by econstructor.
Qed.

Lemma rows_run_length owner repo prs w rows w' :
  rows_run owner repo prs w rows w' -> length rows = length prs.
Proof. induction 1; simpl; [done | by f_equal]. Qed.

Lemma rows_run_spreadsheets owner repo prs w rows w' :
  rows_run owner repo prs w rows w' -> spreadsheets w' = spreadsheets w.
Proof.
  induction 1 as [| pr prs w row w1 rows w' Hsum _ IH]; [done |].
  rewrite IH. by eapply summarized_spreadsheets.
Qed.

Lemma rows_run_rows owner repo prs w rows w' :
  rows_run owner repo prs w rows w' ->
  Forall2 (fun pr row => exists events commits, row = row_of isoparse pr events commits)
    prs rows.
Proof.
  induction 1 as [| pr prs w row w1 rows w' Hsum _ IH]; constructor; [| done].
  destruct Hsum as (n & events & w0 & commits & _ & _ & _ & ->). by exists events, commits.
Qed.

End RowsMode.

Lemma connect_sheet_handle key file title w h w' :
  connect_sheet key file title w = (Returned h, w') -> h = (key, title).
Proof.
  unfold connect_sheet. intros H.
  bind_as H raw w1 Hraw. bind_as H u w2 Hcreds. bind_as H u' w3 Hopen.
  destruct (spreadsheets w3 !! key) as [sh |]; [| done].
  destruct (sheet_get title sh); by injection H as <- _.
Qed.


Lemma append_rows_read h rows w w' sheet :
  append_rows h rows w = (Returned tt, w') ->
  read_ws h w = Some sheet -> read_ws h w' = Some (sheet ++ rows).
Proof.
  unfold append_rows. intros H Hread. destruct rows as [| r rows].
  - unfold ret in H. injection H as <-. by rewrite app_nil_r.
  - unfold ws_append_rows in H. rewrite Hread in H. injection H as <-.
    change (read_ws h (emit ?e ?w0)) with (read_ws h w0).
    by eapply read_write_ws.
Qed.

Lemma rows_loop_app isoparse owner repo pre post :
  forall rows0 w,
    rows_loop isoparse owner repo (pre ++ post) rows0 w
    = bind (rows_loop isoparse owner repo pre rows0)
        (fun rows => rows_loop isoparse owner repo post rows) w.
Proof.
  induction pre as [| pr pre IH]; intros rows0 w.
  - reflexivity.
  - rewrite <- app_comm_cons. simpl rows_loop. rewrite bind_assoc.
    apply bind_ext. intros rm w1. apply IH.
Qed.

Lemma bind_print {B} line (k : unit -> M B) w :
  bind (print line) k w = k tt (emit (Stdout line) w).
Proof. reflexivity. Qed.


(** The world after the two lines that [main] prints when it has fetched
    the pull requests. *)
Definition announced (c : config) (prs : list pull_request) (w : world) : world :=
  emit (Stdout ("Mode: " +:+ MODE c +:+ ", Track by: " +:+ TRACK_BY c))
    (emit (Stdout ("Fetched " +:+ len prs +:+ " PRs from "
                   +:+ GH_OWNER c +:+ "/" +:+ GH_REPO c)) w).

(** The run of [main] in rows mode up to its loop: from the world [w0]
    that [load_configuration] left, it has fetched the pull requests
    [prs], connected the worksheet and ensured its headers; the loop
    starts in [w3]. *)
Definition rows_loop_start (c : config) (w0 : world) (prs : list pull_request)
    (w3 : world) : Prop :=
  exists w1 w2,
    get_pull_requests (GH_OWNER c) (GH_REPO c) "all" w0 = (Returned prs, w1) /\
    connect_sheet (GOOGLE_SHEETS_ID c) (GOOGLE_SERVICE_ACCOUNT_FILE c) (SHEET_NAME c)
      (announced c prs w1)
    = (Returned (GOOGLE_SHEETS_ID c, SHEET_NAME c), w2) /\
    ensure_headers (GOOGLE_SHEETS_ID c, SHEET_NAME c) w2 = (Returned tt, w3).

(** What [main] still does in rows mode once its loop can start. *)
Lemma main_rows_mode isoparse w c w0 prs w3 :
  load_configuration w = (Returned c, w0) ->
  MODE c = "rows" ->
  rows_loop_start c w0 prs w3 ->
  main isoparse w
  = (let* rows := rows_loop isoparse (GH_OWNER c) (GH_REPO c) prs [] in
     let* _ := append_rows (GOOGLE_SHEETS_ID c, SHEET_NAME c) rows in
     print ("Appended " +:+ len rows +:+ " rows to Google Sheet '"
            +:+ SHEET_NAME c +:+ "'")) w3.
Proof.
  intros Hc Hmode (w1 & w2 & Hprs & Hconnect & Hheaders). unfold main.
  rewrite (bind_step _ _ _ _ _ Hc), (bind_step _ _ _ _ _ Hprs), !bind_print.
  rewrite Hmode. change (String.eqb "rows" "tracker") with false. cbv iota.
  unfold announced in Hconnect. rewrite Hmode in Hconnect.
  rewrite (bind_step _ _ _ _ _ Hconnect).
  by rewrite (bind_step _ _ _ _ _ Hheaders).
Qed.



Example rows_world_sheet :
  read_ws ("sheet-key", "Sheet1") (main demo_isoparse rows_world).2
  = Some [row_headers; row_of_pr_7].
Proof. vm_compute. reflexivity. Qed.

(** ** A tracker run *)

Definition tracker_mode_world : world :=
  demo_world (<["MODE" := "Tracker"]> demo_environ) [page three_prs None]
    (fun _ => [page two_requests None]) (fun _ => []) [("Sheet1", custom_sheet)].

Example tracker_mode_sheet :
  (script demo_isoparse tracker_mode_world).1 = Some 0 /\
  read_ws ("sheet-key", "Tracker") (script demo_isoparse tracker_mode_world).2
  = Some [[CStr "Account"; CStr "Count"];
          [CStr "Al"; CInt 2]; [CStr "al"; CInt 2]; [CStr "bob"; CInt 1]] /\
  read_ws ("sheet-key", "Sheet1") (script demo_isoparse tracker_mode_world).2
  = Some custom_sheet.
Proof. vm_compute. repeat split; reflexivity. Qed.

(** ** HTTP errors during a run *)

Lemma fetch_events_app owner repo pre post w :
  fetch_events owner repo (pre ++ post) w
  = bind (fetch_events owner repo pre)
      (fun f1 => bind (fetch_events owner repo post) (fun f2 => ret (f1 ++ f2))) w.
Proof.
  revert w. induction pre as [| pr pre IH]; intros w.
  - simpl. unfold bind, ret.
    by destruct (fetch_events owner repo post w) as [[f | r |] w1].
  - rewrite <- app_comm_cons. simpl fetch_events.
    rewrite bind_assoc. apply bind_ext. intros n w1.
    rewrite bind_assoc. apply bind_ext. intros events w2.
    rewrite bind_assoc. unfold bind at 1. rewrite IH. unfold bind, ret.
    destruct (fetch_events owner repo pre w2) as [[f1 | r |] w3]; try reflexivity.
    by destruct (fetch_events owner repo post w3) as [[f | r |] w4].
Qed.

Lemma logging_failure_returned {A} (m : M A) w a w' :
  logging_failure m w = (Returned a, w') -> m w = (Returned a, w').
Proof. unfold logging_failure. by destruct (m w) as [[? | [? | ?] |] ?]. Qed.

Lemma logging_failure_step {A} (m : M A) w a w' :
  m w = (Returned a, w') -> logging_failure m w = (Returned a, w').
Proof. unfold logging_failure. by intros ->. Qed.

Lemma logging_failure_exception {A} (m : M A) w e w' :
  m w = (Raised (Exception e), w') ->
  logging_failure m w
  = (Raised (Exception e),
     emit (Stdout ("Failed to connect to Google Sheets: " +:+ exception_str e)) w').
Proof. unfold logging_failure. by intros ->. Qed.

(** The run of [main] in tracker mode up to the computation of the
    counts: from the world [w0] that [load_configuration] left, it has
    fetched the pull requests [prs], connected the tracker worksheet and
    ensured its headers; [compute_tracker_counts] starts in [w3]. *)
Definition tracker_counts_start (c : config) (w0 : world) (prs : list pull_request)
    (w3 : world) : Prop :=
  exists w1 w2 w2',
    get_pull_requests (GH_OWNER c) (GH_REPO c) "all" w0 = (Returned prs, w1) /\
    connect_sheet (GOOGLE_SHEETS_ID c) (GOOGLE_SERVICE_ACCOUNT_FILE c)
      (TRACKER_SHEET_NAME c)
      (emit (Stdout ("Connecting to Google Sheets ID: "
                     +:+ Py.slice (GOOGLE_SHEETS_ID c) 0 10 +:+ "..."))
         (announced c prs w1))
    = (Returned (GOOGLE_SHEETS_ID c, TRACKER_SHEET_NAME c), w2) /\
    ensure_tracker_headers (GOOGLE_SHEETS_ID c, TRACKER_SHEET_NAME c)
      (emit (Stdout "Connected successfully") w2) = (Returned tt, w2') /\
    w3 = emit (Stdout "Computing tracker counts...") w2'.

(** What [main] still does in tracker mode once the counts can be
    computed. *)
Lemma main_tracker_mode isoparse w c w0 prs w3 :
  load_configuration w = (Returned c, w0) ->
  MODE c = "tracker" ->
  tracker_counts_start c w0 prs w3 ->
  main isoparse w
  = (let* counts :=
       compute_tracker_counts (GH_OWNER c) (GH_REPO c) prs (TRACK_BY c) in
     let* _ := print ("Found " +:+ len counts +:+ " accounts with review requests") in
     let* _ := ws_clear (GOOGLE_SHEETS_ID c, TRACKER_SHEET_NAME c) in
     let* _ := ensure_tracker_headers (GOOGLE_SHEETS_ID c, TRACKER_SHEET_NAME c) in
     let* _ := append_rows (GOOGLE_SHEETS_ID c, TRACKER_SHEET_NAME c)
                 (tracker_rows counts) in
     print ("Updated tracker sheet '" +:+ TRACKER_SHEET_NAME c +:+ "' with "
            +:+ len (tracker_rows counts) +:+ " accounts")) w3.
Proof.
  intros Hc Hmode (w1 & w2 & w2' & Hprs & Hconnect & Hheaders & ->). unfold main.
  rewrite (bind_step _ _ _ _ _ Hc), (bind_step _ _ _ _ _ Hprs), !bind_print.
  rewrite Hmode. change (String.eqb "tracker" "tracker") with true. cbv iota.
  rewrite bind_print. unfold announced in Hconnect. rewrite Hmode in Hconnect.
  erewrite (bind_step (logging_failure _)); cycle 1.
  { apply logging_failure_step. rewrite (bind_step _ _ _ _ _ Hconnect).
    rewrite bind_print. reflexivity. }
  rewrite (bind_step _ _ _ _ _ Hheaders). by rewrite bind_print.
Qed.

Lemma main_rows_loop_raises isoparse w c w0 prs w3 r w4 :
  load_configuration w = (Returned c, w0) ->
  MODE c = "rows" ->
  rows_loop_start c w0 prs w3 ->
  rows_loop isoparse (GH_OWNER c) (GH_REPO c) prs [] w3 = (Raised r, w4) ->
  main isoparse w = (Raised r, w4).
Proof.
  intros Hc Hmode Hstart Hloop. rewrite (main_rows_mode _ _ _ _ _ _ Hc Hmode Hstart).
  by apply bind_raised.
Qed.

Lemma main_tracker_counts_raise isoparse w c w0 prs w3 r w4 :
  load_configuration w = (Returned c, w0) ->
  MODE c = "tracker" ->
  tracker_counts_start c w0 prs w3 ->
  compute_tracker_counts (GH_OWNER c) (GH_REPO c) prs (TRACK_BY c) w3 = (Raised r, w4) ->
  main isoparse w = (Raised r, w4).
Proof.
  intros Hc Hmode Hstart Hcounts.
  rewrite (main_tracker_mode _ _ _ _ _ _ Hc Hmode Hstart). by apply bind_raised.
Qed.

Lemma bind_ret {A B} (a : A) (k : A -> M B) w : bind (ret a) k w = k a w.
Proof. reflexivity. Qed.

Lemma summarize_pr_events_raise isoparse owner repo pr n w r w1 :
  pr_number pr = Some n ->
  get_issue_events owner repo n w = (Raised r, w1) ->
  summarize_pr isoparse owner repo pr w = (Raised r, w1).
Proof.
  intros Hn Hevents. unfold summarize_pr. rewrite Hn. unfold int_of.
  rewrite bind_ret. by apply bind_raised.
Qed.

Lemma summarize_pr_commits_raise isoparse owner repo pr n w events w1 s md r w2 :
  pr_number pr = Some n ->
  get_issue_events owner repo n w = (Returned events, w1) ->
  marked_done_at_of (review_events_of events) = Some s ->
  Py.truthy s = true -> isoparse s = Some md ->
  get_pr_commits owner repo n w1 = (Raised r, w2) ->
  summarize_pr isoparse owner repo pr w = (Raised r, w2).
Proof.
  intros Hn Hevents Hs Ht Hmd Hcommits. unfold summarize_pr. rewrite Hn.
  unfold int_of. rewrite bind_ret, (bind_step _ _ _ _ _ Hevents).
  apply bind_raised. rewrite Hs. cbn [Py.truthy_opt]. rewrite Ht.
  unfold parse_iso8601. rewrite Ht, Hmd, !bind_ret. by apply bind_raised.
Qed.

Lemma rows_loop_raises isoparse owner repo before pr after w rows w1 r w2 :
  rows_loop isoparse owner repo before [] w = (Returned rows, w1) ->
  summarize_pr isoparse owner repo pr w1 = (Raised r, w2) ->
  rows_loop isoparse owner repo (before ++ pr :: after) [] w = (Raised r, w2).
Proof.
  intros Hbefore Hpr. rewrite rows_loop_app, (bind_step _ _ _ _ _ Hbefore).
  simpl rows_loop. by apply bind_raised.
Qed.

Lemma tracker_counts_raise owner repo before pr after track_by w fetched w1 n r w2 :
  fetch_events owner repo before w = (Returned fetched, w1) ->
  pr_number pr = Some n ->
  get_issue_events owner repo n w1 = (Raised r, w2) ->
  compute_tracker_counts owner repo (before ++ pr :: after) track_by w = (Raised r, w2).
Proof.
  intros Hbefore Hn Hevents. unfold compute_tracker_counts.
  rewrite tracker_loop_fetch. apply bind_raised.
  rewrite fetch_events_app, (bind_step _ _ _ _ _ Hbefore).
  apply bind_raised. simpl fetch_events. rewrite Hn. unfold int_of.
  rewrite bind_ret. by apply bind_raised.
Qed.

(** The URLs of the requests for the events and the commits of a pull
    request. *)
Definition events_url (owner repo : string) (n : Z) : string :=
  repo_url owner repo +:+ "/issues/" +:+ Py.str n +:+ "/events".

Definition commits_url (owner repo : string) (n : Z) : string :=
  repo_url owner repo +:+ "/pulls/" +:+ Py.str n +:+ "/commits".

Lemma get_pull_requests_http_error owner repo v pre (resp : response pull_request)
    rest q v1 :
  pulls_api v = pre ++ resp :: rest ->
  paginate pre (repo_url owner repo +:+ "/pulls") (Some pulls_params) v = (q, v1) ->
  ended q = Blocked -> rate_limited resp = false -> 400 <= status_code resp < 600 ->
  get_pull_requests owner repo "all" v
  = (Raised (Exception (HTTPError (status_code resp))), set_pulls_api rest v1).
Proof.
  intros Hapi Hq Hb Hrl Hst. unfold get_pull_requests. rewrite Hapi.
  unfold paginate, pulls_params in *. unfold query in *. cbv zeta.
  by rewrite (paginate_loop_error_after pre resp rest _ _ _ _ _ Hq Hb Hrl Hst).
Qed.

Lemma get_issue_events_http_error owner repo n v pre (resp : response issue_event)
    rest q v1 :
  events_api v n = pre ++ resp :: rest ->
  paginate pre (events_url owner repo n) None v = (q, v1) ->
  ended q = Blocked -> rate_limited resp = false -> 400 <= status_code resp < 600 ->
  get_issue_events owner repo n v
  = (Raised (Exception (HTTPError (status_code resp))), set_events_api n rest v1).
Proof.
  intros Hapi Hq Hb Hrl Hst. unfold get_issue_events. rewrite Hapi.
  unfold paginate, events_url in *. unfold query in *. cbv zeta.
  by rewrite (paginate_loop_error_after pre resp rest _ _ _ _ _ Hq Hb Hrl Hst).
Qed.

Lemma get_pr_commits_http_error owner repo n v pre (resp : response pr_commit)
    rest q v1 :
  commits_api v n = pre ++ resp :: rest ->
  paginate pre (commits_url owner repo n) None v = (q, v1) ->
  ended q = Blocked -> rate_limited resp = false -> 400 <= status_code resp < 600 ->
  get_pr_commits owner repo n v
  = (Raised (Exception (HTTPError (status_code resp))), set_commits_api n rest v1).
Proof.
  intros Hapi Hq Hb Hrl Hst. unfold get_pr_commits. rewrite Hapi.
  unfold paginate, commits_url in *. unfold query in *. cbv zeta.
  by rewrite (paginate_loop_error_after pre resp rest _ _ _ _ _ Hq Hb Hrl Hst).
Qed.

(** C7.  An answer with an HTTP error status (400..599) that is not the
    rate-limit case, arriving while [paginate] waits for a page, raises
    [HTTPError] out of the loop in the very world in which the loop
    waited: nothing more is requested and the later answers stay unread.
    [list(...)] passes the exception on.  Wherever this happens in a run
    of [main], the process reports the error on stderr and exits with
    code 1, with nothing requested or written after the answer: while
    the pull requests are fetched; in rows mode while the events or the
    commits of a pull request are fetched, after the rows of the earlier
    pull requests were built; and in tracker mode while the events of a
    pull request are fetched. *)
Theorem http_error_propagates {A} (pre : list (response A)) resp rest url params w p w' :
  paginate_loop pre url params w = (p, w') -> ended p = Blocked ->
  rate_limited resp = false -> 400 <= status_code resp < 600 ->
  paginate_loop (pre ++ resp :: rest) url params w
  = ({| yielded := yielded p;
        ended := Raised (Exception (HTTPError (status_code resp)));
        unread := rest |}, w')
  /\ list_of (paginate_loop (pre ++ resp :: rest) url params w).1
     = Raised (Exception (HTTPError (status_code resp)))
  /\ (forall isoparse v c v0 pre' (resp' : response pull_request) rest' q v1,
        load_configuration v = (Returned c, v0) ->
        pulls_api v0 = pre' ++ resp' :: rest' ->
        paginate pre' (repo_url (GH_OWNER c) (GH_REPO c) +:+ "/pulls")
          (Some pulls_params) v0 = (q, v1) ->
        ended q = Blocked ->
        rate_limited resp' = false -> 400 <= status_code resp' < 600 ->
        script isoparse v
        = (Some 1,
           emit (Stderr ("Error: " +:+ exception_str (HTTPError (status_code resp'))))
             (set_pulls_api rest' v1)))
  /\ (forall isoparse v c v0 before pr after v3 rows v4 n
             pre' (resp' : response issue_event) rest' q v5,
        load_configuration v = (Returned c, v0) -> MODE c = "rows" ->
        rows_loop_start c v0 (before ++ pr :: after) v3 ->
        rows_loop isoparse (GH_OWNER c) (GH_REPO c) before [] v3 = (Returned rows, v4) ->
        pr_number pr = Some n ->
        events_api v4 n = pre' ++ resp' :: rest' ->
        paginate pre' (events_url (GH_OWNER c) (GH_REPO c) n) None v4 = (q, v5) ->
        ended q = Blocked ->
        rate_limited resp' = false -> 400 <= status_code resp' < 600 ->
        script isoparse v
        = (Some 1,
           emit (Stderr ("Error: " +:+ exception_str (HTTPError (status_code resp'))))
             (set_events_api n rest' v5)))
  /\ (forall isoparse v c v0 before pr after v3 rows v4 n events v5 s md
             pre' (resp' : response pr_commit) rest' q v6,
        load_configuration v = (Returned c, v0) -> MODE c = "rows" ->
        rows_loop_start c v0 (before ++ pr :: after) v3 ->
        rows_loop isoparse (GH_OWNER c) (GH_REPO c) before [] v3 = (Returned rows, v4) ->
        pr_number pr = Some n ->
        get_issue_events (GH_OWNER c) (GH_REPO c) n v4 = (Returned events, v5) ->
        marked_done_at_of (review_events_of events) = Some s ->
        Py.truthy s = true -> isoparse s = Some md ->
        commits_api v5 n = pre' ++ resp' :: rest' ->
        paginate pre' (commits_url (GH_OWNER c) (GH_REPO c) n) None v5 = (q, v6) ->
        ended q = Blocked ->
        rate_limited resp' = false -> 400 <= status_code resp' < 600 ->
        script isoparse v
        = (Some 1,
           emit (Stderr ("Error: " +:+ exception_str (HTTPError (status_code resp'))))
             (set_commits_api n rest' v6)))
  /\ (forall isoparse v c v0 before pr after v3 fetched v4 n
             pre' (resp' : response issue_event) rest' q v5,
        load_configuration v = (Returned c, v0) -> MODE c = "tracker" ->
        tracker_counts_start c v0 (before ++ pr :: after) v3 ->
        fetch_events (GH_OWNER c) (GH_REPO c) before v3 = (Returned fetched, v4) ->
        pr_number pr = Some n ->
        events_api v4 n = pre' ++ resp' :: rest' ->
        paginate pre' (events_url (GH_OWNER c) (GH_REPO c) n) None v4 = (q, v5) ->
        ended q = Blocked ->
        rate_limited resp' = false -> 400 <= status_code resp' < 600 ->
        script isoparse v
        = (Some 1,
           emit (Stderr ("Error: " +:+ exception_str (HTTPError (status_code resp'))))
             (set_events_api n rest' v5))).
Proof.
  intros Hrun Hblocked Hrl Hstatus.
  pose proof (paginate_loop_error_after pre resp rest _ _ _ _ _ Hrun Hblocked Hrl Hstatus)
    as Herr.
  split; [exact Herr |]. split; [by rewrite Herr |]. split; [| split; [| split]].
  - intros isoparse v c v0 pre' resp' rest' q v1 Hc Hapi Hq Hqb Hrl' Hst'.
    apply script_exception. apply (main_fetch_raises _ _ c v0); [done |].
    by eapply get_pull_requests_http_error.
  - intros isoparse v c v0 before pr after v3 rows v4 n pre' resp' rest' q v5
      Hc Hmode Hstart Hbefore Hn Hapi Hq Hqb Hrl' Hst'.
    apply script_exception.
    eapply main_rows_loop_raises; [exact Hc | exact Hmode | exact Hstart |].
    eapply rows_loop_raises; [exact Hbefore |].
    eapply summarize_pr_events_raise; [exact Hn |].
    by eapply get_issue_events_http_error.
  - intros isoparse v c v0 before pr after v3 rows v4 n events v5 s md
      pre' resp' rest' q v6
      Hc Hmode Hstart Hbefore Hn Hevents Hs Ht Hmd Hapi Hq Hqb Hrl' Hst'.
    apply script_exception.
    eapply main_rows_loop_raises; [exact Hc | exact Hmode | exact Hstart |].
    eapply rows_loop_raises; [exact Hbefore |].
    eapply summarize_pr_commits_raise;
      [exact Hn | exact Hevents | exact Hs | exact Ht | exact Hmd |].
    by eapply get_pr_commits_http_error.
  - intros isoparse v c v0 before pr after v3 fetched v4 n pre' resp' rest' q v5
      Hc Hmode Hstart Hbefore Hn Hapi Hq Hqb Hrl' Hst'.
    apply script_exception.
    eapply main_tracker_counts_raise; [exact Hc | exact Hmode | exact Hstart |].
    eapply tracker_counts_raise; [exact Hbefore | exact Hn |].
    by eapply get_issue_events_http_error.
Qed.

(** An answer 502 Bad Gateway. *)
Definition bad_gateway {A} : response A :=
  {| status_code := 502; headers := []; body := BodyInvalid |}.

(** A rows run in which the request for the events of the only pull
    request is answered with 502. *)
Definition events_failing_world : world :=
  demo_world demo_environ [page [pr_by 7 "ann"] None]
    (fun _ => [bad_gateway]) (fun _ => []) [("Sheet1", [])].

(** The world in which the rows loop of that run starts. *)
Definition events_failing_start : world :=
  (ensure_headers ("sheet-key", "Sheet1")
     (connect_sheet "sheet-key" "service_account.json" "Sheet1"
        (announced (config_of events_failing_world) [pr_by 7 "ann"]
           (get_pull_requests "octo" "demo" "all" events_failing_world).2)).2).2.

Lemma http_error_propagates_witness :
  paginate_loop
    ([page [pr_by 1 "ann"] (Some "https://api.github.com/x?page=2")]
     ++ server_error :: [page [pr_by 2 "bob"] None])
    (Some "https://api.github.com/x") None quiet_world
  = ({| yielded := [pr_by 1 "ann"];
        ended := Raised (Exception (HTTPError 500));
        unread := [page [pr_by 2 "bob"] None] |},
     advance [HttpGet "https://api.github.com/x" None;
              HttpGet "https://api.github.com/x?page=2" None] 0 quiet_world)
  /\ script demo_isoparse events_failing_world
     = (Some 1,
        emit (Stderr ("Error: " +:+ exception_str (HTTPError 502)))
          (set_events_api 7 []
             (paginate (A := issue_event) [] (events_url "octo" "demo" 7) None
                events_failing_start).2)).
Proof.
  destruct (http_error_propagates
              [page [pr_by 1 "ann"] (Some "https://api.github.com/x?page=2")]
              server_error [page [pr_by 2 "bob"] None]
              (Some "https://api.github.com/x") None quiet_world
              {| yielded := [pr_by 1 "ann"]; ended := Blocked; unread := [] |}
              (advance [HttpGet "https://api.github.com/x" None;
                        HttpGet "https://api.github.com/x?page=2" None] 0 quiet_world))
    as (Hloop & _ & _ & Hevents & _).
  - reflexivity.
  - reflexivity.
  - reflexivity.
  - simpl. lia.
  - split; [exact Hloop |].
    apply (Hevents demo_isoparse events_failing_world (config_of events_failing_world)
             events_failing_world [] (pr_by 7 "ann") [] events_failing_start
             [] events_failing_start 7 [] bad_gateway []
             (paginate (A := issue_event) [] (events_url "octo" "demo" 7) None
                events_failing_start).1).
    + vm_compute. reflexivity.
    + vm_compute. reflexivity.
    + exists (get_pull_requests "octo" "demo" "all" events_failing_world).2,
        (connect_sheet "sheet-key" "service_account.json" "Sheet1"
           (announced (config_of events_failing_world) [pr_by 7 "ann"]
              (get_pull_requests "octo" "demo" "all" events_failing_world).2)).2.
      split; [vm_compute; reflexivity |]. split; vm_compute; reflexivity.
    + reflexivity.
    + reflexivity.
    + vm_compute. reflexivity.
    + vm_compute. reflexivity.
    + reflexivity.
    + reflexivity.
    + simpl. lia.
Defined.

Example events_failing_trace :
  trace (script demo_isoparse events_failing_world).2
  = [HttpGet "https://api.github.com/repos/octo/demo/pulls"
       (Some [("state", "all"); ("sort", "created"); ("direction", "desc");
              ("per_page", "100")]);
     Stdout "Fetched 1 PRs from octo/demo";
     Stdout "Mode: rows, Track by: creator";
     SheetsOpen "sheet-key";
     SheetsRowValues "sheet-key" "Sheet1" 1;
     SheetsAppend "sheet-key" "Sheet1" [row_headers];
     HttpGet "https://api.github.com/repos/octo/demo/issues/7/events"
       (Some [("per_page", "100")]);
     Stderr "Error: 502 Error"].
Proof. vm_compute. reflexivity. Qed.

(** * Further properties *)

(** ** paginate: requests and answers *)

Definition is_get (e : effect) : bool :=
  match e with HttpGet _ _ => true | _ => false end.

(** The number of requests in a trace. *)
Definition gets (es : list effect) : nat := length (List.filter is_get es).

Lemma gets_app es1 es2 : gets (es1 ++ es2) = (gets es1 + gets es2)%nat.
Proof. unfold gets. by rewrite List.filter_app, length_app. Qed.

(** One more request is pending exactly when the loop is blocked. *)
Definition pending {A} (p : paginated A) : nat :=
  match ended p with Blocked => 1%nat | _ => 0%nat end.

Lemma paginate_loop_accounting {A} (script : list (response A)) :
  forall url params w,
    exists consumed new,
      script = consumed ++ unread (paginate_loop script url params w).1 /\
      trace (paginate_loop script url params w).2 = trace w ++ new /\
      gets new = (length consumed + pending (paginate_loop script url params w).1)%nat /\
      (forall u, url = Some u -> Py.truthy u = true -> session_get_error w u = None ->
         exists later, new = HttpGet u params :: later).
Proof.
  induction script as [| resp rest IH]; intros url params w.
  - destruct url as [u |]; simpl; [destruct (Py.truthy u) eqn:Hu |].
    + destruct (session_get_error w u) eqn:Hget.
      * exists [], [].
        split; [done |]. split; [by rewrite app_nil_r |]. split; [done |].
        intros u' [= <-] _ ?. congruence.
      * exists [], [HttpGet u params].
        split; [done |]. split; [done |]. split; [done |].
        intros u' [= <-] _ _. by exists [].
    + exists [], [].
      split; [done |]. split; [by rewrite app_nil_r |]. split; [done |].
      intros u' [= <-] Hu'. congruence.
    + exists [], [].
      split; [done |]. split; [by rewrite app_nil_r |]. split; [done |]. done.
  - assert (Hraise : forall (r : raised) u (es : list effect) (w0 : world),
              trace w0 = trace w ++ HttpGet u params :: es -> gets es = 0%nat ->
              exists consumed new,
                resp :: rest = consumed ++ rest /\
                trace w0 = trace w ++ new /\
                gets new
                = (length consumed
                   + pending {| yielded := @nil A; ended := Raised r; unread := rest |})%nat /\
                (forall u', Some u = Some u' -> Py.truthy u' = true ->
                   session_get_error w u' = None ->
                   exists later, new = HttpGet u' params :: later)).
    { intros r u es w0 Hw0 Hes. exists [resp], (HttpGet u params :: es).
      split; [done |]. split; [done |].
      split; [change (HttpGet u params :: es) with ([HttpGet u params] ++ es);
              rewrite gets_app, Hes; done |].
      intros u' [= <-] _ _. by exists es. }
    destruct url as [u |]; simpl; [destruct (Py.truthy u) eqn:Hu |].
    + destruct (session_get_error w u) eqn:Hget.
      { exists [], [].
        split; [done |]. split; [by rewrite app_nil_r |]. split; [done |].
        intros u' [= <-] _ ?. congruence. }
      destruct (rate_limited resp).
      * destruct (Py.int _) as [retry_at |]; [| by apply (Hraise _ u [])].
        destruct (Py.str_fits _); [| by apply (Hraise _ u [])].
        destruct (sleep_error _ _ _).
        { apply (Hraise _ u [Stderr (rate_limit_message (Z.max 1 (retry_at - clock w)))]);
            [| reflexivity].
          simpl. by rewrite <- app_assoc. }
        match goal with |- context [paginate_loop rest (Some u) params ?w0] =>
          destruct (IH (Some u) params w0) as (consumed & new & Hc & Ht & Hg & _)
        end.
        exists (resp :: consumed),
          (retry_cycle u params (Z.max 1 (retry_at - clock w)) ++ new).
        split; [by rewrite <- app_comm_cons, <- Hc |].
        split; [rewrite Ht; simpl; by rewrite <- !app_assoc |].
        split; [rewrite gets_app, Hg; simpl; lia |].
        intros u' [= <-] _ _. eexists. reflexivity.
      * destruct (raise_for_status resp); [by apply (Hraise _ u []) |].
        destruct (body resp) as [items | items | | |]; try by apply (Hraise _ u []).
        -- match goal with |- context [paginate_loop rest ?n None ?w0] =>
             destruct (IH n None w0) as (consumed & new & Hc & Ht & Hg & _);
             destruct (paginate_loop rest n None w0) as [p w'] eqn:Hrun
           end.
           simpl in *. exists (resp :: consumed), (HttpGet u params :: new).
           split; [by rewrite <- app_comm_cons, <- Hc |].
           split; [rewrite Ht; simpl; by rewrite <- app_assoc |].
           split; [change (HttpGet u params :: new) with ([HttpGet u params] ++ new);
                   rewrite gets_app, Hg; unfold pending; simpl; lia |].
           intros u' [= <-] _ _. by eexists.
        -- match goal with |- context [paginate_loop rest ?n None ?w0] =>
             destruct (IH n None w0) as (consumed & new & Hc & Ht & Hg & _);
             destruct (paginate_loop rest n None w0) as [p w'] eqn:Hrun
           end.
           simpl in *. exists (resp :: consumed), (HttpGet u params :: new).
           split; [by rewrite <- app_comm_cons, <- Hc |].
           split; [rewrite Ht; simpl; by rewrite <- app_assoc |].
           split; [change (HttpGet u params :: new) with ([HttpGet u params] ++ new);
                   rewrite gets_app, Hg; unfold pending; simpl; lia |].
           intros u' [= <-] _ _. by eexists.
    + exists [], [].
      split; [done |]. split; [by rewrite app_nil_r |]. split; [done |].
      intros u' [= <-] ?. congruence.
    + exists [], [].
      split; [done |]. split; [by rewrite app_nil_r |]. split; [done |]. done.
Qed.

(** X1.  Every answer that [paginate] reads answers one request of its own:
    the answers split into those read and those left unread, the trace
    only grows, and the requests sent are as many as the answers read,
    plus the one that is still waiting when the loop is blocked. *)
Theorem one_request_per_answer {A} (script : list (response A)) url params w :
  exists consumed new,
    script = consumed ++ unread (paginate script url params w).1 /\
    trace (paginate script url params w).2 = trace w ++ new /\
    gets new = (length consumed + pending (paginate script url params w).1)%nat.
Proof.
  unfold paginate.
  destruct (paginate_loop_accounting script (Some url)
              (Some (setdefault "per_page" "100" (default [] params))) w)
    as (consumed & new & H1 & H2 & H3 & _).
  by exists consumed, new.
Qed.

(** [params.get(k)] on a query. *)
Definition query_get (k : string) (q : query) : option string :=
  snd <$> List.find (fun kv => String.eqb kv.1 k) q.

Lemma query_get_setdefault k v q :
  query_get k (setdefault k v q) = Some (default v (query_get k q)).
Proof.
  unfold setdefault, query_get.
  destruct (existsb (fun kv => String.eqb kv.1 k) q) eqn:Hq.
  - induction q as [| [k0 v0] q IH]; simpl in *; [done |].
    destruct (String.eqb k0 k); [done | by apply IH].
  - induction q as [| [k0 v0] q IH]; simpl in *.
    + by rewrite String.eqb_refl.
    + destruct (String.eqb k0 k); [done | by apply IH].
Qed.

Lemma query_get_setdefault_other k k' v q :
  k' <> k -> query_get k' (setdefault k v q) = query_get k' q.
Proof.
  intros Hne. unfold setdefault, query_get.
  destruct (existsb _ q); [done |].
  induction q as [| [k0 v0] q IH]; simpl.
  - apply String.eqb_neq in Hne. rewrite String.eqb_sym in Hne. by rewrite Hne.
  - destruct (String.eqb k0 k'); [done | exact IH].
Qed.

(** X2.  The first request of [paginate] carries the caller's parameters; it
    carries [per_page=100] only when the caller gave no [per_page].  The
    only start URL for which no such request is sent is one that the HTTP
    client refuses: [paginate] then raises the client's exception at
    once. *)
Theorem first_request_params {A} (script : list (response A)) url params w :
  Py.truthy url = true ->
  match session_get_error w url with
  | Some e =>
      paginate script url params w
      = ({| yielded := []; ended := Raised (Exception e); unread := script |}, w)
  | None =>
      exists sent later,
        trace (paginate script url params w).2
        = trace w ++ HttpGet url (Some sent) :: later /\
        query_get "per_page" sent
        = Some (default "100" (query_get "per_page" (default [] params))) /\
        forall k, k <> "per_page" -> query_get k sent = query_get k (default [] params)
  end.
Proof.
  intros Hu. destruct (session_get_error w url) as [e |] eqn:Hget.
  { unfold paginate. by apply paginate_loop_refused. }
  unfold paginate.
  destruct (paginate_loop_accounting script (Some url)
              (Some (setdefault "per_page" "100" (default [] params))) w)
    as (consumed & new & _ & Ht & _ & Hfirst).
  destruct (Hfirst url eq_refl Hu Hget) as (later & ->).
  exists (setdefault "per_page" "100" (default [] params)), later.
  split; [exact Ht |]. split; [apply query_get_setdefault |].
  intros k Hk. by apply query_get_setdefault_other.
Qed.

Lemma first_request_params_witness :
  exists sent later,
    trace (paginate two_pages "https://api.github.com/x"
             (Some [("per_page", "30"); ("state", "open")]) quiet_world).2
    = trace quiet_world ++ HttpGet "https://api.github.com/x" (Some sent) :: later /\
    query_get "per_page" sent
    = Some (default "100" (query_get "per_page"
                             (default [] (Some [("per_page", "30"); ("state", "open")])))) /\
    forall k, k <> "per_page" ->
      query_get k sent
      = query_get k (default [] (Some [("per_page", "30"); ("state", "open")])).
Proof.
  exact (first_request_params two_pages "https://api.github.com/x"
           (Some [("per_page", "30"); ("state", "open")]) quiet_world eq_refl).
Defined.

(** ** paginate: answers that cannot be used *)

Lemma paginate_loop_bad_reset {A} (resp : response A) rest u params w :
  Py.truthy u = true -> session_get_error w u = None ->
  rate_limited resp = true -> reset_of resp = None ->
  paginate_loop (resp :: rest) (Some u) params w
  = ({| yielded := [];
        ended := Raised (Exception (ValueError "invalid literal for int()"));
        unread := rest |}, emit (HttpGet u params) w).
Proof.
  intros Hu Hget Hrl Hreset. unfold reset_of in Hreset. simpl.
  by rewrite Hu, Hget, Hrl, Hreset.
Qed.

(** X3.  A rate-limit answer whose reset header is not an integer, arriving
    while [paginate] waits, raises [ValueError] in the world in which the
    loop waited: there is no sleep and no retry. *)
Theorem bad_reset_header_raises {A} (pre : list (response A)) resp rest url params w p w' :
  paginate_loop pre url params w = (p, w') -> ended p = Blocked ->
  rate_limited resp = true -> reset_of resp = None ->
  paginate_loop (pre ++ resp :: rest) url params w
  = ({| yielded := yielded p;
        ended := Raised (Exception (ValueError "invalid literal for int()"));
        unread := rest |}, w').
Proof.
  intros Hrun Hblocked Hrl Hreset.
  destruct (paginate_loop_blocked_app pre _ _ _ _ _ Hrun Hblocked)
    as (u & params' & w0 & Hu & Hget & -> & Hmore).
  rewrite Hmore, paginate_loop_bad_reset by done.
  unfold yield_first. simpl. by rewrite app_nil_r.
Qed.

Definition soon_response : response pull_request :=
  {| status_code := 403;
     headers := [("x-ratelimit-remaining", "0"); ("X-RateLimit-Reset", "soon")];
     body := BodyInvalid |}.

Lemma bad_reset_header_raises_witness :
  paginate_loop ([page [pr_by 1 "ann"] (Some "https://api.github.com/x?page=2")]
                 ++ soon_response :: [page [pr_by 2 "bob"] None])
    (Some "https://api.github.com/x") None quiet_world
  = ({| yielded := [pr_by 1 "ann"];
        ended := Raised (Exception (ValueError "invalid literal for int()"));
        unread := [page [pr_by 2 "bob"] None] |},
     advance [HttpGet "https://api.github.com/x" None;
              HttpGet "https://api.github.com/x?page=2" None] 0 quiet_world).
Proof.
  apply (bad_reset_header_raises
           [page [pr_by 1 "ann"] (Some "https://api.github.com/x?page=2")]
           soon_response [page [pr_by 2 "bob"] None]
           (Some "https://api.github.com/x") None quiet_world
           {| yielded := [pr_by 1 "ann"]; ended := Blocked; unread := [] |});
    reflexivity.
Defined.

Lemma paginate_loop_long_wait {A} (resp : response A) rest u params w retry_at :
  Py.truthy u = true -> session_get_error w u = None ->
  rate_limited resp = true -> reset_of resp = Some retry_at ->
  max_sleep < retry_at - clock w -> Py.str_fits (retry_at - clock w) = true ->
  paginate_loop (resp :: rest) (Some u) params w
  = ({| yielded := [];
        ended := Raised (Exception
                   (OverflowError "timestamp too large to convert to C _PyTime_t"));
        unread := rest |},
     emit (Stderr (rate_limit_message (retry_at - clock w))) (emit (HttpGet u params) w)).
Proof.
  intros Hu Hget Hrl Hreset Hlong Hfits. unfold reset_of in Hreset. simpl.
  rewrite Hu, Hget, Hrl, Hreset.
  assert (Hmax : max_sleep = 9223372036) by reflexivity.
  replace (Z.max 1 (retry_at - clock w)) with (retry_at - clock w) by lia.
  rewrite Hfits. unfold sleep_error.
  destruct (max_sleep <? retry_at - clock w) eqn:E; [done | lia].
Qed.

(** X21.  A rate-limit answer that asks to wait longer than [time.sleep]
    can (more than 9223372036 seconds), arriving while [paginate] waits,
    does not lead to a retry: the message about the sleep is printed,
    and [time.sleep] raises [OverflowError] out of the loop; the later
    answers stay unread. *)
Theorem long_wait_raises {A} (pre : list (response A)) resp rest url params w p w'
    retry_at :
  paginate_loop pre url params w = (p, w') -> ended p = Blocked ->
  rate_limited resp = true -> reset_of resp = Some retry_at ->
  max_sleep < retry_at - clock w' -> Py.str_fits (retry_at - clock w') = true ->
  paginate_loop (pre ++ resp :: rest) url params w
  = ({| yielded := yielded p;
        ended := Raised (Exception
                   (OverflowError "timestamp too large to convert to C _PyTime_t"));
        unread := rest |},
     emit (Stderr (rate_limit_message (retry_at - clock w'))) w').
Proof.
  intros Hrun Hblocked Hrl Hreset Hlong Hfits.
  destruct (paginate_loop_blocked_app pre _ _ _ _ _ Hrun Hblocked)
    as (u & params' & w0 & Hu & Hget & -> & Hmore).
  rewrite Hmore, (paginate_loop_long_wait _ _ _ _ _ retry_at) by done.
  unfold yield_first. simpl. by rewrite app_nil_r.
Qed.

(** A 403 answer without remaining quota that asks to retry at second
    100000000000. *)
Definition far_response : response pull_request :=
  {| status_code := 403;
     headers := [("X-RateLimit-Remaining", "0"); ("X-RateLimit-Reset", "100000000000")];
     body := BodyInvalid |}.

Lemma long_wait_raises_witness :
  paginate_loop ([page [pr_by 1 "ann"] (Some "https://api.github.com/x?page=2")]
                 ++ far_response :: [page [pr_by 2 "bob"] None])
    (Some "https://api.github.com/x") None quiet_world
  = ({| yielded := [pr_by 1 "ann"];
        ended := Raised (Exception
                   (OverflowError "timestamp too large to convert to C _PyTime_t"));
        unread := [page [pr_by 2 "bob"] None] |},
     emit (Stderr (rate_limit_message (100000000000 - 1000)))
       (advance [HttpGet "https://api.github.com/x" None;
                 HttpGet "https://api.github.com/x?page=2" None] 0 quiet_world)).
Proof.
  apply (long_wait_raises
           [page [pr_by 1 "ann"] (Some "https://api.github.com/x?page=2")]
           far_response [page [pr_by 2 "bob"] None]
           (Some "https://api.github.com/x") None quiet_world
           {| yielded := [pr_by 1 "ann"]; ended := Blocked; unread := [] |}
           (advance [HttpGet "https://api.github.com/x" None;
                     HttpGet "https://api.github.com/x?page=2" None] 0 quiet_world)
           100000000000).
  - reflexivity.
  - reflexivity.
  - reflexivity.
  - reflexivity.
  - reflexivity.
  - vm_compute. reflexivity.
Defined.

(** The exception that an unusable body raises: [resp.json()] fails on a
    body that is not JSON, [data.get] on JSON that is no list and no
    object, and the [for] loop on ['items'] that cannot be iterated. *)
Definition body_error {A} (resp : response A) : option exception :=
  match body resp with
  | BodyList _ => None
  | BodyObject _ => None
  | BodyBadItems => Some (TypeError "object is not iterable")
  | BodyScalar => Some (AttributeError "no attribute 'get'")
  | BodyInvalid => Some (ValueError "response is not JSON")
  end.

Lemma paginate_loop_bad_body {A} (resp : response A) rest u params w e :
  Py.truthy u = true -> session_get_error w u = None ->
  rate_limited resp = false ->
  raise_for_status resp = None -> body_error resp = Some e ->
  paginate_loop (resp :: rest) (Some u) params w
  = ({| yielded := []; ended := Raised (Exception e); unread := rest |},
     emit (HttpGet u params) w).
Proof.
  intros Hu Hget Hrl Hstatus Hbody. unfold body_error in Hbody. simpl.
  rewrite Hu, Hget, Hrl, Hstatus.
  destruct (body resp); try done; by injection Hbody as <-.
Qed.

(** X4.  A successful answer whose body is not a JSON list or object, or is
    an object whose ['items'] cannot be iterated, arriving while
    [paginate] waits, raises out of the loop without a further request,
    and [list(...)] then gives none of the items of the earlier pages. *)
Theorem unusable_body_raises {A} (pre : list (response A)) resp rest url params w p w' e :
  paginate_loop pre url params w = (p, w') -> ended p = Blocked ->
  rate_limited resp = false -> raise_for_status resp = None ->
  body_error resp = Some e ->
  paginate_loop (pre ++ resp :: rest) url params w
  = ({| yielded := yielded p; ended := Raised (Exception e); unread := rest |}, w')
  /\ list_of (paginate_loop (pre ++ resp :: rest) url params w).1
     = Raised (Exception e).
Proof.
  intros Hrun Hblocked Hrl Hstatus Hbody.
  destruct (paginate_loop_blocked_app pre _ _ _ _ _ Hrun Hblocked)
    as (u & params' & w0 & Hu & Hget & -> & Hmore).
  rewrite Hmore, (paginate_loop_bad_body _ _ _ _ _ e) by done.
  unfold yield_first. simpl. by rewrite app_nil_r.
Qed.

Definition null_page : response pull_request :=
  {| status_code := 200; headers := []; body := BodyScalar |}.

Lemma unusable_body_raises_witness :
  paginate_loop ([page [pr_by 1 "ann"] (Some "https://api.github.com/x?page=2")]
                 ++ null_page :: [])
    (Some "https://api.github.com/x") None quiet_world
  = ({| yielded := [pr_by 1 "ann"];
        ended := Raised (Exception (AttributeError "no attribute 'get'"));
        unread := [] |},
     advance [HttpGet "https://api.github.com/x" None;
              HttpGet "https://api.github.com/x?page=2" None] 0 quiet_world)
  /\ list_of (paginate_loop
                ([page [pr_by 1 "ann"] (Some "https://api.github.com/x?page=2")]
                 ++ null_page :: [])
                (Some "https://api.github.com/x") None quiet_world).1
     = Raised (Exception (AttributeError "no attribute 'get'")).
Proof.
  apply (unusable_body_raises
           [page [pr_by 1 "ann"] (Some "https://api.github.com/x?page=2")]
           null_page [] (Some "https://api.github.com/x") None quiet_world
           {| yielded := [pr_by 1 "ann"]; ended := Blocked; unread := [] |});
    reflexivity.
Defined.

(** ** paginate: a next URL that the HTTP client refuses *)

(** X22.  A page whose Link header gives a next URL that the HTTP client
    refuses (always so when neither [http://] nor [https://] occurs in
    it, as in a relative reference) ends the pagination with the
    client's exception: the items of the page have been yielded, no
    request is sent for the refused URL, the later answers stay unread,
    and [list(...)] gives none of the items. *)
Theorem refused_next_url_raises {A} (pre : list (response A)) resp rest url params
    w p w' u e :
  paginate_loop pre url params w = (p, w') -> ended p = Blocked ->
  is_page resp = true -> next_of resp = Some u -> Py.truthy u = true ->
  session_get_error w' u = Some e ->
  paginate_loop (pre ++ resp :: rest) url params w
  = ({| yielded := yielded p ++ items_of resp; ended := Raised (Exception e);
        unread := rest |}, w')
  /\ list_of (paginate_loop (pre ++ resp :: rest) url params w).1
     = Raised (Exception e)
  /\ (has_http_scheme u = false ->
      e = RequestException "Invalid URL: no http or https scheme").
Proof.
  intros Hrun Hblocked Hpage Hnext Hu Hrefused.
  destruct (paginate_loop_blocked_app pre _ _ _ _ _ Hrun Hblocked)
    as (u0 & params' & w0 & Hu0 & Hget & -> & Hmore).
  assert (Hgoal : paginate_loop (pre ++ resp :: rest) url params w
                  = ({| yielded := yielded p ++ items_of resp;
                        ended := Raised (Exception e); unread := rest |},
                     emit (HttpGet u0 params') w0)).
  { rewrite Hmore, paginate_loop_page by done. rewrite Hnext.
    rewrite (paginate_loop_refused _ _ _ _ e) by done.
    unfold yield_first. simpl. by rewrite app_nil_r. }
  split; [exact Hgoal |]. split; [by rewrite Hgoal |].
  intros Hscheme. unfold session_get_error in Hrefused.
  rewrite Hscheme in Hrefused. by injection Hrefused as <-.
Qed.

Lemma refused_next_url_raises_witness :
  paginate_loop ([page [pr_by 1 "ann"] (Some "https://api.github.com/x?page=2")]
                 ++ page [pr_by 2 "bob"] (Some "/x?page=3") :: [page [pr_by 3 "cy"] None])
    (Some "https://api.github.com/x") None quiet_world
  = ({| yielded := [pr_by 1 "ann"] ++ items_of (page [pr_by 2 "bob"] (Some "/x?page=3"));
        ended := Raised (Exception
                   (RequestException "Invalid URL: no http or https scheme"));
        unread := [page [pr_by 3 "cy"] None] |},
     advance [HttpGet "https://api.github.com/x" None;
              HttpGet "https://api.github.com/x?page=2" None] 0 quiet_world).
Proof.
  apply (refused_next_url_raises
           [page [pr_by 1 "ann"] (Some "https://api.github.com/x?page=2")]
           (page [pr_by 2 "bob"] (Some "/x?page=3")) [page [pr_by 3 "cy"] None]
           (Some "https://api.github.com/x") None quiet_world
           {| yielded := [pr_by 1 "ann"]; ended := Blocked; unread := [] |}
           (advance [HttpGet "https://api.github.com/x" None;
                     HttpGet "https://api.github.com/x?page=2" None] 0 quiet_world)
           "/x?page=3");
    reflexivity.
Defined.

(** ** The Link header *)

Lemma append_cons a s t : String a s +:+ t = String a (s +:+ t).
Proof. reflexivity. Qed.

Lemma append_nil_l t : EmptyString +:+ t = t.
Proof. reflexivity. Qed.

Lemma append_assoc s t u : (s +:+ t) +:+ u = s +:+ (t +:+ u).
Proof. induction s as [| a s IH]; [done |]. by rewrite !append_cons, IH. Qed.

Lemma length_append s t :
  String.length (s +:+ t) = (String.length s + String.length t)%nat.
Proof. induction s as [| a s IH]; [done |]. rewrite append_cons. simpl. by rewrite IH. Qed.

Lemma prefix_refl_append sub t : String.prefix sub (sub +:+ t) = true.
Proof.
  induction sub as [| a sub IH]; [by destruct t |].
  rewrite append_cons. simpl. by destruct (ascii_dec a a).
Qed.

Lemma prefix_append sub p t :
  String.prefix sub p = true -> String.prefix sub (p +:+ t) = true.
Proof.
  revert p. induction sub as [| a sub IH]; intros p H; [by destruct (p +:+ t) |].
  destruct p as [| b p]; [done |]. rewrite append_cons. simpl in *.
  destruct (ascii_dec a b); [by apply IH | done].
Qed.

Lemma prefix_empty sub : String.prefix sub EmptyString = true -> sub = EmptyString.
Proof. by destruct sub. Qed.

Lemma contains_empty s : Py.contains EmptyString s = true.
Proof. by destruct s. Qed.

Lemma contains_unfold sub a s :
  Py.contains sub (String a s)
  = String.prefix sub (String a s) || Py.contains sub s.
Proof. reflexivity. Qed.

Lemma contains_nil sub :
  Py.contains sub EmptyString = String.prefix sub EmptyString || false.
Proof. reflexivity. Qed.

Lemma contains_cons sub a s :
  Py.contains sub s = true -> Py.contains sub (String a s) = true.
Proof. intros H. rewrite contains_unfold, H. apply orb_true_r. Qed.

Lemma contains_append_r sub p t :
  Py.contains sub p = true -> Py.contains sub (p +:+ t) = true.
Proof.
  induction p as [| a p IH]; intros H.
  - rewrite contains_nil, orb_false_r in H. apply prefix_empty in H. subst sub.
    apply contains_empty.
  - rewrite append_cons. rewrite contains_unfold in H. apply orb_true_iff in H.
    destruct H as [H | H].
    + apply (prefix_append _ _ t) in H. rewrite append_cons in H.
      by rewrite contains_unfold, H.
    + apply contains_cons. by apply IH.
Qed.

Lemma contains_append_l sub p t :
  Py.contains sub t = true -> Py.contains sub (p +:+ t) = true.
Proof.
  intros H. induction p as [| a p IH]; [done |].
  rewrite append_cons. by apply contains_cons.
Qed.

Lemma contains_lstrip sub s :
  Py.contains sub (Py.lstrip s) = true -> Py.contains sub s = true.
Proof.
  induction s as [| a s IH]; [done |]. simpl Py.lstrip.
  destruct (Py.is_space a); [| done].
  intros H. apply contains_cons. by apply IH.
Qed.

Lemma rstrip_prefix s : exists t, s = Py.rstrip s +:+ t.
Proof.
  induction s as [| a s [t IH]]; [by exists EmptyString |].
  simpl. destruct (Py.rstrip s) as [| b r] eqn:Hr.
  - destruct (Py.is_space a).
    + by exists (String a s).
    + exists s. reflexivity.
  - exists t. rewrite append_cons. by rewrite <- IH.
Qed.

Lemma contains_rstrip sub s :
  Py.contains sub (Py.rstrip s) = true -> Py.contains sub s = true.
Proof.
  intros H. destruct (rstrip_prefix s) as [t Ht]. rewrite Ht.
  by apply contains_append_r.
Qed.

Lemma contains_strip sub s :
  Py.contains sub (Py.strip s) = true -> Py.contains sub s = true.
Proof. intros H. by apply contains_lstrip, contains_rstrip. Qed.

Lemma split_head_prefix c s : exists x xs t, Py.split c s = x :: xs /\ s = x +:+ t.
Proof.
  induction s as [| a s (x & xs & t & Hs & Ht)]; [by exists EmptyString, [], EmptyString |].
  simpl. destruct (Ascii.eqb a c).
  - by exists EmptyString, (Py.split c s), (String a s).
  - rewrite Hs. exists (String a x), xs, t. split; [done |].
    rewrite append_cons. by rewrite <- Ht.
Qed.

Lemma contains_split sub c s p :
  p ∈ Py.split c s -> Py.contains sub p = true -> Py.contains sub s = true.
Proof.
  revert p. induction s as [| a s IH]; intros p Hp Hsub.
  - simpl in Hp. apply list_elem_of_singleton in Hp. by subst p.
  - simpl in Hp. destruct (Ascii.eqb a c).
    + apply elem_of_cons in Hp. destruct Hp as [-> | Hp].
      * rewrite contains_nil, orb_false_r in Hsub. apply prefix_empty in Hsub.
        subst sub. apply contains_empty.
      * apply contains_cons. by eapply IH.
    + destruct (split_head_prefix c s) as (x & xs & t & Hs & Ht).
      rewrite Hs in Hp, IH. apply elem_of_cons in Hp. destruct Hp as [-> | Hp].
      * rewrite contains_unfold in Hsub. apply orb_true_iff in Hsub.
        destruct Hsub as [H | H].
        -- apply (prefix_append _ _ t) in H. rewrite append_cons, <- Ht in H.
           by rewrite contains_unfold, H.
        -- apply contains_cons. apply (IH x); [apply elem_of_cons; by left | done].
      * apply contains_cons. apply (IH p); [apply elem_of_cons; by right | done].
Qed.

(** X5.  A Link header without the text [rel="next"] gives no next URL: the
    pagination ends with that page. *)
Theorem no_rel_next_no_link link :
  Py.contains rel_next link = false -> next_link link = None.
Proof.
  intros Hno. unfold next_link. destruct (Py.truthy link); [| done].
  destruct (List.find _ _) as [part |] eqn:Hfind; [| done].
  apply List.find_some in Hfind. destruct Hfind as [Hin Hpart].
  apply list_elem_of_In, list_elem_of_fmap in Hin.
  destruct Hin as (raw & -> & Hraw).
  apply contains_strip in Hpart.
  apply (contains_split _ _ _ _ Hraw) in Hpart. congruence.
Qed.

Lemma no_rel_next_no_link_witness :
  next_link "<https://api.github.com/x?page=1>; rel=prev, <https://api.github.com/x?page=1>; rel=first"
  = None.
Proof. apply no_rel_next_no_link. reflexivity. Defined.

(** The part of a Link header that points to the next page. *)
Definition next_part (url : string) : string := "<" +:+ url +:+ ">; " +:+ rel_next.

Lemma index_of_append_first c s t :
  Py.index_of c s = None ->
  Py.index_of c (s +:+ String c t) = Some (String.length s).
Proof.
  induction s as [| a s IH]; intros H.
  - rewrite append_nil_l. simpl. by rewrite Ascii.eqb_refl.
  - rewrite append_cons. simpl in *. destruct (Ascii.eqb a c); [done |].
    destruct (Py.index_of c s); [done |]. by rewrite IH.
Qed.

Lemma split_append_sep c p rest :
  Py.index_of c p = None ->
  Py.split c (p +:+ String c rest) = p :: Py.split c rest.
Proof.
  induction p as [| a p IH]; intros H.
  - rewrite append_nil_l. simpl. by rewrite Ascii.eqb_refl.
  - rewrite append_cons. simpl in *. destruct (Ascii.eqb a c); [done |].
    destruct (Py.index_of c p); [done |]. by rewrite IH.
Qed.

Lemma split_no_sep c p : Py.index_of c p = None -> Py.split c p = [p].
Proof.
  induction p as [| a p IH]; intros H; [done |].
  simpl in *. destruct (Ascii.eqb a c); [done |].
  destruct (Py.index_of c p); [done |]. by rewrite IH.
Qed.

Lemma split_join parts :
  Forall (fun p => Py.index_of ","%char p = None) parts ->
  Py.split ","%char (Py.join ", " parts)
  = match parts with
    | [] => [EmptyString]
    | p :: ps => p :: map (String " "%char) ps
    end.
Proof.
  induction 1 as [| p ps Hp Hps IH]; [done |].
  destruct ps as [| q ps].
  - by apply split_no_sep.
  - change (Py.join ", " (p :: q :: ps))
      with (p +:+ String ","%char (String " "%char (Py.join ", " (q :: ps)))).
    rewrite split_append_sep by done.
    change (Py.split ","%char (String " "%char (Py.join ", " (q :: ps))))
      with (match Py.split ","%char (Py.join ", " (q :: ps)) with
            | x :: xs => String " "%char x :: xs
            | [] => [String " "%char EmptyString]
            end).
    by rewrite IH.
Qed.

Lemma strip_space s : Py.strip (String " "%char s) = Py.strip s.
Proof. reflexivity. Qed.

Lemma map_strip_split_join parts :
  parts <> [] ->
  Forall (fun p => Py.index_of ","%char p = None) parts ->
  map Py.strip (Py.split ","%char (Py.join ", " parts)) = map Py.strip parts.
Proof.
  intros Hne Hparts. rewrite split_join by done.
  destruct parts as [| p ps]; [done |]. simpl. f_equal.
  rewrite map_map. apply map_ext. intros s. apply strip_space.
Qed.

Lemma rstrip_end s c :
  Py.is_space c = false ->
  Py.rstrip (s +:+ String c EmptyString) = s +:+ String c EmptyString.
Proof.
  intros Hc. induction s as [| a s IH].
  - rewrite append_nil_l. simpl. by rewrite Hc.
  - rewrite append_cons. simpl. rewrite IH. by destruct s.
Qed.

Lemma next_part_shape url :
  next_part url
  = String "<"%char
      ((url +:+ String ">"%char ("; rel=" +:+ String Py.dquote "next"))
       +:+ String Py.dquote EmptyString).
Proof.
  unfold next_part, rel_next. rewrite append_cons, append_nil_l. f_equal.
  rewrite append_assoc. f_equal.
Qed.

Lemma strip_next_part url : Py.strip (next_part url) = next_part url.
Proof.
  rewrite next_part_shape. unfold Py.strip.
  change (Py.lstrip (String "<"%char ?s)) with (String "<"%char s).
  rewrite <- append_cons. by apply rstrip_end.
Qed.

Lemma contains_next_part url : Py.contains rel_next (next_part url) = true.
Proof.
  unfold next_part.
  replace ("<" +:+ url +:+ ">; " +:+ rel_next)
    with (("<" +:+ url +:+ ">; ") +:+ rel_next)
    by (by rewrite !append_assoc).
  by apply contains_append_l.
Qed.

Lemma substring_append s t : String.substring 0 (String.length s) (s +:+ t) = s.
Proof.
  induction s as [| a s IH]; [by destruct t |].
  rewrite append_cons. simpl. by rewrite IH.
Qed.

Lemma cut_next_part url :
  Py.index_of ">"%char url = None ->
  Py.slice (next_part url)
    (Py.find "<"%char (next_part url) 0 + 1)
    (Py.find ">"%char (next_part url) (Py.find "<"%char (next_part url) 0 + 1))
  = url.
Proof.
  intros Hurl. rewrite next_part_shape.
  set (tail := "; rel=" +:+ String Py.dquote "next").
  rewrite append_assoc, append_cons.
  set (rest := tail +:+ String Py.dquote EmptyString).
  assert (Hstart : Py.find "<"%char (String "<"%char (url +:+ String ">"%char rest)) 0 = 0).
  { unfold Py.find. destruct (Z.ltb_spec (Z.of_nat (String.length
      (String "<"%char (url +:+ String ">"%char rest)))) 0); [lia | done]. }
  rewrite Hstart. change (0 + 1) with 1.
  assert (Hend : Py.find ">"%char (String "<"%char (url +:+ String ">"%char rest)) 1
                 = 1 + Z.of_nat (String.length url)).
  { unfold Py.find. simpl String.length.
    destruct (Z.ltb_spec (Z.of_nat (S (String.length (url +:+ String ">"%char rest)))) 1);
      [lia |].
    change (Py.drop_chars (Z.to_nat 1) (String "<"%char ?s)) with s.
    by rewrite index_of_append_first. }
  rewrite Hend. unfold Py.slice, Py.clamp. simpl String.length.
  rewrite length_append. simpl String.length.
  destruct (Z.ltb_spec 1 0); [lia |].
  destruct (Z.ltb_spec (1 + Z.of_nat (String.length url)) 0); [lia |].
  match goal with |- String.substring ?a ?b _ = _ =>
    replace a with 1%nat by lia; replace b with (String.length url) by lia
  end.
  change (String.substring 1 ?m (String "<"%char ?s)) with (String.substring 0 m s).
  apply substring_append.
Qed.

Lemma find_skip {A} (f : A -> bool) before x after :
  Forall (fun y => f y = false) before -> f x = true ->
  List.find f (before ++ x :: after) = Some x.
Proof.
  intros Hb Hx. induction Hb as [| y before Hy _ IH]; simpl; [by rewrite Hx |].
  by rewrite Hy.
Qed.

Lemma join_truthy parts p :
  p ∈ parts -> Py.truthy p = true -> Py.truthy (Py.join ", " parts) = true.
Proof.
  destruct parts as [| x [| y parts]]; intros Hp Ht.
  - by apply elem_of_nil in Hp.
  - apply list_elem_of_singleton in Hp. by subst x.
  - change (Py.join ", " (x :: y :: parts))
      with (x +:+ String ","%char (String " "%char (Py.join ", " (y :: parts)))).
    by destruct x.
Qed.

(** X6.  A Link header made of comma-separated parts, one of which is
    [<url>; rel="next"] after parts without [rel="next"], gives back
    exactly [url], provided no part contains a comma and [url] contains
    no [>]. *)
Theorem next_link_of_parts before url after :
  Forall (fun p => Py.index_of ","%char p = None) (before ++ next_part url :: after) ->
  Forall (fun p => Py.contains rel_next p = false) before ->
  Py.index_of ">"%char url = None ->
  next_link (Py.join ", " (before ++ next_part url :: after)) = Some url.
Proof.
  intros Hcomma Hbefore Hurl. unfold next_link.
  rewrite (join_truthy _ (next_part url)).
  - rewrite map_strip_split_join by (done || by destruct before).
    rewrite map_app. simpl map.
    rewrite (find_skip _ _ (Py.strip (next_part url))).
    + rewrite strip_next_part. f_equal. by apply cut_next_part.
    + apply Forall_fmap. eapply Forall_impl; [exact Hbefore |].
      intros p Hp. simpl.
      destruct (Py.contains rel_next (Py.strip p)) eqn:E; [| done].
      apply contains_strip in E. congruence.
    + rewrite strip_next_part. apply contains_next_part.
  - apply elem_of_app. right. apply elem_of_cons. by left.
  - by rewrite next_part_shape.
Qed.

Lemma next_link_of_parts_witness :
  next_link (Py.join ", "
    (["<https://api.github.com/x?page=1>; rel=prev"]
     ++ next_part "https://api.github.com/x?page=3"
     :: ["<https://api.github.com/x?page=9>; rel=last"]))
  = Some "https://api.github.com/x?page=3".
Proof.
  apply (next_link_of_parts ["<https://api.github.com/x?page=1>; rel=prev"]
           "https://api.github.com/x?page=3"
           ["<https://api.github.com/x?page=9>; rel=last"]).
  - repeat constructor.
  - repeat constructor.
  - reflexivity.
Defined.

(** ** More on the tracker counts *)

(** The sum of all counts. *)
Definition total_count (counts : dict) : Z := fold_right (fun kv acc => kv.2 + acc) 0 counts.

Lemma total_dict_set a v counts :
  total_count (dict_set a v counts) = total_count counts - dict_get a 0 counts + v.
Proof.
  induction counts as [| [k0 v0] rest IH]; simpl; [lia |].
  destruct (String.eqb k0 a); simpl; [lia | rewrite IH; lia].
Qed.

Lemma total_count_step track_by counts pe :
  total_count (count_step track_by counts pe)
  = total_count counts + (if bool_decide (is_Some (counted_for track_by pe)) then 1 else 0).
Proof.
  unfold count_step, counted_for.
  destruct (review_events_of pe.2) as [| first_event ?];
    [rewrite bool_decide_eq_false_2 by (by intros [? ?]); lia |].
  destruct (tracked_account track_by pe.1 first_event) as [a |];
    [| rewrite bool_decide_eq_false_2 by (by intros [? ?]); lia].
  destruct (Py.truthy a); [| rewrite bool_decide_eq_false_2 by (by intros [? ?]); lia].
  rewrite total_dict_set, bool_decide_eq_true_2 by done. lia.
Qed.

Lemma total_fold_count track_by fetched counts :
  total_count (fold_left (count_step track_by) fetched counts)
  = total_count counts
    + Z.of_nat (length (List.filter
        (fun pe => bool_decide (is_Some (counted_for track_by pe))) fetched)).
Proof.
  revert counts. induction fetched as [| pe rest IH]; intros counts; simpl; [lia |].
  rewrite IH, total_count_step.
  destruct (bool_decide (is_Some (counted_for track_by pe))); simpl length; lia.
Qed.

(** X7.  The counts that [compute_tracker_counts] returns add up to the number
    of fetched pull requests that count for some account; this is at most
    the number of pull requests. *)
Theorem tracker_counts_total owner repo prs track_by w counts w' :
  compute_tracker_counts owner repo prs track_by w = (Returned counts, w') ->
  exists fetched,
    fetch_events owner repo prs w = (Returned fetched, w') /\
    total_count counts
    = Z.of_nat (length (List.filter
        (fun pe => bool_decide (is_Some (counted_for track_by pe))) fetched)) /\
    total_count counts <= Z.of_nat (length prs).
Proof.
  intros H. apply compute_tracker_counts_returned in H.
  destruct H as (fetched & Hf & ->). exists fetched. split; [exact Hf |].
  rewrite total_fold_count. simpl total_count. split; [lia |].
  rewrite <- (fetch_events_prs _ _ _ _ _ _ Hf), length_map.
  pose proof (List.filter_length_le
    (fun pe => bool_decide (is_Some (counted_for track_by pe))) fetched). lia.
Qed.

Lemma tracker_counts_total_witness :
  exists fetched,
    fetch_events "octo" "demo" three_prs tracker_world
    = (Returned fetched,
       (compute_tracker_counts "octo" "demo" three_prs "creator" tracker_world).2) /\
    total_count [("bob", 1); ("Al", 2); ("al", 2)]
    = Z.of_nat (length (List.filter
        (fun pe => bool_decide (is_Some (counted_for "creator" pe))) fetched)) /\
    total_count [("bob", 1); ("Al", 2); ("al", 2)] <= Z.of_nat (length three_prs).
Proof.
  apply (tracker_counts_total "octo" "demo" three_prs "creator" tracker_world).
  vm_compute. reflexivity.
Defined.

(** ** The sort of the tracker rows is stable *)

Lemma key_lt_irrefl k : key_lt k k = false.
Proof.
  unfold key_lt. rewrite Z.ltb_irrefl, Z.eqb_refl. simpl.
  unfold String.ltb.
  pose proof (String.compare_antisym k.2 k.2) as H.
  destruct (String.compare k.2 k.2); done.
Qed.

Lemma insert_sorted_filter k x l :
  List.filter (fun kv => bool_decide (sort_key kv = k)) (insert_sorted x l)
  = List.filter (fun kv => bool_decide (sort_key kv = k)) (x :: l).
Proof.
  induction l as [| y l IH]; [done |].
  cbn [insert_sorted]. destruct (key_lt (sort_key y) (sort_key x)) eqn:E; [| done].
  cbn [List.filter] in *. rewrite IH.
  destruct (bool_decide (sort_key x = k)) eqn:Hx; [| done].
  destruct (bool_decide (sort_key y = k)) eqn:Hy; [| done].
  apply bool_decide_eq_true in Hx, Hy. rewrite Hx, Hy, key_lt_irrefl in E. done.
Qed.

(** X8.  Entries with the same sort key (the same count and the same
    lowercased name) leave the sort in the order in which they entered
    it: the order in which their accounts were first counted. *)
Theorem sorted_stable items k :
  List.filter (fun kv => bool_decide (sort_key kv = k)) (sorted items)
  = List.filter (fun kv => bool_decide (sort_key kv = k)) items.
Proof.
  induction items as [| x rest IH]; [done |].
  cbn [sorted]. rewrite insert_sorted_filter. cbn [List.filter]. by rewrite IH.
Qed.

(** ** A pull request without a number *)

(** X9.  A pull request without number makes [compute_tracker_counts] raise
    [TypeError] as soon as the loop reaches it, in the world that the
    fetches for the earlier pull requests left: nothing is requested for
    it or for the later ones, and the counts so far are lost. *)
Theorem tracker_missing_number owner repo pre pr post track_by w fetched w1 :
  fetch_events owner repo pre w = (Returned fetched, w1) ->
  pr_number pr = None ->
  compute_tracker_counts owner repo (pre ++ pr :: post) track_by w
  = (Raised (Exception (TypeError "int() argument must not be 'NoneType'")), w1).
Proof.
  intros Hpre Hnum. unfold compute_tracker_counts.
  rewrite tracker_loop_fetch. apply bind_raised.
  rewrite fetch_events_app, (bind_step _ _ _ _ _ Hpre).
  apply bind_raised. simpl. apply bind_raised. by rewrite Hnum.
Qed.

Definition draft_pr : pull_request :=
  {| pr_number := None; pr_title := Some "Draft";
     pr_user := Some {| login := Some "eve" |}; pr_created_at := None;
     pr_html_url := None; pr_merged_at := None; pr_merged_by := None;
     pr_closed_at := None; pr_state := Some "open" |}.

Lemma tracker_missing_number_witness :
  compute_tracker_counts "octo" "demo" ([pr_by 7 "ann"] ++ draft_pr :: [pr_by 8 "bob"])
    "creator" tracker_world
  = (Raised (Exception (TypeError "int() argument must not be 'NoneType'")),
     (fetch_events "octo" "demo" [pr_by 7 "ann"] tracker_world).2).
Proof.
  apply (tracker_missing_number "octo" "demo" [pr_by 7 "ann"] draft_pr [pr_by 8 "bob"]
           "creator" tracker_world [(pr_by 7 "ann", two_requests)]).
  - vm_compute. reflexivity.
  - reflexivity.
Defined.

(** ** More on the rows *)

(** X10.  A pull request without number makes the rows loop raise [TypeError]
    when it reaches it, in the world that the earlier pull requests left:
    nothing is requested for it, and no row is written for any pull
    request since the rows are appended only after the loop. *)
Theorem rows_missing_number isoparse owner repo pre pr post w rows w1 :
  rows_loop isoparse owner repo pre [] w = (Returned rows, w1) ->
  pr_number pr = None ->
  rows_loop isoparse owner repo (pre ++ pr :: post) [] w
  = (Raised (Exception (TypeError "int() argument must not be 'NoneType'")), w1)
  /\ spreadsheets w1 = spreadsheets w.
Proof.
  intros Hpre Hnum. split.
  - rewrite rows_loop_app, (bind_step _ _ _ _ _ Hpre).
    simpl rows_loop. apply bind_raised. unfold summarize_pr.
    apply bind_raised. by rewrite Hnum.
  - apply rows_loop_returns in Hpre. destruct Hpre as (new & _ & Hrun).
    by eapply rows_run_spreadsheets.
Qed.

Lemma rows_missing_number_witness :
  rows_loop demo_isoparse "octo" "demo" ([pr_by 7 "ann"] ++ draft_pr :: [pr_by 8 "bob"])
    [] rows_world
  = (Raised (Exception (TypeError "int() argument must not be 'NoneType'")),
     (rows_loop demo_isoparse "octo" "demo" [pr_by 7 "ann"] [] rows_world).2)
  /\ spreadsheets (rows_loop demo_isoparse "octo" "demo" [pr_by 7 "ann"] [] rows_world).2
     = spreadsheets rows_world.
Proof.
  apply (rows_missing_number demo_isoparse "octo" "demo" [pr_by 7 "ann"] draft_pr
           [pr_by 8 "bob"] rows_world [row_of_pr_7]).
  - vm_compute. reflexivity.
  - reflexivity.
Defined.

(** X11.  For a pull request whose events hold no review request,
    [summarize_pr] does not ask for the commits: the world it leaves is
    the one after the events were fetched, and the row has no marked-done
    timestamp, no reviewers and 0 updates. *)
Theorem no_review_request_row isoparse owner repo pr w row meta w' n events w1 :
  summarize_pr isoparse owner repo pr w = (Returned (row, meta), w') ->
  pr_number pr = Some n ->
  get_issue_events owner repo n w = (Returned events, w1) ->
  review_events_of events = [] ->
  w' = w1 /\
  row !! 4%nat = Some CNone /\ row !! 5%nat = Some CNone /\
  row !! 6%nat = Some (CInt 0).
Proof.
  intros H Hn Hevents Hnone. apply summarize_pr_returns in H.
  destruct H as (n' & events' & w1' & commits & Hn' & Hevents' & Hcommits & ->).
  rewrite Hn in Hn'. injection Hn' as <-.
  rewrite Hevents in Hevents'. injection Hevents' as <- <-.
  unfold row_of. rewrite Hnone in *. simpl in Hcommits.
  destruct Hcommits as [_ ->]. done.
Qed.

Definition unreviewed_world : world :=
  demo_world demo_environ [page [pr_by 7 "ann"] None]
    (fun _ => [page [labeled] None])
    (fun _ => [page [commit_at "2024-01-06T10:00:00Z"] None])
    [("Sheet1", [])].

Lemma no_review_request_row_witness :
  (summarize_pr demo_isoparse "octo" "demo" (pr_by 7 "ann") unreviewed_world).2
  = (get_issue_events "octo" "demo" 7 unreviewed_world).2 /\
  [CInt 7; CStr "Add feature"; CStr "ann"; CStr "2024-01-01T00:00:00Z"; CNone; CNone;
   CInt 0; CNone; CNone; CStr "https://github.com/octo/demo/pull/7"] !! 4%nat
  = Some CNone /\
  [CInt 7; CStr "Add feature"; CStr "ann"; CStr "2024-01-01T00:00:00Z"; CNone; CNone;
   CInt 0; CNone; CNone; CStr "https://github.com/octo/demo/pull/7"] !! 5%nat
  = Some CNone /\
  [CInt 7; CStr "Add feature"; CStr "ann"; CStr "2024-01-01T00:00:00Z"; CNone; CNone;
   CInt 0; CNone; CNone; CStr "https://github.com/octo/demo/pull/7"] !! 6%nat
  = Some (CInt 0).
Proof.
  apply (no_review_request_row demo_isoparse "octo" "demo" (pr_by 7 "ann")
           unreviewed_world _ ("7", "https://github.com/octo/demo/pull/7") _ 7 [labeled]).
  - vm_compute. reflexivity.
  - reflexivity.
  - vm_compute. reflexivity.
  - reflexivity.
Defined.

Lemma updates_after_bounds isoparse marked commits :
  0 <= updates_after isoparse marked commits <= Z.of_nat (length commits).
Proof.
  unfold updates_after. destruct marked as [s |]; [| lia].
  destruct (Py.truthy s); [| lia]. destruct (isoparse s) as [md |]; [| lia].
  pose proof (List.filter_length_le (later_than isoparse md) commits). lia.
Qed.

(** X12.  Every row that [summarize_pr] returns has as many cells as the header
    row, and its Updates cell is a number between 0 and the number of
    commits that were fetched for the pull request. *)
Theorem row_shape isoparse owner repo pr w row meta w' :
  summarize_pr isoparse owner repo pr w = (Returned (row, meta), w') ->
  length row = length row_headers /\
  exists n events w1 commits updates,
    pr_number pr = Some n /\
    get_issue_events owner repo n w = (Returned events, w1) /\
    (if Py.truthy_opt (marked_done_at_of (review_events_of events))
     then get_pr_commits owner repo n w1 = (Returned commits, w')
     else commits = [] /\ w' = w1) /\
    row !! 6%nat = Some (CInt updates) /\
    0 <= updates <= Z.of_nat (length commits).
Proof.
  intros H. apply summarize_pr_returns in H.
  destruct H as (n & events & w1 & commits & Hn & Hevents & Hcommits & ->).
  split; [reflexivity |].
  exists n, events, w1, commits,
    (updates_after isoparse (marked_done_at_of (review_events_of events)) commits).
  split; [done |]. split; [done |]. split; [done |]. split; [reflexivity |].
  apply updates_after_bounds.
Qed.

Lemma row_shape_witness :
  length row_of_pr_7 = length row_headers /\
  exists n events w1 commits updates,
    pr_number (pr_by 7 "ann") = Some n /\
    get_issue_events "octo" "demo" n rows_world = (Returned events, w1) /\
    (if Py.truthy_opt (marked_done_at_of (review_events_of events))
     then get_pr_commits "octo" "demo" n w1
          = (Returned commits,
             (summarize_pr demo_isoparse "octo" "demo" (pr_by 7 "ann") rows_world).2)
     else commits = [] /\
          (summarize_pr demo_isoparse "octo" "demo" (pr_by 7 "ann") rows_world).2 = w1) /\
    row_of_pr_7 !! 6%nat = Some (CInt updates) /\
    0 <= updates <= Z.of_nat (length commits).
Proof.
  apply (row_shape demo_isoparse "octo" "demo" (pr_by 7 "ann") rows_world row_of_pr_7
           ("7", "https://github.com/octo/demo/pull/7")).
  vm_compute. reflexivity.
Defined.

(** X13.  A row names a finalizer only for a merged pull request: the name is
    then the non-empty login of [merged_by], and the finalized-at cell is
    the merge time.  Without merge time there is no finalizer, and the
    finalized-at cell is the closing time of a closed pull request. *)
Theorem finalizer_needs_merge pr :
  (forall s, finalized_by_of pr = Some s ->
     Py.truthy s = true /\ Py.truthy_opt (pr_merged_at pr) = true /\
     login_of (pr_merged_by pr) = Some s /\
     finalized_at_of pr = pr_merged_at pr) /\
  (Py.truthy_opt (pr_merged_at pr) = false ->
     finalized_by_of pr = None /\
     finalized_at_of pr
     = if bool_decide (pr_state pr = Some "closed") then pr_closed_at pr else None).
Proof.
  unfold finalized_by_of, finalized_at_of, Py.or_else. split.
  - intros s. destruct (Py.truthy_opt (pr_merged_at pr)) eqn:Hm; simpl.
    + destruct (login_of (pr_merged_by pr)) as [l |] eqn:Hl; simpl; [| done].
      destruct (Py.truthy l) eqn:Ht; simpl; [| done].
      intros [= <-]. done.
    + done.
  - intros ->. done.
Qed.

(** X14.  The names in the Reviewers cell are exactly the non-empty logins of
    the requested reviewers of the review-requested events, and the
    non-empty team slugs, with the prefix [team:], of those
    review-requested events that have no requested reviewer. *)
Theorem reviewers_membership events x :
  x ∈ reviewers_unique_of (review_events_of events) <->
  exists e,
    e ∈ events /\ ev_event e = Some "review_requested" /\
    ((exists r, ev_requested_reviewer e = Some r /\ login r = Some x /\
                Py.truthy x = true)
     \/ (ev_requested_reviewer e = None /\
         exists t s, ev_requested_team e = Some t /\ slug t = Some s /\
                     Py.truthy s = true /\ x = "team:" +:+ s)).
Proof.
  rewrite reviewers_unique_names, unique_from_elem.
  unfold requested_names, review_events_of. rewrite list_elem_of_omap.
  split.
  - intros [(e & He & Hname) _]. exists e.
    apply list_elem_of_In, List.filter_In in He. destruct He as [He Hrr].
    apply list_elem_of_In in He. apply bool_decide_eq_true in Hrr.
    split; [done |]. split; [done |].
    unfold requested_name in Hname.
    destruct (ev_requested_reviewer e) as [r |].
    + left. exists r. destruct (login r) as [l |]; [| done].
      destruct (Py.truthy l) eqn:Hl; [| done]. injection Hname as <-. done.
    + right. split; [done |].
      destruct (ev_requested_team e) as [t |]; [| done].
      destruct (slug t) as [s |] eqn:Hs; [| done].
      destruct (Py.truthy s) eqn:Ht; [| done]. injection Hname as <-.
      by exists t, s.
  - intros (e & He & Hrr & Hcase). split; [| apply not_elem_of_empty].
    exists e. split.
    + apply list_elem_of_In, List.filter_In. split; [by apply list_elem_of_In |].
      by apply bool_decide_eq_true.
    + unfold requested_name.
      destruct Hcase as [(r & -> & -> & ->) | (-> & t & s & -> & -> & -> & ->)]; done.
Qed.

Definition merged_pr : pull_request :=
  {| pr_number := Some 9; pr_title := Some "Fix bug";
     pr_user := Some {| login := Some "ann" |};
     pr_created_at := Some "2024-02-01T00:00:00Z";
     pr_html_url := Some "https://github.com/octo/demo/pull/9";
     pr_merged_at := Some "2024-02-03T00:00:00Z";
     pr_merged_by := Some {| login := Some "bob" |};
     pr_closed_at := Some "2024-02-03T00:00:00Z";
     pr_state := Some "closed" |}.

Lemma finalizer_needs_merge_witness :
  Py.truthy "bob" = true /\ Py.truthy_opt (pr_merged_at merged_pr) = true /\
  login_of (pr_merged_by merged_pr) = Some "bob" /\
  finalized_at_of merged_pr = pr_merged_at merged_pr.
Proof.
  apply (proj1 (finalizer_needs_merge merged_pr) "bob"). reflexivity.
Defined.

(** ** connect_sheet *)

Lemma sheet_get_app title sh title' ws :
  sheet_get title (sh ++ [(title', ws)])
  = match sheet_get title sh with
    | Some s => Some s
    | None => if String.eqb title' title then Some ws else None
    end.
Proof.
  induction sh as [| [t s] sh IH]; simpl; [done |].
  destruct (String.eqb t title); [done | exact IH].
Qed.

Lemma connect_sheet_returns key file title w h w' :
  connect_sheet key file title w = (Returned h, w') ->
  h = (key, title) /\
  read_ws h w' = Some (default [] (read_ws h w)) /\
  (is_Some (read_ws h w) -> spreadsheets w' = spreadsheets w) /\
  (forall h', h' <> h -> read_ws h' w' = read_ws h' w).
Proof.
  intros H. pose proof (connect_sheet_handle _ _ _ _ _ _ H) as ->.
  unfold connect_sheet in H.
  bind_as H raw w1 Hraw. unfold getenv in Hraw. injection Hraw as _ <-.
  bind_as H u w2 Hcreds.
  assert (w2 = w) as ->.
  { destruct (Py.truthy _); [destruct (sa_info_ok w _) | destruct (sa_file_ok w file)];
      by injection Hcreds as _ <-. }
  bind_as H u' w3 Hopen. unfold perform in Hopen. injection Hopen as _ <-.
  change (spreadsheets (emit (SheetsOpen key) w)) with (spreadsheets w) in H.
  split; [done |]. unfold read_ws. simpl.
  destruct (spreadsheets w !! key) as [sh |] eqn:Hkey; [| done].
  destruct (sheet_get title sh) as [sheet |] eqn:Hsheet.
  - injection H as <-. simpl. rewrite Hkey, Hsheet.
    split; [done |]. split; [done |]. done.
  - injection H as <-. simpl. rewrite lookup_insert_eq, sheet_get_app, Hsheet.
    rewrite String.eqb_refl. split; [done |]. split; [by intros [? ?] |].
    intros [key' title'] Hne. simpl.
    destruct (decide (key' = key)) as [-> | Hk].
    + rewrite lookup_insert_eq, Hkey, sheet_get_app.
      destruct (sheet_get title' sh); [done |].
      destruct (String.eqb title title') eqn:E; [| done].
      apply String.eqb_eq in E. congruence.
    + by rewrite lookup_insert_ne.
Qed.

(** X15.  When [connect_sheet] returns, the handle names the requested
    worksheet; a worksheet that existed keeps its rows and nothing at all
    changes in the spreadsheets; a worksheet that did not exist now
    exists and is empty; every other worksheet is as before. *)
Theorem connect_sheet_worksheet key file title w h w' :
  connect_sheet key file title w = (Returned h, w') ->
  h = (key, title) /\
  read_ws h w' = Some (default [] (read_ws h w)) /\
  (is_Some (read_ws h w) -> spreadsheets w' = spreadsheets w) /\
  (forall h', h' <> h -> read_ws h' w' = read_ws h' w).
Proof. apply connect_sheet_returns. Qed.

Lemma connect_sheet_worksheet_witness :
  ("sheet-key", "Tracker") = ("sheet-key", "Tracker") /\
  read_ws ("sheet-key", "Tracker")
    (connect_sheet "sheet-key" "sa.json" "Tracker" tracker_mode_world).2
  = Some (default [] (read_ws ("sheet-key", "Tracker") tracker_mode_world)) /\
  (is_Some (read_ws ("sheet-key", "Tracker") tracker_mode_world) ->
   spreadsheets (connect_sheet "sheet-key" "sa.json" "Tracker" tracker_mode_world).2
   = spreadsheets tracker_mode_world) /\
  (forall h', h' <> ("sheet-key", "Tracker") ->
     read_ws h' (connect_sheet "sheet-key" "sa.json" "Tracker" tracker_mode_world).2
     = read_ws h' tracker_mode_world).
Proof.
  apply (connect_sheet_worksheet "sheet-key" "sa.json" "Tracker" tracker_mode_world).
  vm_compute. reflexivity.
Defined.

(** The service account JSON of the environment, stripped. *)
Definition account_json (w : world) : string :=
  Py.strip (resolved w "GOOGLE_SERVICE_ACCOUNT_JSON" "").

(** X16.  [connect_sheet] checks the credentials before it asks the Sheets API
    for anything.  A non-empty [GOOGLE_SERVICE_ACCOUNT_JSON] decides
    alone: when it is not valid, [connect_sheet] raises [SystemExit]
    whatever the service account file is.  Without it, a service account
    file that cannot be loaded raises an [Exception].  In both cases the
    world is unchanged. *)
Theorem connect_sheet_bad_credentials key file title w :
  (Py.truthy (account_json w) = true -> sa_info_ok w (account_json w) = false ->
   connect_sheet key file title w
   = (Raised (SystemExit "Invalid GOOGLE_SERVICE_ACCOUNT_JSON: bad credentials"), w)) /\
  (Py.truthy (account_json w) = false -> sa_file_ok w file = false ->
   connect_sheet key file title w
   = (Raised (Exception (OSError "service account file cannot be loaded")), w)).
Proof.
  unfold account_json, resolved.
  split; intros Hjson Hbad; unfold connect_sheet, bind, getenv; by rewrite Hjson, Hbad.
Qed.

Definition bad_json_world : world :=
  {| environ := <["GOOGLE_SERVICE_ACCOUNT_JSON" := " {not json "]> demo_environ;
     files := fun _ => FileNotFound; gh := GhAbsent; clock := 1000;
     pulls_api := []; events_api := fun _ => []; commits_api := fun _ => [];
     sa_info_ok := fun _ => false; sa_file_ok := fun _ => true;
     url_refused := fun _ => None; sleep_refused := fun _ _ => None;
     spreadsheets := {[ "sheet-key" := [("Sheet1", [])] ]}; trace := [] |}.

Lemma connect_sheet_bad_credentials_witness :
  connect_sheet "sheet-key" "service_account.json" "Sheet1" bad_json_world
  = (Raised (SystemExit "Invalid GOOGLE_SERVICE_ACCOUNT_JSON: bad credentials"),
     bad_json_world).
Proof.
  apply (proj1 (connect_sheet_bad_credentials "sheet-key" "service_account.json"
                  "Sheet1" bad_json_world)); reflexivity.
Defined.

(** ** The tracker mode *)

Definition tracker_headers : row := [CStr "Account"; CStr "Count"].

Lemma ws_clear_returns h w w' :
  ws_clear h w = (Returned tt, w') -> read_ws h w' = Some [].
Proof.
  unfold ws_clear. destruct (read_ws h w) as [sheet |] eqn:Hread; [| done].
  intros [= <-]. change (read_ws h (emit ?e ?w0)) with (read_ws h w0).
  by eapply read_write_ws.
Qed.

Lemma ensure_tracker_headers_empty h w w' :
  ensure_tracker_headers h w = (Returned tt, w') ->
  read_ws h w = Some [] -> read_ws h w' = Some [tracker_headers].
Proof.
  unfold ensure_tracker_headers, bind, row_values. intros H Hread.
  rewrite Hread in H. simpl in H.
  unfold ws_append_row, ws_append_rows in H.
  change (read_ws h (emit ?e w)) with (read_ws h w) in H. rewrite Hread in H.
  injection H as <-. change (read_ws h (emit ?e ?w0)) with (read_ws h w0).
  by eapply (read_write_ws h _ (emit _ w)).
Qed.

Lemma fetch_events_spreadsheets owner repo prs :
  forall w fetched w',
    fetch_events owner repo prs w = (Returned fetched, w') ->
    spreadsheets w' = spreadsheets w.
Proof.
  induction prs as [| pr prs IH]; intros w fetched w' H; simpl in H.
  - by injection H as _ <-.
  - bind_as H n w0 Hn. apply int_of_returned in Hn. destruct Hn as [_ ->].
    bind_as H events w1 Hevents. bind_as H rest w2 Hrest.
    injection H as _ <-. rewrite (IH _ _ _ Hrest).
    pose proof (get_issue_events_spreadsheets owner repo n w) as Hs.
    by rewrite Hevents in Hs.
Qed.

(** X17.  When [main] returns in tracker mode, it has fetched the pull
    requests, connected the tracker worksheet and ensured its headers,
    and has then computed the counts; the tracker worksheet holds the
    header row followed by the tracker rows of these counts, and nothing
    else: whatever the worksheet held before the run is gone. *)
Theorem tracker_mode_rewrites isoparse w c w0 w' :
  load_configuration w = (Returned c, w0) ->
  MODE c = "tracker" ->
  main isoparse w = (Returned tt, w') ->
  exists prs w3 counts w4,
    tracker_counts_start c w0 prs w3 /\
    compute_tracker_counts (GH_OWNER c) (GH_REPO c) prs (TRACK_BY c) w3
    = (Returned counts, w4) /\
    read_ws (GOOGLE_SHEETS_ID c, TRACKER_SHEET_NAME c) w'
    = Some (tracker_headers :: tracker_rows counts).
Proof.
  intros Hload Hmode H. unfold main in H.
  bind_as H c' wc Hc. rewrite Hload in Hc. injection Hc as <- <-.
  bind_as H prs w1 Hprs.
  rewrite !bind_print in H.
  rewrite Hmode in H. change (String.eqb "tracker" "tracker") with true in H.
  cbv iota in H. rewrite bind_print in H.
  bind_as H h wc1 Hconnect. apply logging_failure_returned in Hconnect.
  bind_as Hconnect h' w2 Hconn. rewrite bind_print in Hconnect.
  injection Hconnect as -> <-.
  pose proof (connect_sheet_handle _ _ _ _ _ _ Hconn) as ->.
  bind_as H u5 wh Hheaders. destruct u5. rewrite bind_print in H.
  bind_as H counts w4 Hcounts. rewrite bind_print in H.
  bind_as H u8 wcl Hclear. destruct u8.
  bind_as H u9 wh2 Hheaders2. destruct u9.
  bind_as H u10 wa Happend. destruct u10.
  unfold print, perform in H. injection H as <-.
  exists prs, (emit (Stdout "Computing tracker counts...") wh), counts, w4.
  split.
  { exists w1, w2, wh. split; [done |].
    split; [unfold announced; by rewrite Hmode |]. done. }
  split; [done |].
  change (read_ws ?h (emit ?e ?w0)) with (read_ws h w0).
  apply ws_clear_returns in Hclear.
  pose proof (ensure_tracker_headers_empty _ _ _ Hheaders2 Hclear) as Hh.
  exact (append_rows_read _ _ _ _ _ Happend Hh).
Qed.

Lemma tracker_mode_rewrites_witness :
  exists prs w3 counts w4,
    tracker_counts_start (config_of tracker_mode_world) tracker_mode_world prs w3 /\
    compute_tracker_counts (GH_OWNER (config_of tracker_mode_world))
      (GH_REPO (config_of tracker_mode_world)) prs
      (TRACK_BY (config_of tracker_mode_world)) w3
    = (Returned counts, w4) /\
    read_ws (GOOGLE_SHEETS_ID (config_of tracker_mode_world),
             TRACKER_SHEET_NAME (config_of tracker_mode_world))
      (main demo_isoparse tracker_mode_world).2
    = Some (tracker_headers :: tracker_rows counts).
Proof.
  apply (tracker_mode_rewrites demo_isoparse tracker_mode_world
           (config_of tracker_mode_world) tracker_mode_world
           (main demo_isoparse tracker_mode_world).2).
  - vm_compute. reflexivity.
  - vm_compute. reflexivity.
  - vm_compute. reflexivity.
Defined.

(** ** A valid configuration *)

Lemma not_misconfigured w :
  ~ misconfigured w ->
  missing_names w = [] /\ bad_mode w = false /\ bad_track_by w = false.
Proof.
  unfold misconfigured, missing_names, name_if_empty. intros H.
  assert (Ht : forall k d, resolved w k d <> "" -> Py.truthy (resolved w k d) = true).
  { intros k d Hne. destruct (Py.truthy (resolved w k d)) eqn:E; [done |].
    by apply truthy_false in E. }
  rewrite !Ht by tauto.
  destruct (no_token w); [tauto |].
  destruct (bad_mode w); [tauto |]. destruct (bad_track_by w); [tauto |]. done.
Qed.

(** X18.  In an environment without any of the problems, and with a token file
    that can be read when it is consulted, [load_configuration] returns
    the resolved configuration in an unchanged world: the required values
    and the token are not empty, MODE is 'rows' or 'tracker', and
    TRACK_BY is 'creator' or 'requester'. *)
Theorem valid_configuration_loads w :
  token_file_missing w = false -> token_file_fails w = false ->
  ~ misconfigured w ->
  load_configuration w = (Returned (config_of w), w) /\
  Py.truthy (GH_TOKEN (config_of w)) = true /\
  (MODE (config_of w) = "rows" \/ MODE (config_of w) = "tracker") /\
  (TRACK_BY (config_of w) = "creator" \/ TRACK_BY (config_of w) = "requester").
Proof.
  intros Hnm Hnf Hok.
  destruct (not_misconfigured w Hok) as (Hmissing & Hmode & Htrack).
  split.
  - rewrite (load_configuration_validates w Hnm Hnf), (missing_of_names w Hnm Hnf).
    by rewrite Hmissing, Hmode, Htrack.
  - split.
    + change (GH_TOKEN (config_of w)) with (token_of w).
      rewrite (token_of_truthy w Hnm Hnf).
      unfold misconfigured in Hok. destruct (no_token w); [tauto | done].
    + unfold bad_mode, bad_track_by in *. simpl.
      apply negb_false_iff, orb_true_iff in Hmode, Htrack.
      rewrite !String.eqb_eq in Hmode, Htrack. done.
Qed.

Lemma valid_configuration_loads_witness :
  load_configuration tracker_mode_world
  = (Returned (config_of tracker_mode_world), tracker_mode_world) /\
  Py.truthy (GH_TOKEN (config_of tracker_mode_world)) = true /\
  (MODE (config_of tracker_mode_world) = "rows"
   \/ MODE (config_of tracker_mode_world) = "tracker") /\
  (TRACK_BY (config_of tracker_mode_world) = "creator"
   \/ TRACK_BY (config_of tracker_mode_world) = "requester").
Proof.
  apply (valid_configuration_loads tracker_mode_world).
  - vm_compute. reflexivity.
  - vm_compute. reflexivity.
  - unfold misconfigured. vm_compute. intros [H | [H | [H | [H | [H | [H | H]]]]]];
      discriminate.
Defined.

(** ** The token from the environment *)

(** The world with other files and another gh tool. *)
Definition with_sources (f : string -> file_read) (g : gh_cli) (w : world) : world :=
  {| environ := environ w; files := f; gh := g; clock := clock w;
     pulls_api := pulls_api w; events_api := events_api w;
     commits_api := commits_api w; sa_info_ok := sa_info_ok w;
     sa_file_ok := sa_file_ok w;
     url_refused := url_refused w; sleep_refused := sleep_refused w;
     spreadsheets := spreadsheets w;
     trace := trace w |}.

Lemma env_token_no_file w :
  Py.truthy (env_token w) = true ->
  token_file_missing w = false /\ token_file_fails w = false /\
  token_of w = env_token w.
Proof.
  intros H. unfold token_file_missing, token_file_fails, consults_file, token_of.
  by rewrite H.
Qed.

(** X19.  With a non-empty [GH_TOKEN], neither the token file nor the gh tool
    matters: [load_configuration] gives the same outcome whatever they
    are, even a token file that cannot be read, and a configuration it
    returns carries the stripped [GH_TOKEN]. *)
Theorem env_token_wins w f g :
  Py.truthy (env_token w) = true ->
  (load_configuration (with_sources f g w)).1 = (load_configuration w).1 /\
  forall c w', load_configuration w = (Returned c, w') -> GH_TOKEN c = env_token w.
Proof.
  intros H.
  destruct (env_token_no_file w H) as (Hnm & Hnf & Htok).
  destruct (env_token_no_file (with_sources f g w) H) as (Hnm' & Hnf' & Htok').
  assert (Hcfg : config_of (with_sources f g w) = config_of w).
  { unfold config_of. rewrite Htok, Htok'. reflexivity. }
  rewrite (load_configuration_validates _ Hnm' Hnf'),
    (load_configuration_validates _ Hnm Hnf), Hcfg.
  change (bad_mode (with_sources f g w)) with (bad_mode w).
  change (bad_track_by (with_sources f g w)) with (bad_track_by w).
  split.
  - destruct (missing_of (config_of w)); [| done].
    destruct (bad_mode w); [done |]. by destruct (bad_track_by w).
  - intros c w'. destruct (missing_of (config_of w)); [| done].
    destruct (bad_mode w); [done |]. destruct (bad_track_by w); [done |].
    intros [= <- _]. exact Htok.
Qed.

Lemma env_token_wins_witness :
  (load_configuration
     (with_sources (fun _ => FileFails "[Errno 13] Permission denied") GhRaises
        tracker_mode_world)).1
  = (load_configuration tracker_mode_world).1 /\
  forall c w', load_configuration tracker_mode_world = (Returned c, w') ->
    GH_TOKEN c = env_token tracker_mode_world.
Proof.
  apply (env_token_wins tracker_mode_world
           (fun _ => FileFails "[Errno 13] Permission denied") GhRaises).
  vm_compute. reflexivity.
Defined.

(** ** The first run on an empty worksheet *)

Lemma load_configuration_world w c w0 :
  load_configuration w = (Returned c, w0) -> w0 = w.
Proof.
  unfold load_configuration. rewrite <- bind_assoc. intros H.
  bind_as H token w1 Htoken.
  assert (w1 = w) as ->.
  { unfold bind in Htoken. rewrite token_from_env_or_file_eq in Htoken.
    destruct (Py.truthy (env_token w)).
    - rewrite token_from_gh_eq in Htoken. by injection Htoken as _ <-.
    - destruct (Py.truthy (token_file_of w)).
      + destruct (files w (token_file_of w)); try done.
        rewrite token_from_gh_eq in Htoken. by injection Htoken as _ <-.
      + rewrite token_from_gh_eq in Htoken. by injection Htoken as _ <-. }
  cbv beta iota zeta delta [bind getenv_choice getenv ret raise] in H.
  match type of H with context [missing_of ?c0] => destruct (missing_of c0) end;
    [| done].
  match type of H with context [negb ?b] => destruct (negb b) end; [done |].
  match type of H with context [negb ?b] => destruct (negb b) end; [done |].
  by injection H as _ <-.
Qed.

Lemma get_pull_requests_spreadsheets owner repo state w :
  spreadsheets (get_pull_requests owner repo state w).2 = spreadsheets w.
Proof.
  unfold get_pull_requests, paginate. cbv zeta.
  match goal with |- context [paginate_loop ?s ?u ?p w] =>
    pose proof (paginate_loop_spreadsheets s u p w) as H;
    destruct (paginate_loop s u p w) end.
  exact H.
Qed.

Lemma ensure_headers_empty h w w' :
  ensure_headers h w = (Returned tt, w') ->
  read_ws h w = Some [] -> read_ws h w' = Some [row_headers].
Proof.
  unfold ensure_headers, bind, row_values. intros H Hread.
  rewrite Hread in H. simpl in H.
  unfold ws_append_row, ws_append_rows in H.
  change (read_ws h (emit ?e w)) with (read_ws h w) in H. rewrite Hread in H.
  injection H as <-. change (read_ws h (emit ?e ?w0)) with (read_ws h w0).
  by eapply (read_write_ws h _ (emit _ w)).
Qed.

(** X20.  When [main] returns in rows mode and the worksheet did not exist or
    was empty before the run, the worksheet afterwards holds the header
    row followed by one row per fetched pull request. *)
Theorem rows_mode_first_run isoparse w c w0 w' :
  load_configuration w = (Returned c, w0) ->
  MODE c = "rows" ->
  default [] (read_ws (GOOGLE_SHEETS_ID c, SHEET_NAME c) w) = [] ->
  main isoparse w = (Returned tt, w') ->
  exists prs w1 rows,
    get_pull_requests (GH_OWNER c) (GH_REPO c) "all" w0 = (Returned prs, w1) /\
    length rows = length prs /\
    read_ws (GOOGLE_SHEETS_ID c, SHEET_NAME c) w' = Some (row_headers :: rows).
Proof.
  intros Hload Hmode Hempty H.
  pose proof (load_configuration_world _ _ _ Hload) as ->.
  unfold main in H.
  bind_as H c' wc Hc. rewrite Hload in Hc. injection Hc as <- <-.
  bind_as H prs w1 Hprs.
  bind_as H u1 wp1 Hp1. injection Hp1 as _ <-.
  bind_as H u2 wp2 Hp2. injection Hp2 as _ <-.
  rewrite Hmode in H. change (String.eqb "rows" "tracker") with false in H.
  cbv iota in H.
  bind_as H h wc1 Hconnect.
  destruct (connect_sheet_returns _ _ _ _ _ _ Hconnect) as (-> & Hsheet & _ & _).
  change (read_ws ?h (emit ?e (emit ?e' w1))) with (read_ws h w1) in Hsheet.
  assert (Hw1 : read_ws (GOOGLE_SHEETS_ID c, SHEET_NAME c) w1
                = read_ws (GOOGLE_SHEETS_ID c, SHEET_NAME c) w).
  { apply read_ws_spreadsheets.
    pose proof (get_pull_requests_spreadsheets (GH_OWNER c) (GH_REPO c) "all" w) as Hs.
    by rewrite Hprs in Hs. }
  rewrite Hw1, Hempty in Hsheet.
  bind_as H u3 w2 Hheaders. destruct u3.
  pose proof (ensure_headers_empty _ _ _ Hheaders Hsheet) as Hh.
  bind_as H rows w3 Hrows.
  apply rows_loop_returns in Hrows. destruct Hrows as (new & -> & Hrun).
  simpl app in H.
  bind_as H u4 w4 Happend. destruct u4.
  unfold print, perform in H. injection H as <-.
  exists prs, w1, new. split; [done |].
  split; [by eapply rows_run_length |].
  change (read_ws ?h (emit ?e ?w0)) with (read_ws h w0).
  apply (append_rows_read _ _ _ _ [row_headers] Happend).
  rewrite (read_ws_spreadsheets _ w2 w3); [done |].
  by eapply rows_run_spreadsheets.
Qed.

Lemma rows_mode_first_run_witness :
  exists prs w1 rows,
    get_pull_requests (GH_OWNER (config_of rows_world)) (GH_REPO (config_of rows_world))
      "all" rows_world = (Returned prs, w1) /\
    length rows = length prs /\
    read_ws (GOOGLE_SHEETS_ID (config_of rows_world), SHEET_NAME (config_of rows_world))
      (main demo_isoparse rows_world).2
    = Some (row_headers :: rows).
Proof.
  apply (rows_mode_first_run demo_isoparse rows_world (config_of rows_world) rows_world
           (main demo_isoparse rows_world).2).
  - vm_compute. reflexivity.
  - vm_compute. reflexivity.
  - vm_compute. reflexivity.
  - vm_compute. reflexivity.
Defined.
